(** * owockibot SDK: the bounty-board client and its domain mapper

    A shallow embedding of [owockibot/models.py], [owockibot/client.py] and
    [owockibot/async_client.py].

    - [Py] models the part of the Python runtime the SDK relies on: decoded
      JSON values, truthiness, [dict.get], subscripting, the string methods
      used, exceptions as a result type, IEEE doubles (through [SpecFloat]),
      the [datetime] constructors [fromtimestamp] and [fromisoformat] with
      [isoformat], and the text of values and exceptions ([Py.Render]).
      Strings are ASCII.
    - [Submission], [Payment], [Bounty], [Stats], [ClaimResult] and
      [SubmitResult] embed the dataclasses of [models.py]; [Bounty.from_dict]
      and [Stats.from_dict] are the mappers.  A mapper takes the [runtime] it
      runs in: the clock and the local time zone.
    - [Net] is the transport seen by both clients: the answers of the
      service to the successive calls of a request, each a response that
      declares JSON or does not, or a fault, and the trace of calls and
      sleeps a request leaves behind.
    - [BountyClient] and [AsyncBountyClient] embed the two clients;
      [Session] is the aiohttp session the latter holds. *)

From Stdlib Require Import ZArith List String Ascii Bool Lia DecimalString.
From Stdlib Require Import Floats.SpecFloat.
Import ListNotations.

Set Warnings "-register-all".

Open Scope list_scope.
Open Scope string_scope.
Open Scope Z_scope.

(* ================================================================== *)
(** * The Python runtime *)
(* ================================================================== *)

Module Py.

(** ** Values

    What [json.loads] (or aiohttp's [response.json()]) hands to the SDK.
    A [dict] is kept as an association list in insertion order; [dict_get]
    reads the first binding of a key, so every Python dict is represented
    by a list without repeated keys.  A Python [float] is an IEEE double. *)

Inductive value : Type :=
| VNone
| VBool (b : bool)
| VInt (z : Z)
| VFloat (f : spec_float)
| VStr (s : string)
| VList (items : list value)
| VDict (entries : list (string * value)).

(** ** Exceptions *)

Inductive exn : Type :=
| BountyBoardError (why : board_msg)
| BountyAlreadyClaimedError (claimed_by claimed_at : value)
| ValueError (msg : string)
| TypeError (msg : string)
| AttributeError (msg : string)
| KeyError (key : string)
| IndexError (msg : string)
| OverflowError (msg : string)
| JSONDecodeError (raw : string)
| TransportError (what : string)
| ContentTypeError (status : Z)
| RuntimeError (msg : string)
(** The three messages a [BountyBoardError] is raised with:
    [f"API error {code}: {detail}"], [f"Request failed: {e}"] and
    ["Max retries exceeded"].  The format arguments are kept as they are;
    [Render.board_msg_text] renders them. *)
with board_msg : Type :=
| ApiError (code : Z) (detail : value)
| RequestFailed (cause : exn)
| MaxRetriesExceeded.

Inductive result (A : Type) : Type :=
| Ok (a : A)
| Raise (e : exn).
Arguments Ok {A} a.
Arguments Raise {A} e.

Definition bind {A B : Type} (r : result A) (k : A -> result B) : result B :=
  match r with
  | Ok a => k a
  | Raise e => Raise e
  end.

Declare Scope py_scope.
Delimit Scope py_scope with py.
Notation "x <- c ;; k" := (bind c (fun x => k))
  (at level 61, c at next level, right associativity) : py_scope.
Open Scope py_scope.

(** [[f(x) for x in xs]]: left to right, the first exception ends it. *)
Fixpoint mapM {A B : Type} (f : A -> result B) (xs : list A) : result (list B) :=
  match xs with
  | [] => Ok []
  | x :: rest => y <- f x ;; ys <- mapM f rest ;; Ok (y :: ys)
  end.

(** [[x for x in xs if p(x)]] where the test itself may raise. *)
Fixpoint filterM {A : Type} (p : A -> result bool) (xs : list A) : result (list A) :=
  match xs with
  | [] => Ok []
  | x :: rest =>
      keep <- p x ;; ys <- filterM p rest ;;
      Ok (if keep then x :: ys else ys)
  end.

(** [any(p(x) for x in xs)]: stops at the first [True]. *)
Fixpoint anyM {A : Type} (p : A -> result bool) (xs : list A) : result bool :=
  match xs with
  | [] => Ok false
  | x :: rest => hit <- p x ;; if hit then Ok true else anyM p rest
  end.

(** ** Strings (ASCII) *)

Definition lower_ascii (c : ascii) : ascii :=
  let n := nat_of_ascii c in
  if (Nat.leb 65 n && Nat.leb n 90)%bool then ascii_of_nat (n + 32) else c.

(** [s.lower()] *)
Fixpoint lower (s : string) : string :=
  match s with
  | EmptyString => EmptyString
  | String c rest => String (lower_ascii c) (lower rest)
  end.

(** [needle in hay] on two strings. *)
Fixpoint contains (needle hay : string) : bool :=
  if String.prefix needle hay then true
  else match hay with
       | EmptyString => false
       | String _ rest => contains needle rest
       end.

(** [s.replace(c, by)] for a one-character pattern. *)
Fixpoint replace_char (c : ascii) (by_ : string) (s : string) : string :=
  match s with
  | EmptyString => EmptyString
  | String a rest =>
      if Ascii.eqb a c then by_ ++ replace_char c by_ rest
      else String a (replace_char c by_ rest)
  end.

(** [s.rstrip(c)] for a one-character set. *)
Fixpoint rstrip_char (c : ascii) (s : string) : string :=
  match s with
  | EmptyString => EmptyString
  | String a rest =>
      match rstrip_char c rest with
      | EmptyString => if Ascii.eqb a c then EmptyString else String a EmptyString
      | kept => String a kept
      end
  end.

(** ** Doubles *)

Definition prec : Z := 53.
Definition emax : Z := 1024.

(** [float(z)] for an [int]: round to nearest, ties to even. *)
Definition float_of_Z (z : Z) : spec_float := binary_normalize prec emax z 0 false.

Definition fzero : spec_float := S754_zero false.

Definition is_nan (f : spec_float) : bool :=
  match f with S754_nan => true | _ => false end.

Definition is_inf (f : spec_float) : bool :=
  match f with S754_infinity _ => true | _ => false end.

Definition fmul (x y : spec_float) : spec_float := SFmul prec emax x y.
Definition fdiv (x y : spec_float) : spec_float := SFdiv prec emax x y.

(** The correctly rounded quotient of two integers, [a / b] on [int]s. *)
Definition int_true_div (a b : Z) : result spec_float :=
  match a, b with
  | _, Z0 => Raise (ValueError "division by zero")
  | Z0, _ => Ok (S754_zero (b <? 0))
  | _, _ =>
      let q := fdiv (S754_finite (a <? 0) (Z.to_pos (Z.abs a)) 0)
                    (S754_finite (b <? 0) (Z.to_pos (Z.abs b)) 0) in
      if is_inf q then Raise (OverflowError "integer division result too large for a float")
      else Ok q
  end.

(** [int(f)]: truncation towards zero. *)
Definition int_of_float (f : spec_float) : result Z :=
  match f with
  | S754_zero _ => Ok 0
  | S754_nan => Raise (ValueError "cannot convert float NaN to integer")
  | S754_infinity _ => Raise (OverflowError "cannot convert float infinity to integer")
  | S754_finite s m e =>
      let mag := if 0 <=? e then Z.pos m * 2 ^ e else Z.pos m / 2 ^ (- e) in
      Ok (if s then - mag else mag)
  end.

(** [round(f)] to the nearest integer, ties to even (finite [f]). *)
Definition round_half_even (f : spec_float) : Z :=
  match f with
  | S754_finite s m e =>
      let mag :=
        if 0 <=? e then Z.pos m * 2 ^ e
        else
          let d := 2 ^ (- e) in
          let q := Z.pos m / d in
          let r := Z.pos m mod d in
          match 2 * r ?= d with
          | Lt => q
          | Gt => q + 1
          | Eq => if Z.even q then q else q + 1
          end in
      if s then - mag else mag
  | _ => 0
  end.

(** [math.modf(f)] for a finite [f]: the integral part as an integer and the
    fractional part, both carrying the sign of [f]. *)
Definition modf (f : spec_float) : Z * spec_float :=
  match f with
  | S754_finite s m e =>
      if 0 <=? e then ((if s then - (Z.pos m * 2 ^ e) else Z.pos m * 2 ^ e), S754_zero s)
      else
        let d := 2 ^ (- e) in
        let q := Z.pos m / d in
        let r := Z.pos m mod d in
        ((if s then - q else q),
         binary_normalize prec emax (if s then - r else r) e s)
  | _ => (0, f)
  end.

(** ** Truthiness, dictionaries, subscripts *)

(** [bool(v)], as in [if v:]. *)
Definition truthy (v : value) : bool :=
  match v with
  | VNone => false
  | VBool b => b
  | VInt z => negb (z =? 0)
  | VFloat f => match f with S754_zero _ => false | _ => true end
  | VStr s => negb (String.eqb s "")
  | VList items => match items with [] => false | _ => true end
  | VDict entries => match entries with [] => false | _ => true end
  end.

(** [type(v).__name__] *)
Definition type_name (v : value) : string :=
  match v with
  | VNone => "NoneType"
  | VBool _ => "bool"
  | VInt _ => "int"
  | VFloat _ => "float"
  | VStr _ => "str"
  | VList _ => "list"
  | VDict _ => "dict"
  end.

Definition no_attribute (v : value) (attr : string) : exn :=
  AttributeError ("'" ++ type_name v ++ "' object has no attribute '" ++ attr ++ "'").

(** The binding of a key in a dict. *)
Fixpoint dict_get (entries : list (string * value)) (key : string) : option value :=
  match entries with
  | [] => None
  | (k, v) :: rest => if String.eqb k key then Some v else dict_get rest key
  end.

(** [v.get(key, default)]: only a dict has [get]. *)
Definition get (v : value) (key : string) (default : value) : result value :=
  match v with
  | VDict entries =>
      Ok (match dict_get entries key with Some x => x | None => default end)
  | _ => Raise (no_attribute v "get")
  end.

(** [v[key]] with a string key. *)
Definition subscript (v : value) (key : string) : result value :=
  match v with
  | VDict entries =>
      match dict_get entries key with
      | Some x => Ok x
      | None => Raise (KeyError key)
      end
  | VList _ => Raise (TypeError "list indices must be integers or slices, not str")
  | VStr _ => Raise (TypeError "string indices must be integers")
  | _ => Raise (TypeError ("'" ++ type_name v ++ "' object is not subscriptable"))
  end.

(** [v[-1]] *)
Definition last_item (v : value) : result value :=
  match v with
  | VList items =>
      match rev items with
      | x :: _ => Ok x
      | [] => Raise (IndexError "list index out of range")
      end
  | VStr s =>
      match rev (list_ascii_of_string s) with
      | c :: _ => Ok (VStr (String c EmptyString))
      | [] => Raise (IndexError "string index out of range")
      end
  | VDict _ => Raise (KeyError "-1")
  | _ => Raise (TypeError ("'" ++ type_name v ++ "' object is not subscriptable"))
  end.

(** [for x in v]: the items of a list, the keys of a dict, the characters of a
    string. *)
Definition iterate (v : value) : result (list value) :=
  match v with
  | VList items => Ok items
  | VDict entries => Ok (map (fun kv => VStr (fst kv)) entries)
  | VStr s => Ok (map (fun c => VStr (String c EmptyString)) (list_ascii_of_string s))
  | _ => Raise (TypeError ("'" ++ type_name v ++ "' object is not iterable"))
  end.

(** [v == s] for a string [s]: only an equal string is equal to it. *)
Definition eq_str (v : value) (s : string) : bool :=
  match v with
  | VStr x => String.eqb x s
  | _ => false
  end.

(** [t in v] for a string [t]: an equal item of a list, a substring of a
    string, a key of a dict. *)
Definition str_in (t : string) (v : value) : result bool :=
  match v with
  | VList items => Ok (existsb (fun x => eq_str x t) items)
  | VStr s => Ok (contains t s)
  | VDict entries => Ok (existsb (fun kv => String.eqb (fst kv) t) entries)
  | _ => Raise (TypeError ("argument of type '" ++ type_name v ++ "' is not iterable"))
  end.

(** [isinstance(v, int)]: [bool] is a subclass of [int]. *)
Definition is_int (v : value) : bool :=
  match v with
  | VInt _ | VBool _ => true
  | _ => false
  end.

(** ** [float(...)] on text

    An optional sign, then [inf], [infinity] or [nan] in any case, or decimal
    digits (single underscores allowed between digits) with an optional
    fraction and exponent; surrounding white space is ignored.  The decimal
    value is rounded to the nearest double. *)

Definition digit_val (c : ascii) : option Z :=
  let n := nat_of_ascii c in
  if (Nat.leb 48 n && Nat.leb n 57)%bool then Some (Z.of_nat n - 48) else None.

Definition is_space (c : ascii) : bool :=
  let n := nat_of_ascii c in
  ((Nat.leb 9 n && Nat.leb n 13) || Nat.eqb n 32)%bool.

Fixpoint lstrip (s : string) : string :=
  match s with
  | String c rest => if is_space c then lstrip rest else s
  | EmptyString => s
  end.

Fixpoint rstrip (s : string) : string :=
  match s with
  | EmptyString => EmptyString
  | String a rest =>
      match rstrip rest with
      | EmptyString => if is_space a then EmptyString else String a EmptyString
      | kept => String a kept
      end
  end.

(** The rest of a digit run: [acc] is the number read so far, [n] the count
    of digits. *)
Fixpoint digit_run (s : string) (acc n : Z) : Z * Z * string :=
  match s with
  | String c rest =>
      match digit_val c with
      | Some d => digit_run rest (10 * acc + d) (n + 1)
      | None =>
          match rest with
          | String c2 rest2 =>
              match Ascii.eqb c "_", digit_val c2 with
              | true, Some d => digit_run rest2 (10 * acc + d) (n + 1)
              | _, _ => (acc, n, s)
              end
          | EmptyString => (acc, n, s)
          end
      end
  | EmptyString => (acc, n, s)
  end.

(** A digit run continuing [acc]; [None] when [s] does not start with a
    digit. *)
Definition digitpart (s : string) (acc : Z) : option (Z * Z * string) :=
  match s with
  | String c rest =>
      match digit_val c with
      | Some d => Some (digit_run rest (10 * acc + d) 1)
      | None => None
      end
  | EmptyString => None
  end.

Definition take_sign (s : string) : bool * string :=
  match s with
  | String "-" rest => (true, rest)
  | String "+" rest => (false, rest)
  | _ => (false, s)
  end.

(** The mantissa digits and the position of the point: [Some (m, k, rest)]
    stands for [m * 10 ^ (- k)]. *)
Definition decimal_number (s : string) : option (Z * Z * string) :=
  match digitpart s 0 with
  | Some (i, _, String "." rest) =>
      match digitpart rest i with
      | Some (m, k, rest') => Some (m, k, rest')
      | None => Some (i, 0, rest)
      end
  | Some (i, _, rest) => Some (i, 0, rest)
  | None =>
      match s with
      | String "." rest => digitpart rest 0
      | _ => None
      end
  end.

Definition decimal_exponent (s : string) : option (Z * string) :=
  match s with
  | String c rest =>
      if (Ascii.eqb c "e" || Ascii.eqb c "E")%bool then
        let '(neg, rest') := take_sign rest in
        match digitpart rest' 0 with
        | Some (x, _, rest'') => Some ((if neg then - x else x), rest'')
        | None => None
        end
      else Some (0, s)
  | EmptyString => Some (0, s)
  end.

(** [m * 10 ^ e10], correctly rounded. *)
Definition float_of_decimal (neg : bool) (m e10 : Z) : spec_float :=
  match m with
  | Z.pos p =>
      if 0 <=? e10 then binary_normalize prec emax ((if neg then -1 else 1) * (m * 10 ^ e10)) 0 neg
      else fdiv (S754_finite neg p 0) (S754_finite false (Z.to_pos (10 ^ (- e10))) 0)
  | _ => S754_zero neg
  end.

Definition float_of_string (text : string) : result spec_float :=
  let bad := Raise (ValueError ("could not convert string to float: " ++ text)) in
  let '(neg, body) := take_sign (rstrip (lstrip text)) in
  let word := lower body in
  if (String.eqb word "inf" || String.eqb word "infinity")%bool then Ok (S754_infinity neg)
  else if String.eqb word "nan" then Ok S754_nan
  else
    match decimal_number body with
    | Some (m, k, rest) =>
        match decimal_exponent rest with
        | Some (x, EmptyString) => Ok (float_of_decimal neg m (x - k))
        | _ => bad
        end
    | None => bad
    end.

(** [float(v)] *)
Definition to_float (v : value) : result spec_float :=
  match v with
  | VFloat f => Ok f
  | VInt z =>
      let f := float_of_Z z in
      if is_inf f then Raise (OverflowError "int too large to convert to float") else Ok f
  | VBool b => Ok (float_of_Z (if b then 1 else 0))
  | VStr s => float_of_string s
  | _ => Raise (TypeError ("float() argument must be a string or a real number, not '"
                           ++ type_name v ++ "'"))
  end.

(** [int(float(v))] *)
Definition int_float (v : value) : result Z :=
  f <- to_float v ;; int_of_float f.

(** [v / 1000] *)
Definition div1000 (v : value) : result spec_float :=
  match v with
  | VInt z => int_true_div z 1000
  | VBool b => int_true_div (if b then 1 else 0) 1000
  | VFloat f => Ok (fdiv f (float_of_Z 1000))
  | _ => Raise (TypeError ("unsupported operand type(s) for /: '" ++ type_name v ++ "' and 'int'"))
  end.

(** ** [datetime]

    A [datetime] is its calendar fields.  [tzinfo] is [None] for a naive
    value and the UTC offset in microseconds for an aware one (the only
    [tzinfo] the SDK ever meets is the fixed offset [fromisoformat] builds). *)

Record datetime : Type := mk_datetime {
  year : Z;
  month : Z;
  day : Z;
  hour : Z;
  minute : Z;
  second : Z;
  microsecond : Z;
  tzinfo : option Z
}.

Definition is_leap (y : Z) : bool :=
  ((y mod 4 =? 0) && (negb (y mod 100 =? 0) || (y mod 400 =? 0)))%bool.

Definition days_in_month (y m : Z) : Z :=
  if m =? 2 then (if is_leap y then 29 else 28)
  else if ((m =? 4) || (m =? 6) || (m =? 9) || (m =? 11))%bool then 30
  else 31.

Definition between (lo x hi : Z) : bool := ((lo <=? x) && (x <=? hi))%bool.

Definition valid_fields (y mo d h mi s us : Z) : bool :=
  (between 1 y 9999 && between 1 mo 12 && between 1 d (days_in_month y mo)
   && between 0 h 23 && between 0 mi 59 && between 0 s 59
   && between 0 us 999999)%bool.

(** [datetime(y, mo, d, h, mi, s, us, tzinfo)]: the constructor checks the
    range of every field. *)
Definition datetime_new (y mo d h mi s us : Z) (tz : option Z) : result datetime :=
  if valid_fields y mo d h mi s us then Ok (mk_datetime y mo d h mi s us tz)
  else Raise (ValueError "datetime field out of range").

(** Days between 1970-01-01 and a proleptic Gregorian date, and back. *)
Definition days_from_civil (y m d : Z) : Z :=
  let y' := if m <=? 2 then y - 1 else y in
  let era := y' / 400 in
  let yoe := y' - era * 400 in
  let doy := (153 * (if 2 <? m then m - 3 else m + 9) + 2) / 5 + d - 1 in
  let doe := yoe * 365 + yoe / 4 - yoe / 100 + doy in
  era * 146097 + doe - 719468.

Definition civil_from_days (z : Z) : Z * Z * Z :=
  let z' := z + 719468 in
  let era := z' / 146097 in
  let doe := z' - era * 146097 in
  let yoe := (doe - doe / 1460 + doe / 36524 - doe / 146096) / 365 in
  let doy := doe - (365 * yoe + yoe / 4 - yoe / 100) in
  let mp := (5 * doy + 2) / 153 in
  let d := doy - (153 * mp + 2) / 5 + 1 in
  let m := if mp <? 10 then mp + 3 else mp - 9 in
  ((yoe + era * 400 + (if m <=? 2 then 1 else 0)), m, d).

(** What a conversion reads from its surroundings: the clock
    ([datetime.now()]) and the local time zone, as the offset from UTC in
    seconds that is in force at a given epoch second. *)
Record runtime : Type := mk_runtime {
  now : datetime;
  utcoffset : Z -> Z
}.

(** Seconds and microseconds of a timestamp: the fraction is scaled to
    microseconds and rounded half to even, carrying into the seconds. *)
Definition timeval (f : spec_float) : result (Z * Z) :=
  if is_nan f then Raise (ValueError "Invalid value NaN (not a number)")
  else if is_inf f then Raise (OverflowError "timestamp out of range")
  else
    let '(t, frac) := modf f in
    let us := round_half_even (fmul frac (float_of_Z 1000000)) in
    if 1000000 <=? us then Ok (t + 1, us - 1000000)
    else if us <? 0 then Ok (t - 1, us + 1000000)
    else Ok (t, us).

(** [datetime.fromtimestamp(f)]: the naive local time of the timestamp. *)
Definition fromtimestamp (rt : runtime) (f : spec_float) : result datetime :=
  tv <- timeval f ;;
  let '(t, us) := tv in
  let loc := t + utcoffset rt t in
  let '(y, mo, d) := civil_from_days (loc / 86400) in
  let rem := loc mod 86400 in
  datetime_new y mo d (rem / 3600) (rem mod 3600 / 60) (rem mod 60) us None.

(** [datetime.fromtimestamp(v / 1000)] *)
Definition fromtimestamp_ms (rt : runtime) (v : value) : result datetime :=
  f <- div1000 v ;; fromtimestamp rt f.

(** [a == b] on two datetimes: field by field when both are naive, as
    instants when both are aware, never across the two kinds. *)
Definition wall_us (a : datetime) : Z :=
  ((days_from_civil (year a) (month a) (day a) * 86400
    + hour a * 3600 + minute a * 60 + second a) * 1000000) + microsecond a.

Definition datetime_eqb (a b : datetime) : bool :=
  match tzinfo a, tzinfo b with
  | None, None =>
      ((year a =? year b) && (month a =? month b) && (day a =? day b)
       && (hour a =? hour b) && (minute a =? minute b) && (second a =? second b)
       && (microsecond a =? microsecond b))%bool
  | Some oa, Some ob => wall_us a - oa =? wall_us b - ob
  | _, _ => false
  end.

(** *** ISO 8601 text

    The format [datetime.isoformat()] writes, which every supported
    interpreter reads back:
    [YYYY-MM-DD], then optionally one separator character and
    [HH[:MM[:SS[.fff[fff]]]]], then optionally an offset
    [+HH:MM[:SS[.ffffff]]] or [-HH:MM[:SS[.ffffff]]].
    Text outside this format is rejected with [ValueError], as interpreters
    before 3.11 do; later ones read more of ISO 8601 (a [Z] suffix among
    it), so that nothing below is made to rest on a rejection. *)

Fixpoint take_digits (n : nat) (s : string) (acc : Z) : option (Z * string) :=
  match n with
  | O => Some (acc, s)
  | S k =>
      match s with
      | String c rest =>
          match digit_val c with
          | Some d => take_digits k rest (10 * acc + d)
          | None => None
          end
      | EmptyString => None
      end
  end.

Definition expect (c : ascii) (s : string) : option string :=
  match s with
  | String a rest => if Ascii.eqb a c then Some rest else None
  | EmptyString => None
  end.

Definition starts_with_digit (s : string) : bool :=
  match s with
  | String c _ => match digit_val c with Some _ => true | None => false end
  | EmptyString => false
  end.

(** [.ffffff] or [.fff], in microseconds. *)
Definition parse_fraction (s : string) : option (Z * string) :=
  match take_digits 6 s 0 with
  | Some (us, rest) => if starts_with_digit rest then None else Some (us, rest)
  | None =>
      match take_digits 3 s 0 with
      | Some (ms, rest) => if starts_with_digit rest then None else Some (ms * 1000, rest)
      | None => None
      end
  end.

(** [HH[:MM[:SS[.fff[fff]]]]] *)
Definition parse_hh_mm_ss_ff (s : string) : option (Z * Z * Z * Z * string) :=
  match take_digits 2 s 0 with
  | None => None
  | Some (hh, String ":" s1) =>
      match take_digits 2 s1 0 with
      | None => None
      | Some (mm, String ":" s2) =>
          match take_digits 2 s2 0 with
          | None => None
          | Some (ss, String "." s3) =>
              match parse_fraction s3 with
              | Some (us, rest) => Some (hh, mm, ss, us, rest)
              | None => None
              end
          | Some (ss, rest) => Some (hh, mm, ss, 0, rest)
          end
      | Some (mm, rest) => Some (hh, mm, 0, 0, rest)
      end
  | Some (hh, rest) => Some (hh, 0, 0, 0, rest)
  end.

(** The offset after the time, in microseconds; [Some None] when there is
    none. *)
Definition parse_offset (s : string) : option (option Z) :=
  match s with
  | EmptyString => Some None
  | String c rest =>
      if (Ascii.eqb c "+" || Ascii.eqb c "-")%bool then
        match parse_hh_mm_ss_ff rest with
        | Some (hh, mm, ss, us, EmptyString) =>
            let off := (hh * 3600 + mm * 60 + ss) * 1000000 + us in
            if off <? 86400 * 1000000
            then Some (Some (if Ascii.eqb c "-" then - off else off))
            else None
        | _ => None
        end
      else None
  end.

Definition parse_date (s : string) : option (Z * Z * Z * string) :=
  match take_digits 4 s 0 with
  | Some (y, String "-" s1) =>
      match take_digits 2 s1 0 with
      | Some (mo, String "-" s2) =>
          match take_digits 2 s2 0 with
          | Some (d, rest) => Some (y, mo, d, rest)
          | None => None
          end
      | _ => None
      end
  | _ => None
  end.

Definition parse_isoformat (s : string) : option (result datetime) :=
  match parse_date s with
  | Some (y, mo, d, EmptyString) => Some (datetime_new y mo d 0 0 0 0 None)
  | Some (y, mo, d, String _ time) =>
      match parse_hh_mm_ss_ff time with
      | Some (hh, mm, ss, us, rest) =>
          match parse_offset rest with
          | Some tz => Some (datetime_new y mo d hh mm ss us tz)
          | None => None
          end
      | None => None
      end
  | None => None
  end.

(** [datetime.fromisoformat(v)] *)
Definition fromisoformat (v : value) : result datetime :=
  match v with
  | VStr s =>
      match parse_isoformat s with
      | Some r => r
      | None => Raise (ValueError ("Invalid isoformat string: " ++ s))
      end
  | _ => Raise (TypeError "fromisoformat: argument must be str")
  end.

Definition digit_char (d : Z) : ascii := ascii_of_nat (48 + Z.to_nat d).

(** [z] written with exactly [n] decimal digits. *)
Fixpoint pad (n : nat) (z : Z) : string :=
  match n with
  | O => EmptyString
  | S k => String (digit_char (z / 10 ^ Z.of_nat k)) (pad k (z mod 10 ^ Z.of_nat k))
  end.

Definition format_offset (tz : option Z) : string :=
  match tz with
  | None => EmptyString
  | Some off =>
      let a := Z.abs off in
      let secs := a / 1000000 in
      let us := a mod 1000000 in
      String (if (off <? 0)%Z then "-"%char else "+"%char)
        (pad 2 (secs / 3600) ++ ":" ++ pad 2 (secs mod 3600 / 60)
         ++ (if ((secs mod 60 =? 0) && (us =? 0))%bool then EmptyString
             else ":" ++ pad 2 (secs mod 60)
                  ++ (if us =? 0 then EmptyString else "." ++ pad 6 us)))
  end.

(** [dt.isoformat()] *)
Definition isoformat (dt : datetime) : string :=
  pad 4 (year dt) ++ "-" ++ pad 2 (month dt) ++ "-" ++ pad 2 (day dt) ++ "T"
  ++ pad 2 (hour dt) ++ ":" ++ pad 2 (minute dt) ++ ":" ++ pad 2 (second dt)
  ++ (if microsecond dt =? 0 then EmptyString else "." ++ pad 6 (microsecond dt))
  ++ format_offset (tzinfo dt).

(** ** Text of values and exceptions

    [str] and [repr], as the f-strings of the clients use them.  The text
    of a [float] (its shortest round-trip decimal) and of a JSON decoding
    error is not modelled: rendering is partial there. *)

Module Render.

Definition int_text (z : Z) : string := NilZero.string_of_int (Z.to_int z).

Definition hex_digit (n : nat) : ascii :=
  if Nat.ltb n 10 then ascii_of_nat (48 + n) else ascii_of_nat (87 + n).

Definition has_char (c : ascii) (s : string) : bool :=
  existsb (Ascii.eqb c) (list_ascii_of_string s).

(** One character inside a string literal quoted with [q]. *)
Definition escape_char (q c : ascii) : string :=
  let n := nat_of_ascii c in
  if (Ascii.eqb c q || Ascii.eqb c "\")%bool then String "\" (String c EmptyString)
  else if Nat.eqb n 9 then "\t"
  else if Nat.eqb n 10 then "\n"
  else if Nat.eqb n 13 then "\r"
  else if (Nat.ltb n 32 || Nat.eqb n 127)%bool
       then String "\" (String "x" (String (hex_digit (n / 16))
                                      (String (hex_digit (n mod 16)) EmptyString)))
  else String c EmptyString.

Fixpoint escape (q : ascii) (s : string) : string :=
  match s with
  | EmptyString => EmptyString
  | String c rest => escape_char q c ++ escape q rest
  end.

(** [repr(s)]: single quotes, unless the text has a single quote and no
    double quote. *)
Definition double_quote : ascii := ascii_of_nat 34.

Definition repr_str (s : string) : string :=
  let q := if (has_char "'" s && negb (has_char double_quote s))%bool
           then double_quote else "'"%char in
  String q (escape q s ++ String q EmptyString).

Fixpoint join (sep : string) (parts : list string) : string :=
  match parts with
  | [] => EmptyString
  | [x] => x
  | x :: rest => x ++ sep ++ join sep rest
  end.

Fixpoint sequence {A : Type} (xs : list (option A)) : option (list A) :=
  match xs with
  | [] => Some []
  | Some x :: rest => option_map (cons x) (sequence rest)
  | None :: _ => None
  end.

Fixpoint repr (v : value) : option string :=
  match v with
  | VNone => Some "None"
  | VBool true => Some "True"
  | VBool false => Some "False"
  | VInt z => Some (int_text z)
  | VFloat _ => None
  | VStr s => Some (repr_str s)
  | VList items =>
      option_map (fun parts => "[" ++ join ", " parts ++ "]") (sequence (map repr items))
  | VDict entries =>
      option_map (fun parts => "{" ++ join ", " parts ++ "}")
        (sequence (map (fun kv => option_map (fun t => repr_str (fst kv) ++ ": " ++ t)
                                    (repr (snd kv))) entries))
  end.

(** [str(v)] *)
Definition str (v : value) : option string :=
  match v with
  | VStr s => Some s
  | _ => repr v
  end.

(** [str(e)] for an exception, and the message of a [BountyBoardError]. *)
Fixpoint exn_text (e : exn) : option string :=
  match e with
  | BountyBoardError why => board_msg_text why
  | BountyAlreadyClaimedError who _ =>
      option_map (fun t => "Bounty already claimed by " ++ t) (str who)
  | ValueError msg | TypeError msg | AttributeError msg | IndexError msg
  | OverflowError msg | RuntimeError msg => Some msg
  | KeyError key => Some (repr_str key)
  | JSONDecodeError _ | ContentTypeError _ => None
  | TransportError what => Some what
  end
with board_msg_text (m : board_msg) : option string :=
  match m with
  | ApiError code detail =>
      option_map (fun t => "API error " ++ int_text code ++ ": " ++ t) (str detail)
  | RequestFailed cause => option_map (fun t => "Request failed: " ++ t) (exn_text cause)
  | MaxRetriesExceeded => Some "Max retries exceeded"
  end.

End Render.

End Py.

(* ================================================================== *)
(** * models.py *)
(* ================================================================== *)

Import Py.

Module Submission.

Record t : Type := mk {
  id : value;
  content : value;
  proof : value;
  submitted_at : datetime
}.

(** The element of the comprehension in [Bounty.from_dict]. *)
Definition of_value (rt : runtime) (s : value) : result t :=
  i <- subscript s "id" ;;
  c <- subscript s "content" ;;
  p <- get s "proof" VNone ;;
  raw <- subscript s "submittedAt" ;;
  at_ <- fromtimestamp_ms rt raw ;;
  Ok (mk i c p at_).

End Submission.

Module Payment.

Record t : Type := mk {
  chain : value;
  token : value;
  tx_hash : value;
  gross_reward : value;
  net_reward : value;
  fee : value;
  fee_percent : value;
  processed_at : datetime
}.

End Payment.

(** [text.replace("Z", "+00:00")] *)
Definition replace_Z (v : value) : result value :=
  match v with
  | VStr s => Ok (VStr (replace_char "Z" "+00:00" s))
  | _ => Raise (no_attribute v "replace")
  end.

Module Bounty.

Record t : Type := mk {
  id : value;
  uuid : value;
  title : value;
  description : value;
  reward : Z;
  reward_formatted : value;
  status : value;
  creator : value;
  deadline : option datetime;
  tags : value;
  requirements : value;
  submissions : list Submission.t;
  claimed_by : value;
  claimed_at : option datetime;
  completed_at : option datetime;
  payment : option Payment.t
}.

(** [submissions = [Submission(...) for s in data.get("submissions", [])]] *)
Definition parse_submissions (rt : runtime) (data : value) : result (list Submission.t) :=
  raw <- get data "submissions" (VList []) ;;
  items <- iterate raw ;;
  mapM (Submission.of_value rt) items.

(** [processed_at=datetime.fromisoformat(p["processedAt"].replace("Z", "+00:00"))
                  if p.get("processedAt") else datetime.now()] *)
Definition parse_processed_at (rt : runtime) (p : value) : result datetime :=
  probe <- get p "processedAt" VNone ;;
  if truthy probe then
    raw <- subscript p "processedAt" ;;
    text <- replace_Z raw ;;
    fromisoformat text
  else Ok (now rt).

(** [payment = None
    if data.get("payment") and data["payment"].get("chain"): ...] *)
Definition parse_payment (rt : runtime) (data : value) : result (option Payment.t) :=
  probe <- get data "payment" VNone ;;
  if truthy probe then
    guard <- (p <- subscript data "payment" ;; get p "chain" VNone) ;;
    if truthy guard then
      p <- subscript data "payment" ;;
      chain <- get p "chain" (VStr "base") ;;
      token <- get p "token" (VStr "USDC") ;;
      tx_hash <- get p "txHash" (VStr "") ;;
      gross_reward <- get p "grossReward" (VInt 0) ;;
      net_reward <- get p "netReward" (VInt 0) ;;
      fee <- get p "fee" (VInt 0) ;;
      fee_percent <- get p "feePercent" (VStr "0%") ;;
      processed_at <- parse_processed_at rt p ;;
      Ok (Some (Payment.mk chain token tx_hash gross_reward net_reward fee
                  fee_percent processed_at))
    else Ok None
  else Ok None.

(** [deadline = None
    if data.get("deadline"):
        if isinstance(data["deadline"], int): ... else: ...] *)
Definition parse_deadline (rt : runtime) (data : value) : result (option datetime) :=
  probe <- get data "deadline" VNone ;;
  if truthy probe then
    raw <- subscript data "deadline" ;;
    if is_int raw then
      raw' <- subscript data "deadline" ;;
      dt <- fromtimestamp_ms rt raw' ;; Ok (Some dt)
    else
      raw' <- subscript data "deadline" ;;
      dt <- fromisoformat raw' ;; Ok (Some dt)
  else Ok None.

(** [datetime.fromtimestamp(data[key] / 1000) if data.get(key) else None] *)
Definition parse_optional_ms (rt : runtime) (data : value) (key : string)
  : result (option datetime) :=
  probe <- get data key VNone ;;
  if truthy probe then
    raw <- subscript data key ;;
    dt <- fromtimestamp_ms rt raw ;; Ok (Some dt)
  else Ok None.

Definition from_dict (rt : runtime) (data : value) : result t :=
  submissions <- parse_submissions rt data ;;
  payment <- parse_payment rt data ;;
  deadline <- parse_deadline rt data ;;
  id <- get data "id" (VStr "") ;;
  uuid <- get data "uuid" (VStr "") ;;
  title <- get data "title" (VStr "") ;;
  description <- get data "description" (VStr "") ;;
  reward <- (r <- get data "reward" (VInt 0) ;; int_float r) ;;
  reward_formatted <- get data "rewardFormatted" (VStr "0 USDC") ;;
  status <- get data "status" (VStr "unknown") ;;
  creator <- get data "creator" (VStr "") ;;
  tags <- get data "tags" (VList []) ;;
  requirements <- get data "requirements" (VList []) ;;
  claimed_by <- get data "claimedBy" VNone ;;
  claimed_at <- parse_optional_ms rt data "claimedAt" ;;
  completed_at <- parse_optional_ms rt data "completedAt" ;;
  Ok (mk id uuid title description reward reward_formatted status creator deadline
        tags requirements submissions claimed_by claimed_at completed_at payment).

End Bounty.

Module Stats.

Record t : Type := mk {
  total_bounties : value;
  open_bounties : value;
  claimed_bounties : value;
  completed_bounties : value;
  total_payouts : value;
  total_payouts_formatted : value
}.

Definition from_dict (data : value) : result t :=
  total_bounties <- get data "totalBounties" (VInt 0) ;;
  open_bounties <- get data "openBounties" (VInt 0) ;;
  claimed_bounties <- get data "claimedBounties" (VInt 0) ;;
  completed_bounties <- get data "completedBounties" (VInt 0) ;;
  total_payouts <- get data "totalPayouts" (VInt 0) ;;
  total_payouts_formatted <- get data "totalPayoutsFormatted" (VStr "0 USDC") ;;
  Ok (mk total_bounties open_bounties claimed_bounties completed_bounties
        total_payouts total_payouts_formatted).

End Stats.

Module ClaimResult.

Record t : Type := mk {
  id : value;
  status : value;
  claimed_at : datetime;
  claimed_by : value
}.

End ClaimResult.

Module SubmitResult.

Record t : Type := mk {
  id : value;
  status : value;
  submission_id : value
}.

End SubmitResult.

(* ================================================================== *)
(** * The transport *)
(* ================================================================== *)

Module Net.

(** The body of a response: the value it denotes when it is JSON text, or
    the text itself when it is not (an empty body is [Text ""]). *)
Inductive body : Type :=
| Json (v : value)
| Text (raw : string).

(** What one HTTP call comes back with: the final response (redirects
    followed), or a fault of the call itself (connection, timeout).  A
    response declares its body as JSON ([Content-Type: application/json]
    or a [+json] type) or it does not: [Response] is the former, [Mistyped]
    the latter. *)
Inductive wire : Type :=
| Response (status : Z) (b : body)
| Fault (what : string)
| Mistyped (status : Z) (b : body).

(** [body.strip()] is empty: nothing but white space. *)
Fixpoint blank (raw : string) : bool :=
  match raw with
  | EmptyString => true
  | String c rest => (is_space c && blank rest)%bool
  end.

(** What [async with self._session.request(...) as response] followed by
    [await response.json()] gives on an open session: aiohttp refuses a
    response that does not declare JSON, reads a blank body as [None] and
    hands the rest to [json.loads]; a fault of the call is raised before
    there is a response. *)
Definition response_json (w : wire) : result value :=
  match w with
  | Response _ (Json v) => Ok v
  | Response _ (Text raw) => if blank raw then Ok VNone else Raise (JSONDecodeError raw)
  | Mistyped status _ => Raise (ContentTypeError status)
  | Fault what => Raise (TransportError what)
  end.

(** The answers of the service to the successive calls of one request,
    counted from 0. *)
Definition transport : Type := nat -> wire.

(** What a request leaves behind. *)
Inductive event : Type :=
| Call (method url : string) (payload : option value)
| Sleep (seconds : spec_float).

Definition is_call (e : event) : bool :=
  match e with Call _ _ _ => true | Sleep _ => false end.

Definition calls (tr : list event) : nat := List.length (filter is_call tr).

Fixpoint sleeps (tr : list event) : list spec_float :=
  match tr with
  | [] => []
  | Sleep d :: rest => d :: sleeps rest
  | Call _ _ _ :: rest => sleeps rest
  end.

(** One pass through the body of the retry loop ends the request or goes
    on to the next attempt. *)
Inductive outcome : Type :=
| Done (r : result value)
| Retry.

(** [time.sleep(d)]: [d] must be a number, fit the clock and not be
    negative. *)
Definition time_sleep (d : spec_float) : result unit :=
  let ns := fmul d (float_of_Z 1000000000) in
  if is_nan d then Raise (ValueError "Invalid value NaN (not a number)")
  else if negb (SFleb (float_of_Z (- 2 ^ 63)) ns && SFltb ns (float_of_Z (2 ^ 63)))
       then Raise (OverflowError "timestamp too large to convert to C _PyTime_t")
  else if SFltb d fzero then Raise (ValueError "sleep length must be non-negative")
  else Ok tt.

(** [await asyncio.sleep(d)] returns for every finite [d]; other delays are
    outside the model. *)
Definition asyncio_sleep (d : spec_float) : result unit := Ok tt.

(** ["claimed" in text.lower()] *)
Definition mentions_claimed (text : value) : result bool :=
  match text with
  | VStr s => Ok (contains "claimed" (lower s))
  | _ => Raise (no_attribute text "lower")
  end.

(** [a or b] on two optional strings. *)
Definition or_else (a b : option string) : option string :=
  match a with
  | Some s => if String.eqb s "" then b else a
  | None => b
  end.

Definition truthy_str (a : option string) : bool :=
  match a with
  | Some s => negb (String.eqb s "")
  | None => false
  end.

End Net.

Import Net.

(* ================================================================== *)
(** * client.py *)
(* ================================================================== *)

Module BountyClient.

Definition BASE_URL : string := "https://bounty.owockibot.xyz".

Record t : Type := mk {
  base_url : string;
  wallet_address : option string;
  max_retries : Z;
  retry_delay : spec_float
}.

(** [__init__] *)
Definition init (base_url wallet_address : option string) (max_retries : Z)
    (retry_delay : spec_float) : t :=
  mk (rstrip_char "/" (match or_else base_url (Some BASE_URL) with
                       | Some u => u
                       | None => BASE_URL
                       end))
     wallet_address max_retries retry_delay.

(** [self.retry_delay * (attempt + 1)] *)
Definition backoff (self : t) (attempt : Z) : spec_float :=
  fmul (retry_delay self) (float_of_Z (attempt + 1)).

(** [body = None; if data: body = json.dumps(data).encode("utf-8")] *)
Definition payload (data : option value) : option value :=
  match data with
  | Some d => if truthy d then Some d else None
  | None => None
  end.

(** [time.sleep(...); continue], an exception of [time.sleep] leaving the
    handler it is raised in. *)
Definition sleep_and_retry (self : t) (attempt : Z) : list event * outcome :=
  match time_sleep (backoff self attempt) with
  | Ok _ => ([Sleep (backoff self attempt)], Retry)
  | Raise e => ([], Done (Raise e))
  end.

(** [except Exception as e: ...] *)
Definition on_exception (self : t) (attempt : Z) (e : exn) : list event * outcome :=
  if attempt <? max_retries self - 1 then sleep_and_retry self attempt
  else ([], Done (Raise (BountyBoardError (RequestFailed e)))).

(** [except HTTPError as e: ...].  An exception raised in here is not seen by
    the [except Exception] clause that follows. *)
Definition on_http_error (self : t) (attempt : Z) (code : Z) (b : body)
  : list event * outcome :=
  let error_data :=
    match b with
    | Json v => v
    | Text raw => VDict [("error", VStr raw)]
    end in
  let claimed :=
    if code =? 409 then
      text <- get error_data "error" (VStr "") ;; mentions_claimed text
    else Ok false in
  match claimed with
  | Raise e => ([], Done (Raise e))
  | Ok true =>
      ([], Done (who <- get error_data "claimedBy" (VStr "unknown") ;;
                 when <- get error_data "claimedAt" (VInt 0) ;;
                 Raise (BountyAlreadyClaimedError who when)))
  | Ok false =>
      if ((attempt <? max_retries self - 1) && (500 <=? code))%bool
      then sleep_and_retry self attempt
      else ([], Done (Raise (BountyBoardError (ApiError code error_data))))
  end.

(** The body of the [for] loop.  [urlopen] returns a 2xx response and raises
    [HTTPError] for any other final status; the [Content-Type] is not looked
    at. *)
Definition attempt_once (self : t) (method url : string) (data : option value)
    (attempt : Z) (w : wire) : list event * outcome :=
  let '(tr, o) :=
    match w with
    | Fault what => on_exception self attempt (TransportError what)
    | Response status b | Mistyped status b =>
        if ((200 <=? status) && (status <? 300))%bool then
          match b with
          | Json v => ([], Done (Ok v))
          | Text raw => on_exception self attempt (JSONDecodeError raw)
          end
        else on_http_error self attempt status b
    end in
  (Call method url (payload data) :: tr, o).

(** [for attempt in range(self.max_retries): ...] from [attempt] on, with
    [remaining] iterations to go, then
    [raise BountyBoardError("Max retries exceeded")]. *)
Fixpoint attempts (self : t) (method url : string) (data : option value)
    (net : transport) (remaining attempt : nat) : list event * result value :=
  match remaining with
  | O => ([], Raise (BountyBoardError MaxRetriesExceeded))
  | S n =>
      let '(tr, o) := attempt_once self method url data (Z.of_nat attempt) (net attempt) in
      match o with
      | Done r => (tr, r)
      | Retry =>
          let '(tr', r) := attempts self method url data net n (S attempt) in
          ((tr ++ tr')%list, r)
      end
  end.

Definition _request (self : t) (method path : string) (data : option value)
    (net : transport) : list event * result value :=
  attempts self method (base_url self ++ path) data net (Z.to_nat (max_retries self)) 0.

(** The two filters of [list_bounties]. *)
Definition filter_status (status : option string) (bounties : list Bounty.t)
  : list Bounty.t :=
  match status with
  | Some s =>
      if truthy_str status then filter (fun b => eq_str (Bounty.status b) s) bounties
      else bounties
  | None => bounties
  end.

Definition filter_tags (tags : option (list string)) (bounties : list Bounty.t)
  : result (list Bounty.t) :=
  match tags with
  | Some (t :: ts) =>
      filterM (fun b => anyM (fun x => str_in x (Bounty.tags b)) (t :: ts)) bounties
  | _ => Ok bounties
  end.

Definition list_bounties (self : t) (rt : runtime) (status : option string)
    (tags : option (list string)) (net : transport)
  : list event * result (list Bounty.t) :=
  let '(tr, r) := _request self "GET" "/bounties" None net in
  (tr,
   data <- r ;;
   items <- iterate data ;;
   bounties <- mapM (Bounty.from_dict rt) items ;;
   filter_tags tags (filter_status status bounties)).

Definition get_bounty (self : t) (rt : runtime) (bounty_id : string) (net : transport)
  : list event * result Bounty.t :=
  let '(tr, r) := _request self "GET" ("/bounties/" ++ bounty_id) None net in
  (tr, data <- r ;; Bounty.from_dict rt data).

Definition claim_bounty (self : t) (rt : runtime) (bounty_id : string)
    (wallet_address : option string) (net : transport)
  : list event * result ClaimResult.t :=
  match or_else wallet_address (BountyClient.wallet_address self) with
  | Some address =>
      if String.eqb address "" then ([], Raise (ValueError "Wallet address required"))
      else
        let '(tr, r) :=
          _request self "POST" ("/bounties/" ++ bounty_id ++ "/claim")
            (Some (VDict [("address", VStr address)])) net in
        (tr,
         data <- r ;;
         id <- subscript data "id" ;;
         status <- subscript data "status" ;;
         claimed_at <- (raw <- subscript data "claimedAt" ;; fromtimestamp_ms rt raw) ;;
         claimed_by <- subscript data "claimedBy" ;;
         Ok (ClaimResult.mk id status claimed_at claimed_by))
  | None => ([], Raise (ValueError "Wallet address required"))
  end.

Definition submit_bounty (self : t) (bounty_id submission : string)
    (proof wallet_address : option string) (net : transport)
  : list event * result SubmitResult.t :=
  match or_else wallet_address (BountyClient.wallet_address self) with
  | Some address =>
      if String.eqb address "" then ([], Raise (ValueError "Wallet address required"))
      else
        let payload :=
          ([("address", VStr address); ("submission", VStr submission)]
           ++ match proof with
              | Some p => if truthy_str proof then [("proof", VStr p)] else []
              | None => []
              end)%list in
        let '(tr, r) :=
          _request self "POST" ("/bounties/" ++ bounty_id ++ "/submit")
            (Some (VDict payload)) net in
        (tr,
         data <- r ;;
         id <- subscript data "id" ;;
         status <- subscript data "status" ;;
         submission_id <- (subs <- subscript data "submissions" ;;
                           newest <- last_item subs ;;
                           subscript newest "id") ;;
         Ok (SubmitResult.mk id status submission_id))
  | None => ([], Raise (ValueError "Wallet address required"))
  end.

Definition get_stats (self : t) (net : transport) : list event * result Stats.t :=
  let '(tr, r) := _request self "GET" "/stats" None net in
  (tr, data <- r ;; Stats.from_dict data).

Definition discover (self : t) (rt : runtime) (tags : option (list string))
    (net : transport) : list event * result (list Bounty.t) :=
  list_bounties self rt (Some "open") tags net.

End BountyClient.

(* ================================================================== *)
(** * async_client.py *)
(* ================================================================== *)

(** [self._session] and the aiohttp sessions the client has made.  A session
    is open from its creation until it is closed; an object without
    [__bool__] or [__len__], it is truthy whether closed or not. *)
Module Session.

Record t : Type := mk {
  made : list bool;   (* the sessions made so far, each closed or not *)
  held : option nat   (* [self._session]: one of them, or [None] *)
}.

(** [__init__]: [self._session = None] *)
Definition init : t := mk [] None.

(** [self._session = aiohttp.ClientSession()] *)
Definition open_session (c : t) : t :=
  mk (made c ++ [false]) (Some (List.length (made c))).

(** [await session.close()] on the session numbered [i]. *)
Fixpoint close_nth (i : nat) (sessions : list bool) : list bool :=
  match sessions, i with
  | [], _ => []
  | _ :: rest, O => true :: rest
  | s :: rest, S j => s :: close_nth j rest
  end.

(** [__aenter__] *)
Definition aenter (c : t) : t := open_session c.

(** [__aexit__]: [if self._session: await self._session.close()] *)
Definition aexit (c : t) : t :=
  match held c with
  | Some i => mk (close_nth i (made c)) (held c)
  | None => c
  end.

(** [_ensure_session]: [if not self._session: self._session = ...] *)
Definition _ensure_session (c : t) : t :=
  match held c with
  | Some _ => c
  | None => open_session c
  end.

(** [close]: [if self._session: await self._session.close();
    self._session = None] *)
Definition close (c : t) : t :=
  match held c with
  | Some i => mk (close_nth i (made c)) None
  | None => c
  end.

(** What a program does with a client: enter and leave [async with], call
    a method (each begins with [_ensure_session]), call [close]. *)
Inductive op : Type := Enter | Exit | Request | Close.

Definition step (c : t) (o : op) : t :=
  match o with
  | Enter => aenter c
  | Exit => aexit c
  | Request => _ensure_session c
  | Close => close c
  end.

Definition run (ops : list op) (c : t) : t := fold_left step ops c.

(** [self._session] is there and open, as a test. *)
Definition holds_open (c : t) : bool :=
  match held c with
  | Some i =>
      match nth_error (made c) i with
      | Some closed => negb closed
      | None => false
      end
  | None => false
  end.

(** The client holds an open session. *)
Definition usable (c : t) : Prop :=
  exists i, held c = Some i /\ nth_error (made c) i = Some false.

(** An open session that the client does not hold any more. *)
Definition leaked (c : t) : Prop :=
  exists i, nth_error (made c) i = Some false /\ held c <> Some i.

(** The session held is one of those made. *)
Definition valid (c : t) : Prop :=
  forall i, held c = Some i -> (i < List.length (made c))%nat.

End Session.

(** The client proper.  A request runs on the session the client holds:
    [attempts] and [_request] are the loop on an open session, which is what
    a new client, a client inside [async with] and a client after [close]
    have once [_ensure_session] has run; [_request_from] is [_request] from
    its first line, for any state of the session. *)
Module AsyncBountyClient.

Definition BASE_URL : string := "https://bounty.owockibot.xyz".

Record t : Type := mk {
  base_url : string;
  wallet_address : option string;
  max_retries : Z;
  retry_delay : spec_float
}.

(** [__init__] *)
Definition init (base_url wallet_address : option string) (max_retries : Z)
    (retry_delay : spec_float) : t :=
  mk (rstrip_char "/" (match or_else base_url (Some BASE_URL) with
                       | Some u => u
                       | None => BASE_URL
                       end))
     wallet_address max_retries retry_delay.

(** [self.retry_delay * (attempt + 1)] *)
Definition backoff (self : t) (attempt : Z) : spec_float :=
  fmul (retry_delay self) (float_of_Z (attempt + 1)).

(** [await asyncio.sleep(...); continue] *)
Definition sleep_and_retry (self : t) (attempt : Z) : list event * outcome :=
  match asyncio_sleep (backoff self attempt) with
  | Ok _ => ([Sleep (backoff self attempt)], Retry)
  | Raise e => ([], Done (Raise e))
  end.

(** [except Exception as e: ...] *)
Definition on_exception (self : t) (attempt : Z) (e : exn) : list event * outcome :=
  if attempt <? max_retries self - 1 then sleep_and_retry self attempt
  else ([], Done (Raise (BountyBoardError (RequestFailed e)))).

(** [if response.status >= 400: ...].  The block runs inside the [try]: what
    it raises, other than the two errors of the SDK, is handled by
    [except Exception]. *)
Definition on_error_status (self : t) (attempt : Z) (status : Z) (response_data : value)
  : list event * outcome :=
  match get response_data "error" (VStr "Unknown error") with
  | Raise e => on_exception self attempt e
  | Ok error_msg =>
      let claimed :=
        if status =? 409 then mentions_claimed error_msg else Ok false in
      match claimed with
      | Raise e => on_exception self attempt e
      | Ok true =>
          match get response_data "claimedBy" (VStr "unknown"),
                get response_data "claimedAt" (VInt 0) with
          | Ok who, Ok when => ([], Done (Raise (BountyAlreadyClaimedError who when)))
          | Raise e, _ | _, Raise e => on_exception self attempt e
          end
      | Ok false =>
          if ((attempt <? max_retries self - 1) && (500 <=? status))%bool
          then sleep_and_retry self attempt
          else ([], Done (Raise (BountyBoardError (ApiError status error_msg))))
      end
  end.

(** The body of the [for] loop, on an open session.
    [response_data = await response.json()] comes first: aiohttp refuses a
    response that does not declare JSON (ContentTypeError), gives [None] for
    a blank body and decodes the rest ([Net.response_json]); what it raises
    is handled by [except Exception]. *)
Definition attempt_once (self : t) (method url : string) (data : option value)
    (attempt : Z) (w : wire) : list event * outcome :=
  let '(tr, o) :=
    match w with
    | Fault what => on_exception self attempt (TransportError what)
    | Mistyped status _ => on_exception self attempt (ContentTypeError status)
    | Response status b =>
        match b with
        | Text raw =>
            if blank raw then
              if 400 <=? status then on_error_status self attempt status VNone
              else ([], Done (Ok VNone))
            else on_exception self attempt (JSONDecodeError raw)
        | Json response_data =>
            if 400 <=? status then on_error_status self attempt status response_data
            else ([], Done (Ok response_data))
        end
    end in
  (Call method url data :: tr, o).

(** [for attempt in range(self.max_retries): ...] from [attempt] on, with
    [remaining] iterations to go, then
    [raise BountyBoardError("Max retries exceeded")]. *)
Fixpoint attempts (self : t) (method url : string) (data : option value)
    (net : transport) (remaining attempt : nat) : list event * result value :=
  match remaining with
  | O => ([], Raise (BountyBoardError MaxRetriesExceeded))
  | S n =>
      let '(tr, o) := attempt_once self method url data (Z.of_nat attempt) (net attempt) in
      match o with
      | Done r => (tr, r)
      | Retry =>
          let '(tr', r) := attempts self method url data net n (S attempt) in
          ((tr ++ tr')%list, r)
      end
  end.

(** [_request] on an open session: the loop and the line after it. *)
Definition _request (self : t) (method path : string) (data : option value)
    (net : transport) : list event * result value :=
  attempts self method (base_url self ++ path) data net (Z.to_nat (max_retries self)) 0.

(** One pass through the loop on a closed session:
    [self._session.request(...)] raises [RuntimeError("Session is closed")]
    as the request starts, before anything is sent, and [except Exception]
    handles it. *)
Definition attempt_closed (self : t) (attempt : Z) : list event * outcome :=
  on_exception self attempt (RuntimeError "Session is closed").

Fixpoint attempts_closed (self : t) (remaining attempt : nat)
  : list event * result value :=
  match remaining with
  | O => ([], Raise (BountyBoardError MaxRetriesExceeded))
  | S n =>
      let '(tr, o) := attempt_closed self (Z.of_nat attempt) in
      match o with
      | Done r => (tr, r)
      | Retry =>
          let '(tr', r) := attempts_closed self n (S attempt) in
          ((tr ++ tr')%list, r)
      end
  end.

(** [_request] from its first line, [await self._ensure_session()], for a
    client whose sessions are [c]: the sessions afterwards, and the request
    on the session then held. *)
Definition _request_from (c : Session.t) (self : t) (method path : string)
    (data : option value) (net : transport)
  : Session.t * (list event * result value) :=
  let c' := Session._ensure_session c in
  (c',
   if Session.holds_open c' then _request self method path data net
   else attempts_closed self (Z.to_nat (max_retries self)) 0).

(** The two filters of [list_bounties]. *)
Definition filter_status (status : option string) (bounties : list Bounty.t)
  : list Bounty.t :=
  match status with
  | Some s =>
      if truthy_str status then filter (fun b => eq_str (Bounty.status b) s) bounties
      else bounties
  | None => bounties
  end.

Definition filter_tags (tags : option (list string)) (bounties : list Bounty.t)
  : result (list Bounty.t) :=
  match tags with
  | Some (t :: ts) =>
      filterM (fun b => anyM (fun x => str_in x (Bounty.tags b)) (t :: ts)) bounties
  | _ => Ok bounties
  end.

Definition list_bounties (self : t) (rt : runtime) (status : option string)
    (tags : option (list string)) (net : transport)
  : list event * result (list Bounty.t) :=
  let '(tr, r) := _request self "GET" "/bounties" None net in
  (tr,
   data <- r ;;
   items <- iterate data ;;
   bounties <- mapM (Bounty.from_dict rt) items ;;
   filter_tags tags (filter_status status bounties)).

Definition get_bounty (self : t) (rt : runtime) (bounty_id : string) (net : transport)
  : list event * result Bounty.t :=
  let '(tr, r) := _request self "GET" ("/bounties/" ++ bounty_id) None net in
  (tr, data <- r ;; Bounty.from_dict rt data).

Definition claim_bounty (self : t) (rt : runtime) (bounty_id : string)
    (wallet_address : option string) (net : transport)
  : list event * result ClaimResult.t :=
  match or_else wallet_address (AsyncBountyClient.wallet_address self) with
  | Some address =>
      if String.eqb address "" then ([], Raise (ValueError "Wallet address required"))
      else
        let '(tr, r) :=
          _request self "POST" ("/bounties/" ++ bounty_id ++ "/claim")
            (Some (VDict [("address", VStr address)])) net in
        (tr,
         data <- r ;;
         id <- subscript data "id" ;;
         status <- subscript data "status" ;;
         claimed_at <- (raw <- subscript data "claimedAt" ;; fromtimestamp_ms rt raw) ;;
         claimed_by <- subscript data "claimedBy" ;;
         Ok (ClaimResult.mk id status claimed_at claimed_by))
  | None => ([], Raise (ValueError "Wallet address required"))
  end.

Definition submit_bounty (self : t) (bounty_id submission : string)
    (proof wallet_address : option string) (net : transport)
  : list event * result SubmitResult.t :=
  match or_else wallet_address (AsyncBountyClient.wallet_address self) with
  | Some address =>
      if String.eqb address "" then ([], Raise (ValueError "Wallet address required"))
      else
        let payload :=
          ([("address", VStr address); ("submission", VStr submission)]
           ++ match proof with
              | Some p => if truthy_str proof then [("proof", VStr p)] else []
              | None => []
              end)%list in
        let '(tr, r) :=
          _request self "POST" ("/bounties/" ++ bounty_id ++ "/submit")
            (Some (VDict payload)) net in
        (tr,
         data <- r ;;
         id <- subscript data "id" ;;
         status <- subscript data "status" ;;
         submission_id <- (subs <- subscript data "submissions" ;;
                           newest <- last_item subs ;;
                           subscript newest "id") ;;
         Ok (SubmitResult.mk id status submission_id))
  | None => ([], Raise (ValueError "Wallet address required"))
  end.

Definition get_stats (self : t) (net : transport) : list event * result Stats.t :=
  let '(tr, r) := _request self "GET" "/stats" None net in
  (tr, data <- r ;; Stats.from_dict data).

Definition discover (self : t) (rt : runtime) (tags : option (list string))
    (net : transport) : list event * result (list Bounty.t) :=
  list_bounties self rt (Some "open") tags net.

End AsyncBountyClient.

(* ================================================================== *)
(** * Vocabulary of the statements *)
(* ================================================================== *)

Module Fixtures.

Definition midnight (y mo d : Z) : datetime := mk_datetime y mo d 0 0 0 0 None.

(** A process whose local zone is UTC and whose clock reads midnight of the
    given day. *)
Definition utc_on (y mo d : Z) : runtime := mk_runtime (midnight y mo d) (fun _ => 0).

Definition utc : runtime := utc_on 2024 1 1.

Definition one_second : spec_float := float_of_Z 1.

Definition client : BountyClient.t := BountyClient.init None None 3 one_second.

Definition async_client : AsyncBountyClient.t := AsyncBountyClient.init None None 3 one_second.

(** The body of the already-claimed conflict. *)
Definition claimed_body : value :=
  VDict [("error", VStr "Bounty already claimed");
         ("claimedBy", VStr "0xABC");
         ("claimedAt", VInt 1700000000000)].

Definition always (w : wire) : transport := fun _ => w.

(** Two server errors, then a success. *)
Definition third_time_lucky (v : value) : transport :=
  fun n =>
    match n with
    | 0%nat | 1%nat => Response 500 (Json (VDict [("error", VStr "boom")]))
    | _ => Response 200 (Json v)
    end.

Definition not_found : wire := Response 404 (Json (VDict [("error", VStr "Not found")])).

Definition tagged (name : string) (tags : list string) : value :=
  VDict [("id", VStr name); ("status", VStr "open"); ("tags", VList (map VStr tags))].

(** A service that always answers with the same three bounties. *)
Definition three_bounties : transport :=
  always (Response 200 (Json (VList [tagged "1" ["a"]; tagged "2" ["c"];
                                     tagged "3" ["b"; "c"]]))).

End Fixtures.

(** The five values the data model lists for [status]. *)
Definition enumerated_status (v : value) : Prop :=
  v = VStr "open" \/ v = VStr "claimed" \/ v = VStr "submitted"
  \/ v = VStr "completed" \/ v = VStr "unknown".

(** [d.get(key, default)] on the entries of a dict. *)
Definition field (entries : list (string * value)) (key : string) (default : value) : value :=
  match dict_get entries key with
  | Some v => v
  | None => default
  end.

(** A number as the wire carries timestamps, as opposed to an instant. *)
Definition raw_number (v : value) : bool :=
  match v with
  | VInt _ | VFloat _ => true
  | _ => false
  end.

(** The one place where a mapper reads the clock: a wire payment with a
    chain and no [processedAt]. *)
Definition reads_clock (data : value) : bool :=
  match data with
  | VDict entries =>
      match dict_get entries "payment" with
      | Some (VDict p) =>
          (truthy (VDict p) && truthy (field p "chain" VNone)
           && negb (truthy (field p "processedAt" VNone)))%bool
      | _ => false
      end
  | _ => false
  end.

(** Two runtimes in the same local time zone. *)
Definition same_zone (rt1 rt2 : runtime) : Prop :=
  forall t, utcoffset rt1 t = utcoffset rt2 t.

(** The tag list of a bounty, and the two tests of [list_bounties] as the
    specification words them. *)
Definition tag_list (b : Bounty.t) : list value :=
  match Bounty.tags b with
  | VList items => items
  | _ => []
  end.

Definition has_any_tag (requested : list string) (b : Bounty.t) : bool :=
  existsb (fun t => existsb (fun x => eq_str x t) (tag_list b)) requested.

Definition has_status (wanted : string) (b : Bounty.t) : bool :=
  eq_str (Bounty.status b) wanted.

(** The bounties [list_bounties] is to return: the status, when one is asked
    for, is that very string, and some requested tag is in the tag list. *)
Definition wanted (status : option string) (requested : list string) (b : Bounty.t)
  : bool :=
  (match status with
   | Some s => if String.eqb s "" then true else has_status s b
   | None => true
   end && has_any_tag requested b)%bool.

(** The responses on which the two clients are compared: a fault, or a
    response that declares JSON and is a 2xx response whose body is not
    blank, or an error response whose body is a JSON object with a textual
    [error] field, if any. *)
Definition plain (w : wire) : bool :=
  match w with
  | Fault _ => true
  | Mistyped _ _ => false
  | Response status b =>
      if ((200 <=? status) && (status <? 300))%bool then
        match b with
        | Json _ => true
        | Text raw => negb (blank raw)
        end
      else if 400 <=? status then
        match b with
        | Json (VDict entries) =>
            match dict_get entries "error" with
            | Some (VStr _) | None => true
            | Some _ => false
            end
        | _ => false
        end
      else false
  end.

(** The outcome of the synchronous client against that of the asynchronous
    one: the same value, the same conflict, or a [BountyBoardError] of the
    same kind; for an HTTP error the former embeds the whole error object
    and the latter its [error] text. *)
Inductive agree : result value -> result value -> Prop :=
| agree_ok (v : value) : agree (Ok v) (Ok v)
| agree_claimed (who when : value) :
    agree (Raise (BountyAlreadyClaimedError who when))
          (Raise (BountyAlreadyClaimedError who when))
| agree_api (code : Z) (error_data error_msg : value) :
    get error_data "error" (VStr "Unknown error") = Ok error_msg ->
    agree (Raise (BountyBoardError (ApiError code error_data)))
          (Raise (BountyBoardError (ApiError code error_msg)))
| agree_failed (e1 e2 : exn) :
    agree (Raise (BountyBoardError (RequestFailed e1)))
          (Raise (BountyBoardError (RequestFailed e2)))
| agree_exhausted :
    agree (Raise (BountyBoardError MaxRetriesExceeded))
          (Raise (BountyBoardError MaxRetriesExceeded)).

(** The same, for one pass through the loop. *)
Inductive agree_outcome : outcome -> outcome -> Prop :=
| agree_done (r1 r2 : result value) : agree r1 r2 -> agree_outcome (Done r1) (Done r2)
| agree_retry : agree_outcome Retry Retry.

(** A well-formed naive [datetime]. *)
Definition well_formed (dt : datetime) : Prop :=
  valid_fields (year dt) (month dt) (day dt) (hour dt) (minute dt) (second dt)
    (microsecond dt) = true
  /\ tzinfo dt = None.

(** A well-formed aware [datetime], with its UTC offset in microseconds. *)
Definition aware (a : datetime) (off : Z) : Prop :=
  valid_fields (year a) (month a) (day a) (hour a) (minute a) (second a)
    (microsecond a) = true
  /\ tzinfo a = Some off
  /\ - 86400000000 < off < 86400000000.

(** The trace of [k] attempts, from [attempt] on, that each call, sleep and
    go on. *)
Definition ladder (call : event) (delay : Z -> spec_float) (attempt k : nat) : list event :=
  flat_map (fun j => [call; Sleep (delay (Z.of_nat j))]) (seq attempt k).

(** A value, or one of the two errors of the SDK. *)
Definition sdk_result (r : result value) : Prop :=
  match r with
  | Ok _ => True
  | Raise (BountyBoardError _) => True
  | Raise (BountyAlreadyClaimedError _ _) => True
  | Raise _ => False
  end.

(** Tests on the kind of a value. *)
Definition is_dict (v : value) : bool :=
  match v with VDict _ => true | _ => false end.

Definition is_str (v : value) : bool :=
  match v with VStr _ => true | _ => false end.

(** The error object the synchronous client makes of an error body. *)
Definition error_object (b : body) : value :=
  match b with
  | Json v => v
  | Text raw => VDict [("error", VStr raw)]
  end.

(** The value an answer ends a request with, for each client: the
    synchronous one takes the JSON body of a 2xx response, declared or not;
    the asynchronous one what [response.json()] makes of a response below
    400. *)
Definition sync_value (w : wire) : option value :=
  match w with
  | Response status (Json v) | Mistyped status (Json v) =>
      if ((200 <=? status) && (status <? 300))%bool then Some v else None
  | _ => None
  end.

Definition async_value (w : wire) : option value :=
  match w with
  | Response status _ =>
      match response_json w with
      | Ok v => if 400 <=? status then None else Some v
      | Raise _ => None
      end
  | _ => None
  end.

(** A failure worth a retry: a fault of the call, or a server error. *)
Definition transient (w : wire) : bool :=
  match w with
  | Fault _ => true
  | Response status _ | Mistyped status _ => 500 <=? status
  end.

(** What the last transient failure is reported as, by each client. *)
Definition sync_failure (w : wire) : board_msg :=
  match w with
  | Fault what => RequestFailed (TransportError what)
  | Response status b | Mistyped status b => ApiError status (error_object b)
  end.

Definition async_failure (w : wire) : board_msg :=
  match response_json w with
  | Raise e => RequestFailed e
  | Ok v =>
      match get v "error" (VStr "Unknown error"), w with
      | Ok error_msg, (Response status _ | Mistyped status _) => ApiError status error_msg
      | Ok _, Fault what => RequestFailed (TransportError what)
      | Raise e, _ => RequestFailed e
      end
  end.

(** [s.endswith(c)] for one character. *)
Fixpoint ends_with (c : ascii) (s : string) : bool :=
  match s with
  | EmptyString => false
  | String a EmptyString => Ascii.eqb a c
  | String _ rest => ends_with c rest
  end.

(** The address a claim or a submission goes out with. *)
Definition resolves_to (wallet default : option string) (address : string) : Prop :=
  (wallet = Some address \/ (truthy_str wallet = false /\ default = Some address))
  /\ address <> "".

(** [xs] is [ys] with some elements left out, the others in their order. *)
Inductive subsequence {A : Type} : list A -> list A -> Prop :=
| subsequence_nil : subsequence [] []
| subsequence_keep (x : A) (xs ys : list A) :
    subsequence xs ys -> subsequence (x :: xs) (x :: ys)
| subsequence_skip (y : A) (xs ys : list A) :
    subsequence xs ys -> subsequence xs (y :: ys).

(** A submission against the wire object it was read from. *)
Definition read_from (rt : runtime) (item : value) (s : Submission.t) : Prop :=
  subscript item "id" = Ok (Submission.id s)
  /\ subscript item "content" = Ok (Submission.content s)
  /\ get item "proof" VNone = Ok (Submission.proof s)
  /\ exists raw, subscript item "submittedAt" = Ok raw
                 /\ fromtimestamp_ms rt raw = Ok (Submission.submitted_at s).

(** The text of a UTC instant as JavaScript's [toISOString] and similar
    encoders write it: date, [T], time, an optional fraction, [Z]. *)
Definition utc_text (y mo d h mi s : Z) (fraction : string) : string :=
  pad 4 y ++ "-" ++ pad 2 mo ++ "-" ++ pad 2 d ++ "T"
  ++ pad 2 h ++ ":" ++ pad 2 mi ++ ":" ++ pad 2 s ++ fraction ++ "Z".

(** Without [__aenter__], the holder keeps track of its sessions: the one
    held is one of those made, and no other one is open. *)
Definition tracked (c : Session.t) : Prop :=
  Session.valid c /\ ~ Session.leaked c.

(** The client holds a session that is not open. *)
Definition stale (c : Session.t) : Prop :=
  exists j, Session.held c = Some j /\ nth_error (Session.made c) j <> Some false.

(* ================================================================== *)
(** * The result monad *)
(* ================================================================== *)

Lemma bind_ok {A B : Type} (c : result A) (k : A -> result B) (b : B) :
  bind c k = Ok b -> exists a, c = Ok a /\ k a = Ok b.
Proof.
  destruct c as [a|e]; simpl; intros H.
  - exists a. split; [reflexivity | exact H].
  - discriminate H.
Qed.

(** Splits an equation [x <- c ;; k = Ok b] into the steps that produced it. *)
Ltac bind_inv H :=
  repeat match type of H with
         | bind _ _ = Ok _ =>
             let a := fresh "a" in
             let Ha := fresh "Ha" in
             apply bind_ok in H; destruct H as [a [Ha H]]
         end.

Lemma get_dict (entries : list (string * value)) (key : string) (default : value) :
  get (VDict entries) key default = Ok (field entries key default).
Proof. reflexivity. Qed.

Lemma get_ok_dict (v : value) (key : string) (default x : value) :
  get v key default = Ok x ->
  exists entries, v = VDict entries /\ x = field entries key default.
Proof.
  destruct v; simpl; try discriminate.
  intros H. injection H as <-. eexists. split; reflexivity.
Qed.

Lemma mapM_ext {A B : Type} (f g : A -> result B) (xs : list A) :
  (forall x, f x = g x) -> mapM f xs = mapM g xs.
Proof.
  intros E. induction xs as [|x rest IH]; simpl.
  - reflexivity.
  - rewrite E, IH. reflexivity.
Qed.

Lemma anyM_pure {A : Type} (p : A -> bool) (xs : list A) :
  anyM (fun x => Ok (p x)) xs = Ok (existsb p xs).
Proof.
  induction xs as [|x rest IH]; simpl.
  - reflexivity.
  - destruct (p x); simpl; [reflexivity | exact IH].
Qed.

Lemma filterM_pure {A : Type} (p : A -> result bool) (q : A -> bool) (xs : list A) :
  Forall (fun x => p x = Ok (q x)) xs -> filterM p xs = Ok (filter q xs).
Proof.
  induction 1 as [|x rest Hx _ IH]; simpl.
  - reflexivity.
  - rewrite Hx, IH. simpl. destruct (q x); reflexivity.
Qed.

(* ================================================================== *)
(** * The domain mapper *)
(* ================================================================== *)

(** What a successful [Bounty.from_dict] tells about its input: it is a
    dict, the fields taken with [get] are the wire values or their
    defaults, and the three parsed parts are those of the helpers. *)
Lemma from_dict_ok (rt : runtime) (data : value) (b : Bounty.t) :
  Bounty.from_dict rt data = Ok b ->
  exists entries,
    data = VDict entries
    /\ Bounty.parse_submissions rt data = Ok (Bounty.submissions b)
    /\ Bounty.parse_payment rt data = Ok (Bounty.payment b)
    /\ Bounty.parse_deadline rt data = Ok (Bounty.deadline b)
    /\ Bounty.id b = field entries "id" (VStr "")
    /\ Bounty.uuid b = field entries "uuid" (VStr "")
    /\ Bounty.title b = field entries "title" (VStr "")
    /\ Bounty.description b = field entries "description" (VStr "")
    /\ int_float (field entries "reward" (VInt 0)) = Ok (Bounty.reward b)
    /\ Bounty.reward_formatted b = field entries "rewardFormatted" (VStr "0 USDC")
    /\ Bounty.status b = field entries "status" (VStr "unknown")
    /\ Bounty.creator b = field entries "creator" (VStr "")
    /\ Bounty.tags b = field entries "tags" (VList [])
    /\ Bounty.requirements b = field entries "requirements" (VList [])
    /\ Bounty.claimed_by b = field entries "claimedBy" VNone.
Proof.
  intros H. unfold Bounty.from_dict in H. bind_inv H.
  injection H as <-. simpl.
  destruct (get_ok_dict _ _ _ _ Ha2) as [entries [-> ->]].
  exists entries.
  rewrite get_dict in Ha3, Ha4, Ha5, Ha6, Ha7, Ha8, Ha9, Ha10, Ha11, Ha12.
  simpl in Ha6.
  injection Ha3 as <-. injection Ha4 as <-. injection Ha5 as <-.
  injection Ha7 as <-. injection Ha8 as <-. injection Ha9 as <-.
  injection Ha10 as <-. injection Ha11 as <-. injection Ha12 as <-.
  repeat split; assumption || reflexivity.
Qed.

(** When a [Payment] is built, the wire payment is an object whose [chain]
    is present and truthy, and that value is the one stored. *)
Lemma parse_payment_some (rt : runtime) (entries : list (string * value))
    (p : Payment.t) :
  Bounty.parse_payment rt (VDict entries) = Ok (Some p) ->
  exists fields chain,
    dict_get entries "payment" = Some (VDict fields)
    /\ dict_get fields "chain" = Some chain
    /\ truthy chain = true
    /\ Payment.chain p = chain.
Proof.
  unfold Bounty.parse_payment. rewrite get_dict. unfold field. simpl.
  destruct (dict_get entries "payment") as [pv|] eqn:Epay; simpl;
    [| discriminate].
  destruct (truthy pv) eqn:Tpv; [| discriminate].
  destruct pv as [| | | | | |fields]; simpl; try discriminate.
  destruct (dict_get fields "chain") as [chain|] eqn:Echain; simpl;
    [| discriminate].
  destruct (truthy chain) eqn:Tchain; [| discriminate].
  intros H. bind_inv H. injection H as <-. simpl.
  exists fields, chain. repeat split; assumption || reflexivity.
Qed.

(** No [Payment] without a truthy [chain] in a truthy wire payment. *)
Lemma parse_payment_none (rt : runtime) (entries : list (string * value)) :
  truthy (field entries "payment" VNone) = false
  \/ (exists fields,
        dict_get entries "payment" = Some (VDict fields)
        /\ truthy (field fields "chain" VNone) = false) ->
  Bounty.parse_payment rt (VDict entries) = Ok None.
Proof.
  unfold Bounty.parse_payment. rewrite get_dict. simpl.
  intros [F | [fields [Epay F]]].
  - rewrite F. reflexivity.
  - unfold field at 1. rewrite Epay.
    destruct (truthy (VDict fields)); [| reflexivity].
    simpl. fold (field fields "chain" VNone).
    rewrite F. reflexivity.
Qed.

(** C7, as the claim words it, fails: a status outside the enumeration
    passes through the mapper unchanged. *)
Lemma status_outside_enumeration :
  exists b,
    Bounty.from_dict Fixtures.utc (VDict [("status", VStr "archived")]) = Ok b
    /\ Bounty.status b = VStr "archived"
    /\ ~ enumerated_status (Bounty.status b).
Proof.
  eexists. split; [vm_compute; reflexivity |]. split; [reflexivity |].
  simpl. unfold enumerated_status. intros [H | [H | [H | [H | H]]]]; discriminate H.
Qed.

(** C7 (amended): the status of the Bounty is the wire status verbatim when
    the input has one and ["unknown"] when it has none; it is therefore one
    of the five enumerated values exactly when the wire status is absent or
    is itself one of them. *)
Theorem status_is_wire_status (rt : runtime) (entries : list (string * value))
    (b : Bounty.t) :
  Bounty.from_dict rt (VDict entries) = Ok b ->
  (forall v, dict_get entries "status" = Some v -> Bounty.status b = v)
  /\ (dict_get entries "status" = None -> Bounty.status b = VStr "unknown")
  /\ (enumerated_status (Bounty.status b) <->
      dict_get entries "status" = None
      \/ exists v, dict_get entries "status" = Some v /\ enumerated_status v).
Proof.
  intros H. destruct (from_dict_ok _ _ _ H) as [entries' [E Hb]].
  injection E as <-.
  destruct Hb as (_ & _ & _ & _ & _ & _ & _ & _ & _ & Hs & _).
  rewrite Hs. unfold field.
  destruct (dict_get entries "status") as [v|].
  - split; [intros v' Ev; injection Ev as <-; reflexivity |].
    split; [discriminate |]. split.
    + intros Hv. right. exists v. split; [reflexivity | exact Hv].
    + intros [F | [v' [Ev Hv]]]; [discriminate F |].
      injection Ev as <-. exact Hv.
  - split; [discriminate |]. split; [reflexivity |]. split.
    + intros _. left. reflexivity.
    + intros _. unfold enumerated_status. tauto.
Qed.

Lemma status_is_wire_status_witness :
  exists b,
    Bounty.from_dict Fixtures.utc (VDict [("status", VStr "claimed")]) = Ok b
    /\ Bounty.status b = VStr "claimed".
Proof.
  eexists. split.
  - vm_compute. reflexivity.
  - refine (proj1 (status_is_wire_status Fixtures.utc
                     [("status", VStr "claimed")] _ _) (VStr "claimed") _);
      vm_compute; reflexivity.
Defined.

(** C10: whenever [Bounty.from_dict] builds a Payment, the wire payment is an
    object with a [chain] that is present and truthy (so not the empty
    string), the Payment carries that very value, and the fallback given to
    [get] plays no part: any other fallback would read the same value. *)
Theorem payment_chain_is_wire_chain (rt : runtime) (data : value) (b : Bounty.t)
    (p : Payment.t) :
  Bounty.from_dict rt data = Ok b ->
  Bounty.payment b = Some p ->
  exists entries fields chain,
    data = VDict entries
    /\ dict_get entries "payment" = Some (VDict fields)
    /\ dict_get fields "chain" = Some chain
    /\ Payment.chain p = chain
    /\ truthy (Payment.chain p) = true
    /\ Payment.chain p <> VStr ""
    /\ forall fallback, get (VDict fields) "chain" fallback = Ok (Payment.chain p).
Proof.
  intros H Hp. destruct (from_dict_ok _ _ _ H) as [entries [-> Hb]].
  destruct Hb as (_ & Hpay & _). rewrite Hp in Hpay.
  destruct (parse_payment_some _ _ _ Hpay) as [fields [chain (E1 & E2 & T & C)]].
  exists entries, fields, chain. rewrite C.
  repeat split; try assumption.
  - intros ->. discriminate T.
  - intros fallback. rewrite get_dict. unfold field. rewrite E2. reflexivity.
Qed.

Lemma payment_chain_is_wire_chain_witness :
  exists b p,
    Bounty.from_dict Fixtures.utc
      (VDict [("payment", VDict [("chain", VStr "optimism")])]) = Ok b
    /\ Bounty.payment b = Some p
    /\ Payment.chain p = VStr "optimism".
Proof.
  eexists. eexists. split; [vm_compute; reflexivity |].
  split; [reflexivity |].
  destruct (payment_chain_is_wire_chain Fixtures.utc
              (VDict [("payment", VDict [("chain", VStr "optimism")])]) _ _
              eq_refl eq_refl)
    as [entries [fields [chain (E & E1 & E2 & C & _)]]].
  injection E as <-. simpl in E1. injection E1 as <-. simpl in E2.
  injection E2 as <-. exact C.
Defined.

(** Every field [Stats.from_dict] reads is the wire value or its default:
    the mapper is total on objects. *)
Lemma stats_from_dict_dict (entries : list (string * value)) :
  Stats.from_dict (VDict entries)
  = Ok (Stats.mk (field entries "totalBounties" (VInt 0))
          (field entries "openBounties" (VInt 0))
          (field entries "claimedBounties" (VInt 0))
          (field entries "completedBounties" (VInt 0))
          (field entries "totalPayouts" (VInt 0))
          (field entries "totalPayoutsFormatted" (VStr "0 USDC"))).
Proof. reflexivity. Qed.

Lemma field_absent (entries : list (string * value)) (key : string) (default : value) :
  dict_get entries key = None -> field entries key default = default.
Proof. unfold field. intros ->. reflexivity. Qed.

(** An object without submissions, payment, deadline and claim or completion
    time, and with a reward [int(float(...))] accepts, is accepted: every
    field is the wire value or its default. *)
Lemma from_dict_flat (rt : runtime) (entries : list (string * value)) (r : Z) :
  dict_get entries "submissions" = None ->
  dict_get entries "payment" = None ->
  dict_get entries "deadline" = None ->
  dict_get entries "claimedAt" = None ->
  dict_get entries "completedAt" = None ->
  int_float (field entries "reward" (VInt 0)) = Ok r ->
  Bounty.from_dict rt (VDict entries)
  = Ok (Bounty.mk (field entries "id" (VStr "")) (field entries "uuid" (VStr ""))
          (field entries "title" (VStr "")) (field entries "description" (VStr ""))
          r (field entries "rewardFormatted" (VStr "0 USDC"))
          (field entries "status" (VStr "unknown")) (field entries "creator" (VStr ""))
          None (field entries "tags" (VList [])) (field entries "requirements" (VList []))
          [] (field entries "claimedBy" VNone) None None None).
Proof.
  intros Hs Hp Hd Hc1 Hc2 Hr.
  unfold Bounty.from_dict, Bounty.parse_submissions, Bounty.parse_payment,
    Bounty.parse_deadline, Bounty.parse_optional_ms.
  rewrite !get_dict.
  rewrite (field_absent _ _ _ Hs), (field_absent _ _ _ Hp), (field_absent _ _ _ Hd),
    (field_absent _ _ _ Hc1), (field_absent _ _ _ Hc2).
  cbn [bind truthy iterate mapM]. rewrite Hr. reflexivity.
Qed.

(** C9: the mapper substitutes the documented defaults.  For a bounty object
    the mapper accepts: without a wire payment, or with one whose [chain] is
    absent or empty, no Payment is built; an absent [status] gives
    ["unknown"]; the other absent fields give their defaults as well.  The
    empty object is accepted and yields all of them, and so is every object
    that has only plain fields.  [Stats.from_dict] accepts every object and
    each absent counter is [0], the absent formatted total ["0 USDC"]. *)
Theorem missing_fields_default :
  (forall (rt : runtime) (entries : list (string * value)) (b : Bounty.t),
      Bounty.from_dict rt (VDict entries) = Ok b ->
      (dict_get entries "payment" = None -> Bounty.payment b = None)
      /\ (forall fields,
             dict_get entries "payment" = Some (VDict fields) ->
             dict_get fields "chain" = None \/ dict_get fields "chain" = Some (VStr "") ->
             Bounty.payment b = None)
      /\ (dict_get entries "status" = None -> Bounty.status b = VStr "unknown")
      /\ (dict_get entries "id" = None -> Bounty.id b = VStr "")
      /\ (dict_get entries "uuid" = None -> Bounty.uuid b = VStr "")
      /\ (dict_get entries "title" = None -> Bounty.title b = VStr "")
      /\ (dict_get entries "description" = None -> Bounty.description b = VStr "")
      /\ (dict_get entries "reward" = None -> Bounty.reward b = 0)
      /\ (dict_get entries "rewardFormatted" = None ->
          Bounty.reward_formatted b = VStr "0 USDC")
      /\ (dict_get entries "creator" = None -> Bounty.creator b = VStr "")
      /\ (dict_get entries "tags" = None -> Bounty.tags b = VList [])
      /\ (dict_get entries "requirements" = None -> Bounty.requirements b = VList [])
      /\ (dict_get entries "claimedBy" = None -> Bounty.claimed_by b = VNone)
      /\ (dict_get entries "deadline" = None -> Bounty.deadline b = None))
  /\ (forall rt : runtime,
         Bounty.from_dict rt (VDict [])
         = Ok (Bounty.mk (VStr "") (VStr "") (VStr "") (VStr "") 0 (VStr "0 USDC")
                 (VStr "unknown") (VStr "") None (VList []) (VList []) [] VNone
                 None None None))
  /\ (forall (rt : runtime) (entries : list (string * value)),
         dict_get entries "submissions" = None ->
         dict_get entries "payment" = None ->
         dict_get entries "deadline" = None ->
         dict_get entries "claimedAt" = None ->
         dict_get entries "completedAt" = None ->
         dict_get entries "reward" = None ->
         exists b,
           Bounty.from_dict rt (VDict entries) = Ok b
           /\ Bounty.reward b = 0 /\ Bounty.payment b = None
           /\ Bounty.status b = field entries "status" (VStr "unknown"))
  /\ (forall entries : list (string * value),
         exists s,
           Stats.from_dict (VDict entries) = Ok s
           /\ (dict_get entries "totalBounties" = None -> Stats.total_bounties s = VInt 0)
           /\ (dict_get entries "openBounties" = None -> Stats.open_bounties s = VInt 0)
           /\ (dict_get entries "claimedBounties" = None ->
               Stats.claimed_bounties s = VInt 0)
           /\ (dict_get entries "completedBounties" = None ->
               Stats.completed_bounties s = VInt 0)
           /\ (dict_get entries "totalPayouts" = None -> Stats.total_payouts s = VInt 0)
           /\ (dict_get entries "totalPayoutsFormatted" = None ->
               Stats.total_payouts_formatted s = VStr "0 USDC")).
Proof.
  split; [| split; [| split]].
  - intros rt entries b H.
    destruct (from_dict_ok _ _ _ H) as [entries' [E Hb]]. injection E as <-.
    destruct Hb as (_ & Hpay & Hdl & Hid & Huuid & Htitle & Hdesc & Hrew & Hfmt
                    & Hst & Hcr & Htags & Hreq & Hby).
    repeat split.
    + intros A.
      rewrite (parse_payment_none rt entries) in Hpay.
      * injection Hpay as <-. reflexivity.
      * left. rewrite (field_absent _ _ _ A). reflexivity.
    + intros fields Epay Hchain.
      rewrite (parse_payment_none rt entries) in Hpay.
      * injection Hpay as <-. reflexivity.
      * right. exists fields. split; [exact Epay |].
        unfold field. destruct Hchain as [-> | ->]; reflexivity.
    + intros A. rewrite Hst. apply field_absent, A.
    + intros A. rewrite Hid. apply field_absent, A.
    + intros A. rewrite Huuid. apply field_absent, A.
    + intros A. rewrite Htitle. apply field_absent, A.
    + intros A. rewrite Hdesc. apply field_absent, A.
    + intros A. rewrite (field_absent _ _ _ A) in Hrew.
      change (Ok 0 = Ok (Bounty.reward b)) in Hrew. congruence.
    + intros A. rewrite Hfmt. apply field_absent, A.
    + intros A. rewrite Hcr. apply field_absent, A.
    + intros A. rewrite Htags. apply field_absent, A.
    + intros A. rewrite Hreq. apply field_absent, A.
    + intros A. rewrite Hby. apply field_absent, A.
    + intros A. unfold Bounty.parse_deadline in Hdl.
      rewrite get_dict, (field_absent _ _ _ A) in Hdl. simpl in Hdl.
      injection Hdl as <-. reflexivity.
  - intros rt. reflexivity.
  - intros rt entries Hs Hp Hd Hc1 Hc2 Hr. eexists. split.
    + apply (from_dict_flat rt entries 0 Hs Hp Hd Hc1 Hc2).
      rewrite (field_absent _ _ _ Hr). reflexivity.
    + repeat split.
  - intros entries. eexists. split; [apply stats_from_dict_dict |]. simpl.
    repeat split; intros A; apply field_absent, A.
Qed.

Lemma missing_fields_default_witness :
  exists b,
    Bounty.from_dict Fixtures.utc (VDict [("payment", VDict [("chain", VStr "")])]) = Ok b
    /\ Bounty.payment b = None
    /\ Bounty.status b = VStr "unknown".
Proof.
  eexists. split; [vm_compute; reflexivity |].
  destruct (proj1 missing_fields_default Fixtures.utc
              [("payment", VDict [("chain", VStr "")])] _ eq_refl)
    as (_ & Hpay & Hstatus & _).
  split.
  - apply (Hpay [("chain", VStr "")]); [reflexivity | right; reflexivity].
  - apply Hstatus. reflexivity.
Defined.

(** ** The clock and the time zone *)

Lemma bind_congr {A B : Type} (c1 c2 : result A) (k1 k2 : A -> result B) :
  c1 = c2 -> (forall a, k1 a = k2 a) -> bind c1 k1 = bind c2 k2.
Proof.
  intros <- E. destruct c1 as [a|e]; simpl; [apply E | reflexivity].
Qed.

Lemma fromtimestamp_ms_zone (rt1 rt2 : runtime) (v : value) :
  same_zone rt1 rt2 -> fromtimestamp_ms rt1 v = fromtimestamp_ms rt2 v.
Proof.
  intros Z. unfold fromtimestamp_ms. apply bind_congr; [reflexivity |].
  intros f. unfold fromtimestamp. apply bind_congr; [reflexivity |].
  intros [t us]. rewrite (Z t). reflexivity.
Qed.

Lemma submission_zone (rt1 rt2 : runtime) (s : value) :
  same_zone rt1 rt2 -> Submission.of_value rt1 s = Submission.of_value rt2 s.
Proof.
  intros Z. unfold Submission.of_value.
  repeat (apply bind_congr; [reflexivity | intros ?]).
  apply bind_congr; [apply fromtimestamp_ms_zone, Z | reflexivity].
Qed.

Lemma parse_optional_ms_zone (rt1 rt2 : runtime) (data : value) (key : string) :
  same_zone rt1 rt2 ->
  Bounty.parse_optional_ms rt1 data key = Bounty.parse_optional_ms rt2 data key.
Proof.
  intros Z. unfold Bounty.parse_optional_ms.
  apply bind_congr; [reflexivity | intros probe].
  destruct (truthy probe); [| reflexivity].
  apply bind_congr; [reflexivity | intros raw].
  apply bind_congr; [apply fromtimestamp_ms_zone, Z | reflexivity].
Qed.

Lemma parse_deadline_zone (rt1 rt2 : runtime) (data : value) :
  same_zone rt1 rt2 -> Bounty.parse_deadline rt1 data = Bounty.parse_deadline rt2 data.
Proof.
  intros Z. unfold Bounty.parse_deadline.
  apply bind_congr; [reflexivity | intros probe].
  destruct (truthy probe); [| reflexivity].
  apply bind_congr; [reflexivity | intros raw].
  destruct (is_int raw); [| reflexivity].
  apply bind_congr; [reflexivity | intros raw'].
  apply bind_congr; [apply fromtimestamp_ms_zone, Z | reflexivity].
Qed.

(** Unless the wire payment has a chain and no [processedAt], building the
    Payment does not look at the runtime at all. *)
Lemma parse_payment_clock (rt1 rt2 : runtime) (data : value) :
  reads_clock data = false ->
  Bounty.parse_payment rt1 data = Bounty.parse_payment rt2 data.
Proof.
  intros R. destruct data as [| | | | | |entries]; try reflexivity.
  unfold Bounty.parse_payment. rewrite !get_dict. unfold reads_clock in R.
  unfold field at 1 2. simpl.
  destruct (dict_get entries "payment") as [pv|]; [| reflexivity].
  destruct (truthy pv) eqn:Tpv; [| reflexivity].
  destruct pv as [| | | | | |fields]; try reflexivity.
  rewrite Tpv in R. simpl in R. simpl.
  fold (field fields "chain" VNone).
  destruct (truthy (field fields "chain" VNone)); [| reflexivity].
  simpl in R. apply negb_false_iff in R.
  apply bind_congr; [| reflexivity].
  unfold Bounty.parse_processed_at. rewrite !get_dict. cbn [bind].
  rewrite R. reflexivity.
Qed.

(** With a chain and no [processedAt], the Payment is stamped with the
    clock. *)
Lemma parse_payment_stamped (rt : runtime) (data : value) (pay : option Payment.t) :
  reads_clock data = true ->
  Bounty.parse_payment rt data = Ok pay ->
  exists p, pay = Some p /\ Payment.processed_at p = now rt.
Proof.
  intros R. destruct data as [| | | | | |entries]; try discriminate R.
  unfold Bounty.parse_payment. rewrite get_dict. unfold reads_clock in R.
  unfold field at 1. simpl.
  destruct (dict_get entries "payment") as [pv|]; [| discriminate R].
  destruct pv as [| | | | | |fields]; try discriminate R.
  apply andb_true_iff in R. destruct R as [R Rp].
  apply andb_true_iff in R. destruct R as [Rt Rc].
  apply negb_true_iff in Rp.
  rewrite Rt. simpl. fold (field fields "chain" VNone). rewrite Rc.
  unfold Bounty.parse_processed_at. rewrite !get_dict. cbn [bind].
  rewrite Rp. simpl. intros H. injection H as <-. eexists. split; reflexivity.
Qed.

(** C6, as the claim words it, fails: the same object converted on two
    different days gives two different bounties. *)
Lemma payment_stamp_follows_clock :
  exists b1 b2 p1 p2,
    Bounty.from_dict (Fixtures.utc_on 2024 1 1)
      (VDict [("payment", VDict [("chain", VStr "base")])]) = Ok b1
    /\ Bounty.from_dict (Fixtures.utc_on 2024 1 2)
         (VDict [("payment", VDict [("chain", VStr "base")])]) = Ok b2
    /\ Bounty.payment b1 = Some p1
    /\ Bounty.payment b2 = Some p2
    /\ datetime_eqb (Payment.processed_at p1) (Payment.processed_at p2) = false
    /\ b1 <> b2.
Proof.
  do 4 eexists.
  split; [vm_compute; reflexivity |].
  split; [vm_compute; reflexivity |].
  split; [reflexivity |]. split; [reflexivity |].
  split; [reflexivity |]. intros E. discriminate E.
Qed.

(** C6 (amended): in a given local time zone the mappers are functions of
    their input alone, when they run playing no part, with one exception:
    for a wire payment that has a chain and no [processedAt],
    [Bounty.from_dict] stamps the Payment with the clock reading of the
    conversion.  ([Stats.from_dict] takes no runtime at all.) *)
Theorem from_dict_reads_clock_only_for_payment :
  (forall (rt1 rt2 : runtime) (data : value),
      same_zone rt1 rt2 -> reads_clock data = false ->
      Bounty.from_dict rt1 data = Bounty.from_dict rt2 data)
  /\ (forall (rt1 rt2 : runtime) (s : value),
         same_zone rt1 rt2 -> Submission.of_value rt1 s = Submission.of_value rt2 s)
  /\ (forall (rt : runtime) (data : value) (b : Bounty.t),
         reads_clock data = true -> Bounty.from_dict rt data = Ok b ->
         exists p, Bounty.payment b = Some p /\ Payment.processed_at p = now rt).
Proof.
  split; [| split].
  - intros rt1 rt2 data Z R. unfold Bounty.from_dict.
    apply bind_congr.
    { unfold Bounty.parse_submissions.
      repeat (apply bind_congr; [reflexivity | intros ?]).
      apply mapM_ext. intros s. apply submission_zone, Z. }
    intros subs. apply bind_congr; [apply parse_payment_clock, R | intros pay].
    apply bind_congr; [apply parse_deadline_zone, Z | intros dl].
    repeat (apply bind_congr; [reflexivity | intros ?]).
    apply bind_congr; [apply parse_optional_ms_zone, Z | intros at1].
    apply bind_congr; [apply parse_optional_ms_zone, Z | intros at2].
    reflexivity.
  - intros rt1 rt2 s Z. apply submission_zone, Z.
  - intros rt data b R H.
    destruct (from_dict_ok _ _ _ H) as [entries [_ (_ & Hpay & _)]].
    apply (parse_payment_stamped rt data _ R Hpay).
Qed.

Lemma from_dict_reads_clock_only_for_payment_witness :
  Bounty.from_dict (Fixtures.utc_on 2024 1 1)
    (VDict [("deadline", VInt 1700000000000);
            ("payment", VDict [("chain", VStr "base");
                               ("processedAt", VStr "2024-03-01T10:00:00Z")])])
  = Bounty.from_dict (Fixtures.utc_on 2024 1 2)
      (VDict [("deadline", VInt 1700000000000);
              ("payment", VDict [("chain", VStr "base");
                                 ("processedAt", VStr "2024-03-01T10:00:00Z")])]).
Proof.
  apply (proj1 from_dict_reads_clock_only_for_payment).
  - intros t. reflexivity.
  - vm_compute. reflexivity.
Defined.

(* ================================================================== *)
(** * Listing bounties *)
(* ================================================================== *)

Lemma filter_twice {A : Type} (f g : A -> bool) (xs : list A) :
  filter f (filter g xs) = filter (fun x => (g x && f x)%bool) xs.
Proof.
  induction xs as [|x rest IH]; simpl; [reflexivity |].
  destruct (g x); simpl; [destruct (f x) |]; rewrite IH; reflexivity.
Qed.

Lemma filter_same {A : Type} (f g : A -> bool) (xs : list A) :
  (forall x, f x = g x) -> filter f xs = filter g xs.
Proof.
  intros E. induction xs as [|x rest IH]; simpl; [reflexivity |].
  rewrite E, IH. reflexivity.
Qed.

(** On a bounty whose tags are a list, the test of the comprehension is the
    test of the specification. *)
Lemma any_tag_matches (requested : list string) (b : Bounty.t) :
  (exists items, Bounty.tags b = VList items) ->
  anyM (fun x => str_in x (Bounty.tags b)) requested = Ok (has_any_tag requested b).
Proof.
  intros [items E]. unfold has_any_tag, tag_list. rewrite E. simpl.
  apply anyM_pure.
Qed.

Lemma has_any_tag_spec (requested : list string) (b : Bounty.t) :
  has_any_tag requested b = true <->
  exists x, In x requested /\ In (VStr x) (tag_list b).
Proof.
  unfold has_any_tag. rewrite existsb_exists. split.
  - intros [x [Hx H]]. exists x. split; [exact Hx |].
    apply existsb_exists in H. destruct H as [v [Hv E]].
    destruct v; simpl in E; try discriminate E.
    apply String.eqb_eq in E. subst. exact Hv.
  - intros [x [Hx H]]. exists x. split; [exact Hx |].
    apply existsb_exists. exists (VStr x). split; [exact H |].
    simpl. apply String.eqb_refl.
Qed.

Lemma has_status_spec (s : string) (b : Bounty.t) :
  has_status s b = true <-> Bounty.status b = VStr s.
Proof.
  unfold has_status. destruct (Bounty.status b); simpl; split;
    try discriminate; intros H.
  - apply String.eqb_eq in H. subst. reflexivity.
  - injection H as ->. apply String.eqb_refl.
Qed.

(** The two comprehensions of [list_bounties], on bounties whose tags are
    lists. *)
Lemma filters_are_wanted (status : option string) (t : string) (ts : list string)
    (bs : list Bounty.t) :
  Forall (fun b => exists items, Bounty.tags b = VList items) bs ->
  BountyClient.filter_tags (Some (t :: ts)) (BountyClient.filter_status status bs)
  = Ok (filter (wanted status (t :: ts)) bs).
Proof.
  intros Htags. unfold BountyClient.filter_tags.
  rewrite (filterM_pure _ (has_any_tag (t :: ts))).
  - f_equal. unfold BountyClient.filter_status, wanted, truthy_str.
    destruct status as [s|]; [destruct (String.eqb s "") |]; simpl.
    + apply filter_same. reflexivity.
    + rewrite filter_twice. apply filter_same. reflexivity.
    + apply filter_same. reflexivity.
  - apply Forall_forall. intros b Hb. apply any_tag_matches.
    rewrite Forall_forall in Htags. apply Htags.
    unfold BountyClient.filter_status in Hb.
    destruct status as [s|]; [destruct (truthy_str (Some s)) |];
      try exact Hb.
    apply filter_In in Hb. apply Hb.
Qed.

(** C8, as the claim words it, fails on collections the mapper accepts.  The
    mapper stores the wire [tags] as it comes: with [null] for it the tag
    filter raises instead of returning, and with a string for it a bounty is
    returned whose tag list holds none of the requested tags (the test is
    then a substring test).  Both clients. *)
Lemma tag_filter_meets_other_tags :
  (let net := Fixtures.always
                (Response 200 (Json (VList [VDict [("id", VStr "1"); ("tags", VNone)]]))) in
   snd (BountyClient.list_bounties Fixtures.client Fixtures.utc None (Some ["a"]) net)
   = Raise (TypeError "argument of type 'NoneType' is not iterable")
   /\ snd (AsyncBountyClient.list_bounties Fixtures.async_client Fixtures.utc None
             (Some ["a"]) net)
      = Raise (TypeError "argument of type 'NoneType' is not iterable"))
  /\ (let net := Fixtures.always
                   (Response 200
                      (Json (VList [VDict [("id", VStr "2"); ("tags", VStr "xay")]]))) in
      exists b,
        snd (BountyClient.list_bounties Fixtures.client Fixtures.utc None (Some ["a"]) net)
        = Ok [b]
        /\ snd (AsyncBountyClient.list_bounties Fixtures.async_client Fixtures.utc None
                  (Some ["a"]) net) = Ok [b]
        /\ Bounty.tags b = VStr "xay"
        /\ has_any_tag ["a"] b = false).
Proof.
  split.
  - split; vm_compute; reflexivity.
  - eexists. split; [vm_compute; reflexivity |].
    split; [vm_compute; reflexivity |]. split; reflexivity.
Qed.

(** C8 (amended): when the service answers with an array of bounty objects
    the mapper accepts and whose tags are lists, [list_bounties] with a
    non-empty tag list returns, in the order of the array, exactly the
    bounties that have at least one of the requested tags in their tag list
    and, when a status is asked for, have that very string as status.  Both
    clients. *)
Theorem list_bounties_filters (rt : runtime) (status : option string) (t : string)
    (ts : list string) (items : list value) (bs : list Bounty.t) :
  mapM (Bounty.from_dict rt) items = Ok bs ->
  Forall (fun b => exists tags, Bounty.tags b = VList tags) bs ->
  (forall self net tr,
      BountyClient._request self "GET" "/bounties" None net = (tr, Ok (VList items)) ->
      BountyClient.list_bounties self rt status (Some (t :: ts)) net
      = (tr, Ok (filter (wanted status (t :: ts)) bs)))
  /\ (forall self net tr,
         AsyncBountyClient._request self "GET" "/bounties" None net
         = (tr, Ok (VList items)) ->
         AsyncBountyClient.list_bounties self rt status (Some (t :: ts)) net
         = (tr, Ok (filter (wanted status (t :: ts)) bs)))
  /\ (forall b,
         wanted status (t :: ts) b = true <->
         (forall s, status = Some s -> s <> "" -> Bounty.status b = VStr s)
         /\ exists x, In x (t :: ts) /\ In (VStr x) (tag_list b)).
Proof.
  intros Hmap Htags. split; [| split].
  - intros self net tr Hreq. unfold BountyClient.list_bounties.
    rewrite Hreq. simpl. rewrite Hmap. simpl.
    rewrite <- (filters_are_wanted status t ts bs Htags). reflexivity.
  - intros self net tr Hreq. unfold AsyncBountyClient.list_bounties.
    rewrite Hreq. simpl. rewrite Hmap. simpl.
    rewrite <- (filters_are_wanted status t ts bs Htags). reflexivity.
  - intros b. unfold wanted. rewrite andb_true_iff, has_any_tag_spec.
    split; intros [Hs Ht]; (split; [| exact Ht]).
    + intros s -> Hne. apply String.eqb_neq in Hne. rewrite Hne in Hs.
      apply has_status_spec, Hs.
    + destruct status as [s|]; [| reflexivity].
      destruct (String.eqb s "") eqn:E; [reflexivity |].
      apply has_status_spec, Hs; [reflexivity |].
      apply String.eqb_neq, E.
Qed.

Lemma list_bounties_filters_witness :
  exists tr b1 b3,
    BountyClient.list_bounties Fixtures.client Fixtures.utc None (Some ["a"; "b"])
      Fixtures.three_bounties = (tr, Ok [b1; b3])
    /\ Bounty.id b1 = VStr "1"
    /\ Bounty.id b3 = VStr "3".
Proof.
  destruct (list_bounties_filters Fixtures.utc None "a" ["b"]
              [Fixtures.tagged "1" ["a"]; Fixtures.tagged "2" ["c"];
               Fixtures.tagged "3" ["b"; "c"]] _ eq_refl) as [Hsync _].
  - repeat constructor; eexists; reflexivity.
  - do 3 eexists. split.
    + rewrite (Hsync Fixtures.client Fixtures.three_bounties _ eq_refl).
      reflexivity.
    + split; reflexivity.
Defined.

(* ================================================================== *)
(** * The request loop *)
(* ================================================================== *)

Lemma calls_app (a b : list event) : calls (a ++ b) = (calls a + calls b)%nat.
Proof. unfold calls. rewrite filter_app, length_app. reflexivity. Qed.

Lemma sleeps_app (a b : list event) : sleeps (a ++ b) = (sleeps a ++ sleeps b)%list.
Proof.
  induction a as [|e rest IH]; simpl; [reflexivity |].
  destruct e; simpl; rewrite IH; reflexivity.
Qed.

(** ** The already-claimed conflict *)

Lemma sync_conflict (self : BountyClient.t) (method url : string) (data : option value)
    (attempt : Z) (entries : list (string * value)) (text : string) :
  dict_get entries "error" = Some (VStr text) ->
  contains "claimed" (lower text) = true ->
  BountyClient.attempt_once self method url data attempt
    (Response 409 (Json (VDict entries)))
  = ([Call method url (BountyClient.payload data)],
     Done (Raise (BountyAlreadyClaimedError
                    (field entries "claimedBy" (VStr "unknown"))
                    (field entries "claimedAt" (VInt 0))))).
Proof.
  intros E C. unfold BountyClient.attempt_once, BountyClient.on_http_error.
  simpl. unfold field at 1. rewrite E. simpl. rewrite C. reflexivity.
Qed.

Lemma async_conflict (self : AsyncBountyClient.t) (method url : string)
    (data : option value) (attempt : Z) (entries : list (string * value))
    (text : string) :
  dict_get entries "error" = Some (VStr text) ->
  contains "claimed" (lower text) = true ->
  AsyncBountyClient.attempt_once self method url data attempt
    (Response 409 (Json (VDict entries)))
  = ([Call method url data],
     Done (Raise (BountyAlreadyClaimedError
                    (field entries "claimedBy" (VStr "unknown"))
                    (field entries "claimedAt" (VInt 0))))).
Proof.
  intros E C. unfold AsyncBountyClient.attempt_once, AsyncBountyClient.on_error_status.
  simpl. rewrite E. simpl. rewrite C. reflexivity.
Qed.

(** C1, as the claim words it, fails on the conflict of the specification's
    own example: what the error carries as claim time is the number of the
    response, epoch milliseconds as received, not an instant.  Both
    clients. *)
Lemma already_claimed_carries_raw_number :
  exists who when,
    snd (BountyClient._request Fixtures.client "POST" "/bounties/7/claim"
           (Some (VDict [("address", VStr "0xDEF")]))
           (Fixtures.always (Response 409 (Json Fixtures.claimed_body))))
    = Raise (BountyAlreadyClaimedError who when)
    /\ snd (AsyncBountyClient._request Fixtures.async_client "POST" "/bounties/7/claim"
              (Some (VDict [("address", VStr "0xDEF")]))
              (Fixtures.always (Response 409 (Json Fixtures.claimed_body))))
       = Raise (BountyAlreadyClaimedError who when)
    /\ who = VStr "0xABC"
    /\ when = VInt 1700000000000
    /\ raw_number when = true.
Proof.
  do 2 eexists. split; [vm_compute; reflexivity |].
  split; [vm_compute; reflexivity |]. repeat split.
Qed.

(** A conflict whose body is not JSON: the synchronous client wraps the text
    and raises the conflict after one call, the asynchronous client takes
    the undecodable body for a failed request and retries. *)
Lemma text_conflict_is_retried_by_async_client :
  let net := Fixtures.always (Response 409 (Text "Bounty already claimed")) in
  BountyClient._request Fixtures.client "POST" "/bounties/7/claim" None net
  = ([Call "POST" "https://bounty.owockibot.xyz/bounties/7/claim" None],
     Raise (BountyAlreadyClaimedError (VStr "unknown") (VInt 0)))
  /\ calls (fst (AsyncBountyClient._request Fixtures.async_client "POST"
                   "/bounties/7/claim" None net)) = 3%nat
  /\ snd (AsyncBountyClient._request Fixtures.async_client "POST" "/bounties/7/claim"
            None net)
     = Raise (BountyBoardError (RequestFailed (JSONDecodeError "Bounty already claimed"))).
Proof. repeat split; vm_compute; reflexivity. Qed.

(** C1 (amended): a 409 response whose error text contains ["claimed"] in
    any letter case ends the request at once, whatever attempts remain,
    with a BountyAlreadyClaimedError that carries the [claimedBy] of the
    response (["unknown"] when absent) and its [claimedAt] exactly as
    received, the epoch-millisecond number ([0] when absent); as the first
    response, it is the only network call of the request.  Both clients. *)
Theorem already_claimed_is_final (method path : string) (data : option value)
    (net : transport) (entries : list (string * value)) (text : string)
    (attempt : nat) :
  net attempt = Response 409 (Json (VDict entries)) ->
  dict_get entries "error" = Some (VStr text) ->
  contains "claimed" (lower text) = true ->
  (forall self remaining,
      BountyClient.attempts self method (BountyClient.base_url self ++ path) data net
        (S remaining) attempt
      = ([Call method (BountyClient.base_url self ++ path) (BountyClient.payload data)],
         Raise (BountyAlreadyClaimedError
                  (field entries "claimedBy" (VStr "unknown"))
                  (field entries "claimedAt" (VInt 0)))))
  /\ (forall self remaining,
         AsyncBountyClient.attempts self method (AsyncBountyClient.base_url self ++ path)
           data net (S remaining) attempt
         = ([Call method (AsyncBountyClient.base_url self ++ path) data],
            Raise (BountyAlreadyClaimedError
                     (field entries "claimedBy" (VStr "unknown"))
                     (field entries "claimedAt" (VInt 0)))))
  /\ (attempt = 0%nat ->
      (forall self,
          0 < BountyClient.max_retries self ->
          exists tr,
            BountyClient._request self method path data net
            = (tr, Raise (BountyAlreadyClaimedError
                            (field entries "claimedBy" (VStr "unknown"))
                            (field entries "claimedAt" (VInt 0))))
            /\ calls tr = 1%nat /\ sleeps tr = [])
      /\ (forall self,
             0 < AsyncBountyClient.max_retries self ->
             exists tr,
               AsyncBountyClient._request self method path data net
               = (tr, Raise (BountyAlreadyClaimedError
                               (field entries "claimedBy" (VStr "unknown"))
                               (field entries "claimedAt" (VInt 0))))
               /\ calls tr = 1%nat /\ sleeps tr = [])).
Proof.
  intros Hnet E C.
  assert (S1 : forall self remaining,
             BountyClient.attempts self method (BountyClient.base_url self ++ path)
               data net (S remaining) attempt
             = ([Call method (BountyClient.base_url self ++ path)
                   (BountyClient.payload data)],
                Raise (BountyAlreadyClaimedError
                         (field entries "claimedBy" (VStr "unknown"))
                         (field entries "claimedAt" (VInt 0))))).
  { intros self remaining. simpl. rewrite Hnet.
    rewrite (sync_conflict self _ _ _ _ entries text E C). reflexivity. }
  assert (S2 : forall self remaining,
             AsyncBountyClient.attempts self method
               (AsyncBountyClient.base_url self ++ path) data net (S remaining) attempt
             = ([Call method (AsyncBountyClient.base_url self ++ path) data],
                Raise (BountyAlreadyClaimedError
                         (field entries "claimedBy" (VStr "unknown"))
                         (field entries "claimedAt" (VInt 0))))).
  { intros self remaining. simpl. rewrite Hnet.
    rewrite (async_conflict self _ _ _ _ entries text E C). reflexivity. }
  split; [exact S1 |]. split; [exact S2 |].
  intros ->. split; intros self Hpos.
  - eexists. unfold BountyClient._request.
    destruct (Z.to_nat (BountyClient.max_retries self)) as [|n] eqn:En; [lia |].
    rewrite S1. repeat split.
  - eexists. unfold AsyncBountyClient._request.
    destruct (Z.to_nat (AsyncBountyClient.max_retries self)) as [|n] eqn:En; [lia |].
    rewrite S2. repeat split.
Qed.

Lemma already_claimed_is_final_witness :
  exists tr,
    BountyClient._request Fixtures.client "POST" "/bounties/7/claim"
      (Some (VDict [("address", VStr "0xDEF")]))
      (Fixtures.always (Response 409 (Json Fixtures.claimed_body)))
    = (tr, Raise (BountyAlreadyClaimedError (VStr "0xABC") (VInt 1700000000000)))
    /\ calls tr = 1%nat /\ sleeps tr = [].
Proof.
  refine (proj1 (proj2 (proj2
            (already_claimed_is_final "POST" "/bounties/7/claim"
               (Some (VDict [("address", VStr "0xDEF")]))
               (Fixtures.always (Response 409 (Json Fixtures.claimed_body)))
               _ "Bounty already claimed" 0 eq_refl _ _)) eq_refl)
            Fixtures.client _).
  - reflexivity.
  - vm_compute. reflexivity.
  - reflexivity.
Defined.

(** ** Backoff *)

Lemma sync_server_error (self : BountyClient.t) (method url : string)
    (data : option value) (attempt status : Z) (b : body) :
  500 <= status ->
  attempt < BountyClient.max_retries self - 1 ->
  time_sleep (BountyClient.backoff self attempt) = Ok tt ->
  BountyClient.attempt_once self method url data attempt (Response status b)
  = ([Call method url (BountyClient.payload data);
      Sleep (fmul (BountyClient.retry_delay self) (float_of_Z (attempt + 1)))],
     Retry).
Proof.
  intros Hs Ha Hsleep.
  unfold BountyClient.attempt_once, BountyClient.on_http_error,
    BountyClient.sleep_and_retry.
  replace (status <? 300) with false by (symmetry; apply Z.ltb_ge; lia).
  rewrite andb_false_r.
  replace (status =? 409) with false by (symmetry; apply Z.eqb_neq; lia).
  replace (attempt <? BountyClient.max_retries self - 1) with true
    by (symmetry; apply Z.ltb_lt; lia).
  replace (500 <=? status) with true by (symmetry; apply Z.leb_le; lia).
  simpl. rewrite Hsleep. reflexivity.
Qed.

Lemma async_server_error (self : AsyncBountyClient.t) (method url : string)
    (data : option value) (attempt status : Z) (b : body) :
  500 <= status ->
  attempt < AsyncBountyClient.max_retries self - 1 ->
  AsyncBountyClient.attempt_once self method url data attempt (Response status b)
  = ([Call method url data;
      Sleep (fmul (AsyncBountyClient.retry_delay self) (float_of_Z (attempt + 1)))],
     Retry).
Proof.
  intros Hs Ha.
  assert (Hexc : forall e,
             AsyncBountyClient.on_exception self attempt e
             = ([Sleep (AsyncBountyClient.backoff self attempt)], Retry)).
  { intros e. unfold AsyncBountyClient.on_exception.
    replace (attempt <? AsyncBountyClient.max_retries self - 1) with true
      by (symmetry; apply Z.ltb_lt; lia).
    reflexivity. }
  unfold AsyncBountyClient.attempt_once.
  replace (400 <=? status) with true by (symmetry; apply Z.leb_le; lia).
  destruct b as [v | raw];
    [| destruct (blank raw);
       [unfold AsyncBountyClient.on_error_status; cbn [get] |];
       rewrite Hexc; reflexivity].
  unfold AsyncBountyClient.on_error_status.
  destruct (get v "error" (VStr "Unknown error")) as [msg | e];
    [| rewrite Hexc; reflexivity].
  replace (status =? 409) with false by (symmetry; apply Z.eqb_neq; lia).
  replace (attempt <? AsyncBountyClient.max_retries self - 1) with true
    by (symmetry; apply Z.ltb_lt; lia).
  replace (500 <=? status) with true by (symmetry; apply Z.leb_le; lia).
  reflexivity.
Qed.

(** C2: a response with status 500 or more, while attempts remain, is
    followed by a sleep of [retry_delay * attempt_number] (the attempt
    number counted from 1) and a retry; with [max_retries = 3], two such
    responses and then a 2xx response with a JSON body give that body, after
    exactly two sleeps of [retry_delay * 1] and [retry_delay * 2] and three
    calls.  Both clients; the delays are lengths [time.sleep] accepts. *)
Theorem server_errors_back_off_linearly :
  (forall self method url data attempt status b,
      500 <= status ->
      attempt < BountyClient.max_retries self - 1 ->
      time_sleep (fmul (BountyClient.retry_delay self) (float_of_Z (attempt + 1))) = Ok tt ->
      BountyClient.attempt_once self method url data attempt (Response status b)
      = ([Call method url (BountyClient.payload data);
          Sleep (fmul (BountyClient.retry_delay self) (float_of_Z (attempt + 1)))],
         Retry))
  /\ (forall self method url data attempt status b,
         500 <= status ->
         attempt < AsyncBountyClient.max_retries self - 1 ->
         time_sleep (fmul (AsyncBountyClient.retry_delay self) (float_of_Z (attempt + 1)))
         = Ok tt ->
         AsyncBountyClient.attempt_once self method url data attempt (Response status b)
         = ([Call method url data;
             Sleep (fmul (AsyncBountyClient.retry_delay self) (float_of_Z (attempt + 1)))],
            Retry))
  /\ (forall self method path data net s0 b0 s1 b1 s2 v,
         BountyClient.max_retries self = 3 ->
         net 0%nat = Response s0 b0 -> 500 <= s0 ->
         net 1%nat = Response s1 b1 -> 500 <= s1 ->
         net 2%nat = Response s2 (Json v) -> 200 <= s2 < 300 ->
         time_sleep (fmul (BountyClient.retry_delay self) (float_of_Z 1)) = Ok tt ->
         time_sleep (fmul (BountyClient.retry_delay self) (float_of_Z 2)) = Ok tt ->
         BountyClient._request self method path data net
         = ([Call method (BountyClient.base_url self ++ path) (BountyClient.payload data);
             Sleep (fmul (BountyClient.retry_delay self) (float_of_Z 1));
             Call method (BountyClient.base_url self ++ path) (BountyClient.payload data);
             Sleep (fmul (BountyClient.retry_delay self) (float_of_Z 2));
             Call method (BountyClient.base_url self ++ path) (BountyClient.payload data)],
            Ok v))
  /\ (forall self method path data net s0 b0 s1 b1 s2 v,
         AsyncBountyClient.max_retries self = 3 ->
         net 0%nat = Response s0 b0 -> 500 <= s0 ->
         net 1%nat = Response s1 b1 -> 500 <= s1 ->
         net 2%nat = Response s2 (Json v) -> 200 <= s2 < 300 ->
         time_sleep (fmul (AsyncBountyClient.retry_delay self) (float_of_Z 1)) = Ok tt ->
         time_sleep (fmul (AsyncBountyClient.retry_delay self) (float_of_Z 2)) = Ok tt ->
         AsyncBountyClient._request self method path data net
         = ([Call method (AsyncBountyClient.base_url self ++ path) data;
             Sleep (fmul (AsyncBountyClient.retry_delay self) (float_of_Z 1));
             Call method (AsyncBountyClient.base_url self ++ path) data;
             Sleep (fmul (AsyncBountyClient.retry_delay self) (float_of_Z 2));
             Call method (AsyncBountyClient.base_url self ++ path) data],
            Ok v)).
Proof.
  split; [| split; [| split]].
  - intros. apply sync_server_error; assumption.
  - intros. apply async_server_error; assumption.
  - intros self method path data net s0 b0 s1 b1 s2 v Hmax N0 H0 N1 H1 N2 H2 Z1 Z2.
    unfold BountyClient._request. rewrite Hmax.
    change (Z.to_nat 3) with 3%nat. cbn [BountyClient.attempts].
    rewrite N0, N1, N2.
    rewrite (sync_server_error self _ _ _ (Z.of_nat 0) s0 b0 H0);
      [| rewrite Hmax; simpl; lia | exact Z1].
    rewrite (sync_server_error self _ _ _ (Z.of_nat 1) s1 b1 H1);
      [| rewrite Hmax; simpl; lia | exact Z2].
    unfold BountyClient.attempt_once.
    replace ((200 <=? s2) && (s2 <? 300))%bool with true
      by (symmetry; apply andb_true_iff; split;
          [apply Z.leb_le | apply Z.ltb_lt]; lia).
    reflexivity.
  - intros self method path data net s0 b0 s1 b1 s2 v Hmax N0 H0 N1 H1 N2 H2 _ _.
    unfold AsyncBountyClient._request. rewrite Hmax.
    change (Z.to_nat 3) with 3%nat. cbn [AsyncBountyClient.attempts].
    rewrite N0, N1, N2.
    rewrite (async_server_error self _ _ _ (Z.of_nat 0) s0 b0 H0);
      [| rewrite Hmax; simpl; lia].
    rewrite (async_server_error self _ _ _ (Z.of_nat 1) s1 b1 H1);
      [| rewrite Hmax; simpl; lia].
    unfold AsyncBountyClient.attempt_once.
    replace (400 <=? s2) with false by (symmetry; apply Z.leb_gt; lia).
    reflexivity.
Qed.

Lemma server_errors_back_off_linearly_witness :
  BountyClient._request Fixtures.client "GET" "/bounties" None
    (Fixtures.third_time_lucky (VList []))
  = ([Call "GET" "https://bounty.owockibot.xyz/bounties" None;
      Sleep (fmul Fixtures.one_second (float_of_Z 1));
      Call "GET" "https://bounty.owockibot.xyz/bounties" None;
      Sleep (fmul Fixtures.one_second (float_of_Z 2));
      Call "GET" "https://bounty.owockibot.xyz/bounties" None],
     Ok (VList [])).
Proof.
  apply (proj1 (proj2 (proj2 server_errors_back_off_linearly))
           Fixtures.client "GET" "/bounties" None
           (Fixtures.third_time_lucky (VList []))
           500 (Json (VDict [("error", VStr "boom")]))
           500 (Json (VDict [("error", VStr "boom")]))
           200 (VList [])).
  - reflexivity.
  - reflexivity.
  - lia.
  - reflexivity.
  - lia.
  - reflexivity.
  - lia.
  - vm_compute. reflexivity.
  - vm_compute. reflexivity.
Defined.

(** Linear backoff in general: [k] server errors while attempts remain, then
    a success, cost [k + 1] calls and the sleeps [retry_delay * 1], ...,
    [retry_delay * k], in this order. *)
Lemma sync_linear_backoff (self : BountyClient.t) (method url : string)
    (data : option value) (net : transport) (v : value) (k : nat) :
  forall remaining attempt : nat,
    Z.of_nat (attempt + remaining) = BountyClient.max_retries self ->
    (k < remaining)%nat ->
    (forall j, (attempt <= j < attempt + k)%nat ->
               exists status b, net j = Response status b /\ 500 <= status) ->
    (forall j, (attempt <= j < attempt + k)%nat ->
               time_sleep (BountyClient.backoff self (Z.of_nat j)) = Ok tt) ->
    (exists status, net (attempt + k)%nat = Response status (Json v)
                    /\ 200 <= status < 300) ->
    exists tr,
      BountyClient.attempts self method url data net remaining attempt = (tr, Ok v)
      /\ calls tr = S k
      /\ sleeps tr = map (fun j => BountyClient.backoff self (Z.of_nat j)) (seq attempt k).
Proof.
  induction k as [|k IH]; intros remaining attempt Hmax Hk Herr Hsleep [status [Hok Hs]].
  - destruct remaining as [|n]; [lia |].
    rewrite Nat.add_0_r in Hok.
    cbn [BountyClient.attempts]. rewrite Hok.
    unfold BountyClient.attempt_once.
    replace ((200 <=? status) && (status <? 300))%bool with true
      by (symmetry; apply andb_true_iff; split;
          [apply Z.leb_le | apply Z.ltb_lt]; lia).
    eexists. repeat split.
  - destruct remaining as [|n]; [lia |].
    destruct (Herr attempt) as [s [b [Hnet H500]]]; [lia |].
    cbn [BountyClient.attempts]. rewrite Hnet.
    rewrite (sync_server_error self method url data (Z.of_nat attempt) s b H500);
      [| lia | apply Hsleep; lia].
    destruct (IH n (S attempt)) as [tr [Hrun [Hcalls Hsleeps]]].
    + lia.
    + lia.
    + intros j Hj. apply Herr. lia.
    + intros j Hj. apply Hsleep. lia.
    + exists status. replace (S attempt + k)%nat with (attempt + S k)%nat by lia.
      split; assumption.
    + rewrite Hrun. eexists. split; [reflexivity |]. split.
      * rewrite calls_app, Hcalls. reflexivity.
      * rewrite sleeps_app, Hsleeps. reflexivity.
Qed.

Lemma async_linear_backoff (self : AsyncBountyClient.t) (method url : string)
    (data : option value) (net : transport) (v : value) (k : nat) :
  forall remaining attempt : nat,
    Z.of_nat (attempt + remaining) = AsyncBountyClient.max_retries self ->
    (k < remaining)%nat ->
    (forall j, (attempt <= j < attempt + k)%nat ->
               exists status b, net j = Response status b /\ 500 <= status) ->
    (exists status, net (attempt + k)%nat = Response status (Json v)
                    /\ 200 <= status < 300) ->
    exists tr,
      AsyncBountyClient.attempts self method url data net remaining attempt = (tr, Ok v)
      /\ calls tr = S k
      /\ sleeps tr
         = map (fun j => AsyncBountyClient.backoff self (Z.of_nat j)) (seq attempt k).
Proof.
  induction k as [|k IH]; intros remaining attempt Hmax Hk Herr [status [Hok Hs]].
  - destruct remaining as [|n]; [lia |].
    rewrite Nat.add_0_r in Hok.
    cbn [AsyncBountyClient.attempts]. rewrite Hok.
    unfold AsyncBountyClient.attempt_once.
    replace (400 <=? status) with false by (symmetry; apply Z.leb_gt; lia).
    eexists. repeat split.
  - destruct remaining as [|n]; [lia |].
    destruct (Herr attempt) as [s [b [Hnet H500]]]; [lia |].
    cbn [AsyncBountyClient.attempts]. rewrite Hnet.
    rewrite (async_server_error self method url data (Z.of_nat attempt) s b H500);
      [| lia].
    destruct (IH n (S attempt)) as [tr [Hrun [Hcalls Hsleeps]]].
    + lia.
    + lia.
    + intros j Hj. apply Herr. lia.
    + exists status. replace (S attempt + k)%nat with (attempt + S k)%nat by lia.
      split; assumption.
    + rewrite Hrun. eexists. split; [reflexivity |]. split.
      * rewrite calls_app, Hcalls. reflexivity.
      * rewrite sleeps_app, Hsleeps. reflexivity.
Qed.

(* ================================================================== *)
(** * Claiming and submitting *)
(* ================================================================== *)

(** C3: [claim_bounty] and [submit_bounty] without a usable wallet address
    (none given, or an empty one, and none configured, or an empty one) fail
    with [ValueError("Wallet address required")] before any event: no call
    is made.  Otherwise the request made is the POST that carries the
    effective address, which is the argument when one is given and the
    configured default when none is.  Both clients. *)
Theorem wallet_address_required :
  (forall self rt bounty_id wallet net,
      truthy_str wallet = false ->
      truthy_str (BountyClient.wallet_address self) = false ->
      BountyClient.claim_bounty self rt bounty_id wallet net
      = ([], Raise (ValueError "Wallet address required")))
  /\ (forall self bounty_id submission proof wallet net,
         truthy_str wallet = false ->
         truthy_str (BountyClient.wallet_address self) = false ->
         BountyClient.submit_bounty self bounty_id submission proof wallet net
         = ([], Raise (ValueError "Wallet address required")))
  /\ (forall self rt bounty_id wallet net,
         truthy_str wallet = false ->
         truthy_str (AsyncBountyClient.wallet_address self) = false ->
         AsyncBountyClient.claim_bounty self rt bounty_id wallet net
         = ([], Raise (ValueError "Wallet address required")))
  /\ (forall self bounty_id submission proof wallet net,
         truthy_str wallet = false ->
         truthy_str (AsyncBountyClient.wallet_address self) = false ->
         AsyncBountyClient.submit_bounty self bounty_id submission proof wallet net
         = ([], Raise (ValueError "Wallet address required")))
  /\ (forall self rt bounty_id wallet net address,
         (wallet = Some address
          \/ (wallet = None /\ BountyClient.wallet_address self = Some address)) ->
         address <> "" ->
         fst (BountyClient.claim_bounty self rt bounty_id wallet net)
         = fst (BountyClient._request self "POST" ("/bounties/" ++ bounty_id ++ "/claim")
                  (Some (VDict [("address", VStr address)])) net))
  /\ (forall self bounty_id submission wallet net address,
         (wallet = Some address
          \/ (wallet = None /\ BountyClient.wallet_address self = Some address)) ->
         address <> "" ->
         fst (BountyClient.submit_bounty self bounty_id submission None wallet net)
         = fst (BountyClient._request self "POST" ("/bounties/" ++ bounty_id ++ "/submit")
                  (Some (VDict [("address", VStr address);
                                ("submission", VStr submission)])) net))
  /\ (forall self rt bounty_id wallet net address,
         (wallet = Some address
          \/ (wallet = None /\ AsyncBountyClient.wallet_address self = Some address)) ->
         address <> "" ->
         fst (AsyncBountyClient.claim_bounty self rt bounty_id wallet net)
         = fst (AsyncBountyClient._request self "POST"
                  ("/bounties/" ++ bounty_id ++ "/claim")
                  (Some (VDict [("address", VStr address)])) net))
  /\ (forall self bounty_id submission wallet net address,
         (wallet = Some address
          \/ (wallet = None /\ AsyncBountyClient.wallet_address self = Some address)) ->
         address <> "" ->
         fst (AsyncBountyClient.submit_bounty self bounty_id submission None wallet net)
         = fst (AsyncBountyClient._request self "POST"
                  ("/bounties/" ++ bounty_id ++ "/submit")
                  (Some (VDict [("address", VStr address);
                                ("submission", VStr submission)])) net)).
Proof.
  assert (Hnone : forall a b,
             truthy_str a = false -> truthy_str b = false ->
             or_else a b = None \/ or_else a b = Some "").
  { intros a b Ha Hb. unfold or_else, truthy_str in *.
    destruct a as [s|].
    - apply negb_false_iff in Ha. rewrite Ha.
      destruct b as [s'|]; [| left; reflexivity].
      apply negb_false_iff, String.eqb_eq in Hb. subst. right. reflexivity.
    - destruct b as [s'|]; [| left; reflexivity].
      apply negb_false_iff, String.eqb_eq in Hb. subst. right. reflexivity. }
  assert (Hsome : forall a b address,
             (a = Some address \/ (a = None /\ b = Some address)) ->
             address <> "" -> or_else a b = Some address).
  { intros a b address [-> | [-> ->]] Hne; unfold or_else;
      [apply String.eqb_neq in Hne; rewrite Hne |]; reflexivity. }
  repeat split.
  - intros self rt bounty_id wallet net Ha Hb. unfold BountyClient.claim_bounty.
    destruct (Hnone _ _ Ha Hb) as [-> | ->]; reflexivity.
  - intros self bounty_id submission proof wallet net Ha Hb.
    unfold BountyClient.submit_bounty.
    destruct (Hnone _ _ Ha Hb) as [-> | ->]; reflexivity.
  - intros self rt bounty_id wallet net Ha Hb. unfold AsyncBountyClient.claim_bounty.
    destruct (Hnone _ _ Ha Hb) as [-> | ->]; reflexivity.
  - intros self bounty_id submission proof wallet net Ha Hb.
    unfold AsyncBountyClient.submit_bounty.
    destruct (Hnone _ _ Ha Hb) as [-> | ->]; reflexivity.
  - intros self rt bounty_id wallet net address Hw Hne.
    unfold BountyClient.claim_bounty. rewrite (Hsome _ _ _ Hw Hne).
    apply String.eqb_neq in Hne. rewrite Hne.
    destruct (BountyClient._request _ _ _ _ _). reflexivity.
  - intros self bounty_id submission wallet net address Hw Hne.
    unfold BountyClient.submit_bounty. rewrite (Hsome _ _ _ Hw Hne).
    apply String.eqb_neq in Hne. rewrite Hne. simpl.
    destruct (BountyClient._request _ _ _ _ _). reflexivity.
  - intros self rt bounty_id wallet net address Hw Hne.
    unfold AsyncBountyClient.claim_bounty. rewrite (Hsome _ _ _ Hw Hne).
    apply String.eqb_neq in Hne. rewrite Hne.
    destruct (AsyncBountyClient._request _ _ _ _ _). reflexivity.
  - intros self bounty_id submission wallet net address Hw Hne.
    unfold AsyncBountyClient.submit_bounty. rewrite (Hsome _ _ _ Hw Hne).
    apply String.eqb_neq in Hne. rewrite Hne. simpl.
    destruct (AsyncBountyClient._request _ _ _ _ _). reflexivity.
Qed.

Lemma wallet_address_required_witness :
  BountyClient.claim_bounty Fixtures.client Fixtures.utc "7" None
    (Fixtures.always (Response 200 (Json (VDict []))))
  = ([], Raise (ValueError "Wallet address required")).
Proof.
  apply (proj1 wallet_address_required); reflexivity.
Defined.

(* ================================================================== *)
(** * The two clients side by side *)
(* ================================================================== *)

(** C4: the two clients do not end alike on a plain 404.  Both raise a
    BountyBoardError, the synchronous one with the whole error object in
    its message, the asynchronous one with the [error] text. *)
Lemma clients_differ_on_not_found :
  exists m1 m2,
    snd (BountyClient._request Fixtures.client "GET" "/bounties/7" None
           (Fixtures.always Fixtures.not_found)) = Raise (BountyBoardError m1)
    /\ snd (AsyncBountyClient._request Fixtures.async_client "GET" "/bounties/7" None
              (Fixtures.always Fixtures.not_found)) = Raise (BountyBoardError m2)
    /\ Render.board_msg_text m1 = Some "API error 404: {'error': 'Not found'}"
    /\ Render.board_msg_text m2 = Some "API error 404: Not found"
    /\ Render.board_msg_text m1 <> Render.board_msg_text m2.
Proof.
  do 2 eexists. split; [vm_compute; reflexivity |].
  split; [vm_compute; reflexivity |].
  split; [vm_compute; reflexivity |].
  split; [vm_compute; reflexivity |].
  vm_compute. intros E. discriminate E.
Qed.

(** More of the same divergence.  An error page that is not JSON: the
    synchronous client wraps the text and fails after one call, the
    asynchronous client retries to exhaustion. *)
Lemma clients_differ_on_text_error_body :
  let net := Fixtures.always (Response 404 (Text "<html>Not Found</html>")) in
  calls (fst (BountyClient._request Fixtures.client "GET" "/stats" None net)) = 1%nat
  /\ calls (fst (AsyncBountyClient._request Fixtures.async_client "GET" "/stats" None net))
     = 3%nat
  /\ snd (BountyClient._request Fixtures.client "GET" "/stats" None net)
     = Raise (BountyBoardError
                (ApiError 404 (VDict [("error", VStr "<html>Not Found</html>")])))
  /\ snd (AsyncBountyClient._request Fixtures.async_client "GET" "/stats" None net)
     = Raise (BountyBoardError
                (RequestFailed (JSONDecodeError "<html>Not Found</html>"))).
Proof. repeat split; vm_compute; reflexivity. Qed.

(** A 200 with an empty body: the synchronous client fails to decode it on
    every attempt, the asynchronous client returns [None] after one call.  A
    200 whose JSON body is sent as [text/plain]: the synchronous client
    returns the value, the asynchronous client refuses it on every
    attempt. *)
Lemma clients_differ_on_undecodable_success :
  (let net := Fixtures.always (Response 200 (Text "")) in
   calls (fst (BountyClient._request Fixtures.client "GET" "/stats" None net)) = 3%nat
   /\ snd (BountyClient._request Fixtures.client "GET" "/stats" None net)
      = Raise (BountyBoardError (RequestFailed (JSONDecodeError "")))
   /\ AsyncBountyClient._request Fixtures.async_client "GET" "/stats" None net
      = ([Call "GET" "https://bounty.owockibot.xyz/stats" None], Ok VNone))
  /\ (let net := Fixtures.always (Mistyped 200 (Json (VDict []))) in
      BountyClient._request Fixtures.client "GET" "/stats" None net
      = ([Call "GET" "https://bounty.owockibot.xyz/stats" None], Ok (VDict []))
      /\ calls (fst (AsyncBountyClient._request Fixtures.async_client "GET" "/stats" None
                       net)) = 3%nat
      /\ snd (AsyncBountyClient._request Fixtures.async_client "GET" "/stats" None net)
         = Raise (BountyBoardError (RequestFailed (ContentTypeError 200)))).
Proof. repeat split; vm_compute; reflexivity. Qed.

(** One pass through the two loops on a plain response: the same sleep, if
    any, and outcomes that agree. *)
Lemma attempt_agree (self : BountyClient.t) (aself : AsyncBountyClient.t)
    (method url url' : string) (data : option value) (attempt : Z) (w : wire) :
  BountyClient.max_retries self = AsyncBountyClient.max_retries aself ->
  BountyClient.retry_delay self = AsyncBountyClient.retry_delay aself ->
  plain w = true ->
  (attempt < BountyClient.max_retries self - 1 ->
   time_sleep (BountyClient.backoff self attempt) = Ok tt) ->
  exists zs o o',
    BountyClient.attempt_once self method url data attempt w
    = (Call method url (BountyClient.payload data) :: zs, o)
    /\ AsyncBountyClient.attempt_once aself method url' data attempt w
       = (Call method url' data :: zs, o')
    /\ calls zs = 0%nat
    /\ agree_outcome o o'.
Proof.
  intros Hmax Hdelay Hplain Hsleep.
  assert (Hback : AsyncBountyClient.backoff aself attempt
                  = BountyClient.backoff self attempt).
  { unfold AsyncBountyClient.backoff, BountyClient.backoff. rewrite Hdelay.
    reflexivity. }
  assert (Hexc : forall e1 e2,
             exists zs o o',
               BountyClient.on_exception self attempt e1 = (zs, o)
               /\ AsyncBountyClient.on_exception aself attempt e2 = (zs, o')
               /\ calls zs = 0%nat /\ agree_outcome o o').
  { intros e1 e2.
    unfold BountyClient.on_exception, AsyncBountyClient.on_exception,
      BountyClient.sleep_and_retry, AsyncBountyClient.sleep_and_retry.
    rewrite <- Hmax, Hback.
    destruct (attempt <? BountyClient.max_retries self - 1) eqn:Hlt.
    - rewrite Hsleep by (apply Z.ltb_lt, Hlt). simpl.
      do 3 eexists. repeat split. constructor.
    - do 3 eexists. repeat split. constructor. constructor. }
  unfold BountyClient.attempt_once, AsyncBountyClient.attempt_once.
  destruct w as [status b | what | status b]; [| | discriminate Hplain].
  2:{ destruct (Hexc (TransportError what) (TransportError what))
        as (zs & o & o' & -> & -> & Hz & Ho).
      exists zs, o, o'. repeat split; assumption. }
  unfold plain in Hplain.
  destruct ((200 <=? status) && (status <? 300))%bool eqn:H2xx.
  - apply andb_true_iff in H2xx. destruct H2xx as [_ Hlt300].
    apply Z.ltb_lt in Hlt300.
    destruct b as [v | raw].
    + replace (400 <=? status) with false by (symmetry; apply Z.leb_gt; lia).
      do 3 eexists. repeat split. constructor. constructor.
    + apply negb_true_iff in Hplain. rewrite Hplain.
      destruct (Hexc (JSONDecodeError raw) (JSONDecodeError raw))
        as (zs & o & o' & -> & -> & Hz & Ho).
      exists zs, o, o'. repeat split; assumption.
  - destruct (400 <=? status) eqn:H400; [| discriminate Hplain].
    destruct b as [v | raw]; [| discriminate Hplain].
    destruct v as [| | | | | |entries]; try discriminate Hplain.
    unfold BountyClient.on_http_error, AsyncBountyClient.on_error_status,
      BountyClient.sleep_and_retry, AsyncBountyClient.sleep_and_retry.
    rewrite !get_dict. rewrite <- Hmax, Hback. cbn [bind].
    assert (Hclaimed :
              (if status =? 409
               then mentions_claimed (field entries "error" (VStr ""))
               else Ok false)
              = (if status =? 409
                 then mentions_claimed (field entries "error" (VStr "Unknown error"))
                 else Ok false)
              /\ exists c,
                  (if status =? 409
                   then mentions_claimed (field entries "error" (VStr ""))
                   else Ok false) = Ok c).
    { unfold field. destruct (status =? 409); [| split; [| eexists]; reflexivity].
      destruct (dict_get entries "error") as [[| | | |text| |]|];
        try discriminate Hplain.
      - split; [reflexivity | eexists; reflexivity].
      - split; [reflexivity | eexists; reflexivity]. }
    destruct Hclaimed as [<- [c Hc]]. rewrite Hc.
    destruct c.
    + do 3 eexists. repeat split. constructor. constructor.
    + destruct ((attempt <? BountyClient.max_retries self - 1) && (500 <=? status))%bool
        eqn:Hretry.
      * apply andb_true_iff in Hretry. destruct Hretry as [Hlt _].
        rewrite Hsleep by (apply Z.ltb_lt, Hlt). simpl.
        do 3 eexists. repeat split. constructor.
      * do 3 eexists. repeat split. constructor. constructor. apply get_dict.
Qed.

(** The two loops on plain responses. *)
Lemma attempts_agree (self : BountyClient.t) (aself : AsyncBountyClient.t)
    (method url url' : string) (data : option value) (net : transport) :
  BountyClient.max_retries self = AsyncBountyClient.max_retries aself ->
  BountyClient.retry_delay self = AsyncBountyClient.retry_delay aself ->
  (forall j, plain (net j) = true) ->
  (forall j, 0 <= j < BountyClient.max_retries self - 1 ->
             time_sleep (BountyClient.backoff self j) = Ok tt) ->
  forall remaining attempt,
    agree (snd (BountyClient.attempts self method url data net remaining attempt))
          (snd (AsyncBountyClient.attempts aself method url' data net remaining attempt))
    /\ calls (fst (BountyClient.attempts self method url data net remaining attempt))
       = calls (fst (AsyncBountyClient.attempts aself method url' data net remaining
                       attempt))
    /\ sleeps (fst (BountyClient.attempts self method url data net remaining attempt))
       = sleeps (fst (AsyncBountyClient.attempts aself method url' data net remaining
                        attempt)).
Proof.
  intros Hmax Hdelay Hplain Hsleep remaining.
  induction remaining as [|n IH]; intros attempt.
  - simpl. repeat split. constructor.
  - cbn [BountyClient.attempts AsyncBountyClient.attempts].
    destruct (attempt_agree self aself method url url' data (Z.of_nat attempt)
                (net attempt) Hmax Hdelay (Hplain attempt))
      as (zs & o & o' & -> & -> & Hz & Ho).
    { intros Hlt. apply Hsleep. lia. }
    destruct Ho as [r1 r2 Hr |].
    + simpl. repeat split. exact Hr.
    + specialize (IH (S attempt)).
      destruct (BountyClient.attempts self method url data net n (S attempt))
        as [tr1 r1].
      destruct (AsyncBountyClient.attempts aself method url' data net n (S attempt))
        as [tr2 r2].
      simpl in IH. destruct IH as (Hr & Hc & Hs).
      cbn [fst snd]. repeat split.
      * exact Hr.
      * change (Call method url (BountyClient.payload data) :: zs)
          with ([Call method url (BountyClient.payload data)] ++ zs)%list.
        change (Call method url' data :: zs) with ([Call method url' data] ++ zs)%list.
        rewrite !calls_app, Hc. reflexivity.
      * change (Call method url (BountyClient.payload data) :: zs)
          with ([Call method url (BountyClient.payload data)] ++ zs)%list.
        change (Call method url' data :: zs) with ([Call method url' data] ++ zs)%list.
        rewrite !sleeps_app, Hs. reflexivity.
Qed.



(* ================================================================== *)
(** * Deadlines *)
(* ================================================================== *)

Lemma digit_val_digit_char (d : Z) :
  0 <= d <= 9 -> digit_val (digit_char d) = Some d.
Proof.
  intros H.
  assert (C : d = 0 \/ d = 1 \/ d = 2 \/ d = 3 \/ d = 4 \/ d = 5 \/ d = 6
              \/ d = 7 \/ d = 8 \/ d = 9) by lia.
  repeat (destruct C as [-> | C]; [reflexivity |]). subst. reflexivity.
Qed.

Lemma take_digits_pad (n : nat) :
  forall (z acc : Z) (rest : string),
    0 <= z < 10 ^ Z.of_nat n ->
    take_digits n (pad n z ++ rest) acc = Some (acc * 10 ^ Z.of_nat n + z, rest).
Proof.
  induction n as [|k IH]; intros z acc rest Hz.
  - simpl in *. f_equal. f_equal. lia.
  - rewrite Nat2Z.inj_succ, Z.pow_succ_r in Hz by lia.
    assert (Hp : 0 < 10 ^ Z.of_nat k) by (apply Z.pow_pos_nonneg; lia).
    cbn [pad take_digits append].
    rewrite digit_val_digit_char.
    2:{ split; [apply Z.div_pos; lia |].
        assert (z / 10 ^ Z.of_nat k < 10) by (apply Z.div_lt_upper_bound; lia).
        lia. }
    rewrite IH by (apply Z.mod_pos_bound; lia).
    f_equal. f_equal.
    rewrite Nat2Z.inj_succ, Z.pow_succ_r by lia.
    pose proof (Z.div_mod z (10 ^ Z.of_nat k)) as D. nia.
Qed.

Lemma take_digits_pad0 (n : nat) (z : Z) (rest : string) :
  0 <= z < 10 ^ Z.of_nat n -> take_digits n (pad n z ++ rest) 0 = Some (z, rest).
Proof.
  intros H. rewrite take_digits_pad by exact H. f_equal.
Qed.

Lemma days_in_month_le (y m : Z) : days_in_month y m <= 31.
Proof.
  unfold days_in_month.
  destruct (m =? 2); [destruct (is_leap y); lia |].
  destruct ((m =? 4) || (m =? 6) || (m =? 9) || (m =? 11))%bool; lia.
Qed.

Lemma valid_fields_bounds (y mo d h mi s us : Z) :
  valid_fields y mo d h mi s us = true ->
  0 <= y < 10000 /\ 0 <= mo < 100 /\ 0 <= d < 100 /\ 0 <= h < 100
  /\ 0 <= mi < 100 /\ 0 <= s < 100 /\ 0 <= us < 1000000.
Proof.
  unfold valid_fields, between. intros V.
  repeat (apply andb_true_iff in V; destruct V as [V ?]).
  repeat match goal with
         | H : (_ <=? _) = true |- _ => apply Z.leb_le in H
         end.
  pose proof (days_in_month_le y mo). lia.
Qed.

(** Reads one zero-padded number off the front of the text. *)
Ltac read_pad :=
  rewrite take_digits_pad0 by (cbn; lia); cbn [append]; cbv beta iota.

(** [fromisoformat] reads back what [isoformat] writes for a naive value. *)
Lemma isoformat_roundtrip (dt : datetime) :
  well_formed dt -> fromisoformat (VStr (isoformat dt)) = Ok dt.
Proof.
  destruct dt as [y mo d h mi s us tz]. unfold well_formed.
  cbv beta iota delta [year month day hour minute second microsecond tzinfo].
  intros [V ->].
  destruct (valid_fields_bounds _ _ _ _ _ _ _ V) as (By & Bmo & Bd & Bh & Bmi & Bs & Bus).
  unfold fromisoformat, parse_isoformat, parse_date, isoformat.
  cbv beta iota delta [year month day hour minute second microsecond tzinfo format_offset].
  do 3 read_pad.
  unfold parse_hh_mm_ss_ff.
  do 3 read_pad.
  destruct (us =? 0) eqn:Hus.
  - apply Z.eqb_eq in Hus. subst us. cbn [append]. cbv beta iota.
    unfold parse_offset, datetime_new. rewrite V. reflexivity.
  - cbn [append]. cbv beta iota. unfold parse_fraction.
    read_pad. unfold starts_with_digit, parse_offset, datetime_new.
    rewrite V. reflexivity.
Qed.

Lemma fromtimestamp_ms_well_formed (rt : runtime) (v : value) (dt : datetime) :
  fromtimestamp_ms rt v = Ok dt -> well_formed dt.
Proof.
  unfold fromtimestamp_ms, fromtimestamp. intros H. bind_inv H.
  destruct a0 as [t us].
  destruct (civil_from_days ((t + utcoffset rt t) / 86400)) as [[y mo] d].
  unfold datetime_new in H.
  match type of H with
  | (if valid_fields ?y ?mo ?d ?h ?mi ?s ?us then _ else _) = _ =>
      destruct (valid_fields y mo d h mi s us) eqn:V; [| discriminate H]
  end.
  injection H as <-. split; [exact V | reflexivity].
Qed.

Lemma isoformat_not_empty (dt : datetime) : String.eqb (isoformat dt) "" = false.
Proof. unfold isoformat. cbn [pad append]. reflexivity. Qed.

Lemma append_empty (s : string) : s ++ "" = s.
Proof. induction s as [|c s IH]; [reflexivity |]. cbn [append]. rewrite IH. reflexivity. Qed.

Lemma parse_offset_format_offset (off : Z) :
  - 86400000000 < off < 86400000000 ->
  parse_offset (format_offset (Some off)) = Some (Some off).
Proof.
  intros Hoff. unfold format_offset.
  set (a := Z.abs off). set (secs := a / 1000000). set (us := a mod 1000000).
  assert (Ha : 0 <= a < 86400000000) by (unfold a; lia).
  assert (Hsecs : 0 <= secs < 86400) by (unfold secs; Z.div_mod_to_equations; lia).
  assert (Hus : 0 <= us < 1000000) by (unfold us; Z.div_mod_to_equations; lia).
  assert (Hhh : 0 <= secs / 3600 < 24) by (Z.div_mod_to_equations; lia).
  assert (Hmm : 0 <= secs mod 3600 / 60 < 60) by (Z.div_mod_to_equations; lia).
  assert (Hss : 0 <= secs mod 60 < 60) by (Z.div_mod_to_equations; lia).
  assert (Hsum : (secs / 3600 * 3600 + secs mod 3600 / 60 * 60 + secs mod 60) * 1000000 + us
                 = a).
  { unfold us, secs. Z.div_mod_to_equations. lia. }
  assert (Hsign : (if (off <? 0)%Z then - a else a) = off).
  { unfold a. destruct (off <? 0)%Z eqn:E; [apply Z.ltb_lt in E | apply Z.ltb_ge in E]; lia. }
  assert (Hchar : forall c : ascii,
             c = (if (off <? 0)%Z then "-"%char else "+"%char) ->
             (Ascii.eqb c "+" || Ascii.eqb c "-")%bool = true
             /\ Ascii.eqb c "-" = (off <? 0)%Z).
  { intros c ->. destruct (off <? 0)%Z; split; reflexivity. }
  destruct (Hchar _ eq_refl) as [Hc1 Hc2].
  unfold parse_offset. rewrite Hc1, Hc2.
  unfold parse_hh_mm_ss_ff.
  do 2 read_pad.
  destruct ((secs mod 60 =? 0) && (us =? 0))%bool eqn:Hzero.
  - apply andb_true_iff in Hzero. destruct Hzero as [Hs0 Hu0].
    apply Z.eqb_eq in Hs0. apply Z.eqb_eq in Hu0.
    cbv beta iota.
    replace ((secs / 3600 * 3600 + secs mod 3600 / 60 * 60 + 0) * 1000000 + 0) with a
      by lia.
    replace (a <? 86400 * 1000000) with true by (symmetry; apply Z.ltb_lt; lia).
    rewrite Hsign. reflexivity.
  - cbn [append]. cbv beta iota. read_pad.
    destruct (us =? 0) eqn:Hu0.
    + apply Z.eqb_eq in Hu0. cbv beta iota.
      replace ((secs / 3600 * 3600 + secs mod 3600 / 60 * 60 + secs mod 60) * 1000000 + 0)
        with a by lia.
      replace (a <? 86400 * 1000000) with true by (symmetry; apply Z.ltb_lt; lia).
      rewrite Hsign. reflexivity.
    + cbn [append]. cbv beta iota. unfold parse_fraction.
      rewrite <- (append_empty (pad 6 us)).
      read_pad. unfold starts_with_digit.
      rewrite Hsum.
      replace (a <? 86400 * 1000000) with true by (symmetry; apply Z.ltb_lt; lia).
      rewrite Hsign. reflexivity.
Qed.

Lemma format_offset_head (off : Z) :
  exists tail,
    format_offset (Some off) = String "+" tail \/ format_offset (Some off) = String "-" tail.
Proof.
  unfold format_offset. destruct (off <? 0)%Z; eexists; [right | left]; reflexivity.
Qed.

(** [fromisoformat] reads back what [isoformat] writes for an aware value. *)
Lemma isoformat_roundtrip_aware (a : datetime) (off : Z) :
  aware a off -> fromisoformat (VStr (isoformat a)) = Ok a.
Proof.
  destruct a as [y mo d h mi s us tz]. unfold aware.
  cbv beta iota delta [year month day hour minute second microsecond tzinfo].
  intros (V & -> & Hoff).
  destruct (valid_fields_bounds _ _ _ _ _ _ _ V) as (By & Bmo & Bd & Bh & Bmi & Bs & Bus).
  pose proof (parse_offset_format_offset off Hoff) as Hparse.
  destruct (format_offset_head off) as [tail Hhead].
  unfold fromisoformat, parse_isoformat, parse_date, isoformat.
  cbv beta iota delta [year month day hour minute second microsecond tzinfo].
  do 3 read_pad.
  unfold parse_hh_mm_ss_ff.
  do 3 read_pad.
  destruct (us =? 0) eqn:Hus.
  - apply Z.eqb_eq in Hus. subst us. cbn [append].
    destruct Hhead as [E | E]; rewrite E; cbv beta iota; rewrite <- E, Hparse;
      unfold datetime_new; rewrite V; reflexivity.
  - cbn [append]. cbv beta iota. unfold parse_fraction.
    read_pad.
    destruct Hhead as [E | E]; rewrite E;
      match goal with
      | |- context [starts_with_digit ?t] => change (starts_with_digit t) with false
      end;
      cbv beta iota; rewrite <- E, Hparse; unfold datetime_new; rewrite V; reflexivity.
Qed.

(** C5, as the claim words it, fails.  At the epoch the integer form [0] is
    taken for no deadline at all, while the text form of the same instant is
    parsed.  At any other instant the integer form gives a naive value; a
    text that carries its UTC offset gives an aware one, and the two never
    compare equal. *)
Lemma deadline_forms_differ :
  (exists b1 b2,
      Bounty.from_dict Fixtures.utc (VDict [("deadline", VInt 0)]) = Ok b1
      /\ Bounty.from_dict Fixtures.utc (VDict [("deadline", VStr "1970-01-01T00:00:00")])
         = Ok b2
      /\ Bounty.deadline b1 = None
      /\ Bounty.deadline b2 = Some (Fixtures.midnight 1970 1 1)
      /\ Bounty.deadline b1 <> Bounty.deadline b2)
  /\ (exists b1 b2 d1 d2,
         Bounty.from_dict Fixtures.utc (VDict [("deadline", VInt 1700000000000)]) = Ok b1
         /\ Bounty.from_dict Fixtures.utc
              (VDict [("deadline", VStr "2023-11-14T22:13:20+00:00")]) = Ok b2
         /\ Bounty.deadline b1 = Some d1
         /\ Bounty.deadline b2 = Some d2
         /\ tzinfo d1 = None
         /\ tzinfo d2 = Some 0
         /\ datetime_eqb d1 d2 = false).
Proof.
  split.
  - do 2 eexists. split; [vm_compute; reflexivity |].
    split; [vm_compute; reflexivity |].
    split; [reflexivity |]. split; [reflexivity |].
    intros E. discriminate E.
  - do 4 eexists. split; [vm_compute; reflexivity |].
    split; [vm_compute; reflexivity |].
    repeat split.
Qed.

(** C5 (amended): an integer deadline other than [0] is read as epoch
    milliseconds, giving the naive local time of that instant; a text
    deadline is read as ISO 8601.  The two forms give the same deadline, and
    the same Bounty, when the text is the ISO 8601 rendering of that local
    time without a UTC offset.  A text that carries a UTC offset, as
    [isoformat] writes one, is read as the aware value it renders, offset
    included, and that is the deadline of the Bounty; an aware value never
    equals the naive one of the integer form. *)
Theorem deadline_forms_agree (rt : runtime) (ms : Z) (dt : datetime)
    (rest : list (string * value)) :
  ms <> 0 ->
  fromtimestamp_ms rt (VInt ms) = Ok dt ->
  Bounty.parse_deadline rt (VDict (("deadline", VInt ms) :: rest)) = Ok (Some dt)
  /\ Bounty.parse_deadline rt (VDict (("deadline", VStr (isoformat dt)) :: rest))
     = Ok (Some dt)
  /\ Bounty.from_dict rt (VDict (("deadline", VInt ms) :: rest))
     = Bounty.from_dict rt (VDict (("deadline", VStr (isoformat dt)) :: rest))
  /\ tzinfo dt = None
  /\ (forall dt', tzinfo dt' <> None -> datetime_eqb dt dt' = false)
  /\ (forall a off,
         aware a off ->
         Bounty.parse_deadline rt (VDict (("deadline", VStr (isoformat a)) :: rest))
         = Ok (Some a)
         /\ tzinfo a = Some off
         /\ datetime_eqb dt a = false
         /\ (forall b1 b2,
                Bounty.from_dict rt (VDict (("deadline", VInt ms) :: rest)) = Ok b1 ->
                Bounty.from_dict rt (VDict (("deadline", VStr (isoformat a)) :: rest))
                = Ok b2 ->
                Bounty.deadline b1 = Some dt
                /\ Bounty.deadline b2 = Some a
                /\ Bounty.deadline b1 <> Bounty.deadline b2)).
Proof.
  intros Hms Hdt.
  pose proof (fromtimestamp_ms_well_formed _ _ _ Hdt) as Hwf.
  pose proof (isoformat_roundtrip dt Hwf) as Hiso.
  assert (D1 : Bounty.parse_deadline rt (VDict (("deadline", VInt ms) :: rest))
               = Ok (Some dt)).
  { unfold Bounty.parse_deadline.
    change (get (VDict (("deadline", VInt ms) :: rest)) "deadline" VNone)
      with (Ok (A := value) (VInt ms)).
    change (subscript (VDict (("deadline", VInt ms) :: rest)) "deadline")
      with (Ok (A := value) (VInt ms)).
    cbn [bind truthy is_int].
    apply Z.eqb_neq in Hms. rewrite Hms. cbn [negb bind].
    rewrite Hdt. reflexivity. }
  assert (Dtext : forall x,
             fromisoformat (VStr (isoformat x)) = Ok x ->
             Bounty.parse_deadline rt (VDict (("deadline", VStr (isoformat x)) :: rest))
             = Ok (Some x)).
  { intros x Hx. pose proof (isoformat_not_empty x) as Hne.
    unfold Bounty.parse_deadline.
    change (get (VDict (("deadline", VStr (isoformat x)) :: rest)) "deadline" VNone)
      with (Ok (A := value) (VStr (isoformat x))).
    change (subscript (VDict (("deadline", VStr (isoformat x)) :: rest)) "deadline")
      with (Ok (A := value) (VStr (isoformat x))).
    cbn [bind truthy is_int].
    rewrite Hne. cbn [negb bind].
    rewrite Hx. reflexivity. }
  pose proof (Dtext dt Hiso) as D2.
  assert (Hnaive : forall dt', tzinfo dt' <> None -> datetime_eqb dt dt' = false).
  { intros dt' Haware. unfold datetime_eqb.
    destruct Hwf as [_ ->]. destruct (tzinfo dt'); [reflexivity | congruence]. }
  split; [exact D1 |]. split; [exact D2 |]. split; [| split; [| split]].
  - unfold Bounty.from_dict. rewrite D1, D2. reflexivity.
  - apply Hwf.
  - exact Hnaive.
  - intros a off Ha.
    pose proof (Dtext a (isoformat_roundtrip_aware a off Ha)) as D3.
    destruct Ha as (_ & Htz & _).
    split; [exact D3 |]. split; [exact Htz |].
    split; [apply Hnaive; congruence |].
    intros b1 b2 H1 H2.
    destruct (from_dict_ok _ _ _ H1) as [e1 (_ & _ & _ & P1 & _)].
    destruct (from_dict_ok _ _ _ H2) as [e2 (_ & _ & _ & P2 & _)].
    rewrite D1 in P1. rewrite D3 in P2.
    injection P1 as <-. injection P2 as <-.
    split; [reflexivity |]. split; [reflexivity |].
    intros E. injection E as E. destruct Hwf as [_ Hnone]. congruence.
Qed.

Lemma deadline_forms_agree_witness :
  Bounty.from_dict Fixtures.utc (VDict [("deadline", VInt 1700000000123)])
  = Bounty.from_dict Fixtures.utc (VDict [("deadline", VStr "2023-11-14T22:13:20.123000")]).
Proof.
  refine (proj1 (proj2 (proj2
            (deadline_forms_agree Fixtures.utc 1700000000123
               (mk_datetime 2023 11 14 22 13 20 123000 None) [] _ _)))).
  - lia.
  - vm_compute. reflexivity.
Defined.

(* ================================================================== *)
(** * The request loop, in general *)
(* ================================================================== *)

Lemma get_raises_attribute_error (v : value) (key : string) (default : value) (e : exn) :
  get v key default = Raise e -> exists msg, e = AttributeError msg.
Proof.
  destruct v; simpl; intros H; try discriminate H;
    injection H as <-; eexists; reflexivity.
Qed.

Lemma mentions_claimed_raises_attribute_error (text : value) (e : exn) :
  mentions_claimed text = Raise e -> exists msg, e = AttributeError msg.
Proof.
  destruct text; simpl; intros H; try discriminate H;
    injection H as <-; eexists; reflexivity.
Qed.

Lemma sync_sleep_cases (self : BountyClient.t) (attempt : Z) :
  (BountyClient.sleep_and_retry self attempt
   = ([Sleep (BountyClient.backoff self attempt)], Retry)
   /\ time_sleep (BountyClient.backoff self attempt) = Ok tt)
  \/ (exists msg,
         BountyClient.sleep_and_retry self attempt
         = ([], Done (Raise (ValueError msg)))
         \/ BountyClient.sleep_and_retry self attempt
            = ([], Done (Raise (OverflowError msg)))).
Proof.
  unfold BountyClient.sleep_and_retry.
  destruct (time_sleep (BountyClient.backoff self attempt)) as [[]|e] eqn:H.
  - left. split; reflexivity.
  - right. unfold time_sleep in H.
    destruct (is_nan _); [injection H as <-; eexists; left; reflexivity |].
    destruct (negb _); [injection H as <-; eexists; right; reflexivity |].
    destruct (SFltb _ _); [injection H as <-; eexists; left; reflexivity |].
    discriminate H.
Qed.

Lemma sync_exception_cases (self : BountyClient.t) (attempt : Z) (e : exn) :
  (BountyClient.on_exception self attempt e
   = ([Sleep (BountyClient.backoff self attempt)], Retry)
   /\ attempt < BountyClient.max_retries self - 1
   /\ time_sleep (BountyClient.backoff self attempt) = Ok tt)
  \/ (exists e',
         BountyClient.on_exception self attempt e = ([], Done (Raise e'))
         /\ e' <> BountyBoardError MaxRetriesExceeded).
Proof.
  unfold BountyClient.on_exception.
  destruct (attempt <? BountyClient.max_retries self - 1) eqn:Hlt.
  - apply Z.ltb_lt in Hlt.
    destruct (sync_sleep_cases self attempt) as [[-> Ht] | [msg [-> | ->]]].
    + left. repeat split; assumption.
    + right. eexists. split; [reflexivity | discriminate].
    + right. eexists. split; [reflexivity | discriminate].
  - right. eexists. split; [reflexivity | discriminate].
Qed.

(** What one pass of the synchronous loop can do: call, sleep and go on,
    which takes a further attempt to be left; or call and end, with a value
    only on a 2xx response with a JSON body. *)
Lemma sync_attempt_cases (self : BountyClient.t) (method url : string)
    (data : option value) (attempt : Z) (w : wire) :
  (BountyClient.attempt_once self method url data attempt w
   = ([Call method url (BountyClient.payload data);
       Sleep (BountyClient.backoff self attempt)], Retry)
   /\ attempt < BountyClient.max_retries self - 1
   /\ time_sleep (BountyClient.backoff self attempt) = Ok tt)
  \/ (exists r,
         BountyClient.attempt_once self method url data attempt w
         = ([Call method url (BountyClient.payload data)], Done r)
         /\ r <> Raise (BountyBoardError MaxRetriesExceeded)
         /\ (forall v, r = Ok v -> sync_value w = Some v)).
Proof.
  assert (Hsame : forall status b,
             BountyClient.attempt_once self method url data attempt (Mistyped status b)
             = BountyClient.attempt_once self method url data attempt (Response status b)
             /\ sync_value (Mistyped status b) = sync_value (Response status b)).
  { intros status b. split; reflexivity. }
  destruct w as [status b | what | status b];
    [| | destruct (Hsame status b) as [-> ->]].
  2:{ unfold BountyClient.attempt_once.
      destruct (sync_exception_cases self attempt (TransportError what))
        as [(-> & Hlt & Ht) | [e' (-> & Hne)]].
      - left. repeat split; assumption.
      - right. exists (Raise e'). repeat split; [congruence | discriminate]. }
  all: clear Hsame; unfold BountyClient.attempt_once, sync_value;
    destruct ((200 <=? status) && (status <? 300))%bool eqn:H2xx.
  all: try (apply andb_true_iff in H2xx; destruct H2xx as [Hlo Hhi];
            apply Z.leb_le in Hlo; apply Z.ltb_lt in Hhi;
            destruct b as [v | raw];
            [ right; exists (Ok v); repeat split; [discriminate |];
              intros v' E; injection E as <-; reflexivity
            | destruct (sync_exception_cases self attempt (JSONDecodeError raw))
                as [(-> & Hlt & Ht) | [e' (-> & Hne)]];
              [ left; repeat split; assumption
              | right; exists (Raise e'); repeat split; [congruence | discriminate] ] ]).
  all: unfold BountyClient.on_http_error;
    set (error_data := match b with
                       | Json v => v
                       | Text raw => VDict [("error", VStr raw)]
                       end);
    destruct (if status =? 409
              then text <- get error_data "error" (VStr "");; mentions_claimed text
              else Ok false) as [[|] | e] eqn:Hclaimed.
  all: try (right; eexists; split; [reflexivity |];
            destruct (get error_data "claimedBy" (VStr "unknown")) as [who|e1] eqn:G1;
            cbn [bind];
            [ destruct (get error_data "claimedAt" (VInt 0)) as [when|e2] eqn:G2;
              cbn [bind];
              [ split; discriminate
              | destruct (get_raises_attribute_error _ _ _ _ G2) as [msg ->];
                split; discriminate ]
            | destruct (get_raises_attribute_error _ _ _ _ G1) as [msg ->];
              split; discriminate ]).
  all: try (destruct ((attempt <? BountyClient.max_retries self - 1)
                      && (500 <=? status))%bool eqn:Hretry;
            [ apply andb_true_iff in Hretry; destruct Hretry as [Hlt _];
              apply Z.ltb_lt in Hlt;
              destruct (sync_sleep_cases self attempt) as [[-> Ht] | [msg [-> | ->]]];
              [ left; repeat split; assumption
              | right; eexists; split; [reflexivity |]; split; discriminate
              | right; eexists; split; [reflexivity |]; split; discriminate ]
            | right; eexists; split; [reflexivity |]; split; discriminate ]).
  all: right; eexists; split; [reflexivity |];
    assert (Hattr : exists msg, e = AttributeError msg)
      by (destruct (status =? 409); [| discriminate Hclaimed];
          destruct (get error_data "error" (VStr "")) as [text|e1] eqn:G;
          cbn [bind] in Hclaimed;
          [ apply (mentions_claimed_raises_attribute_error _ _ Hclaimed)
          | injection Hclaimed as <-; apply (get_raises_attribute_error _ _ _ _ G) ]);
    destruct Hattr as [msg ->]; split; discriminate.
Qed.

(** The synchronous loop, as a whole: some attempts that call, sleep and go
    on, then one that calls and ends the request. *)
Lemma sync_attempts_shape (self : BountyClient.t) (method url : string)
    (data : option value) (net : transport) :
  forall remaining attempt : nat,
    Z.of_nat (attempt + remaining) = BountyClient.max_retries self ->
    (0 < remaining)%nat ->
    exists (k : nat) (r : result value),
      (k < remaining)%nat
      /\ BountyClient.attempts self method url data net remaining attempt
         = ((ladder (Call method url (BountyClient.payload data))
               (BountyClient.backoff self) attempt k
             ++ [Call method url (BountyClient.payload data)])%list, r)
      /\ BountyClient.attempt_once self method url data (Z.of_nat (attempt + k))
           (net (attempt + k)%nat)
         = ([Call method url (BountyClient.payload data)], Done r)
      /\ (forall j, (attempt <= j < attempt + k)%nat ->
                    BountyClient.attempt_once self method url data (Z.of_nat j) (net j)
                    = ([Call method url (BountyClient.payload data);
                        Sleep (BountyClient.backoff self (Z.of_nat j))], Retry))
      /\ r <> Raise (BountyBoardError MaxRetriesExceeded)
      /\ (forall v, r = Ok v -> sync_value (net (attempt + k)%nat) = Some v).
Proof.
  induction remaining as [|n IH]; intros attempt Hmax Hpos; [lia |].
  cbn [BountyClient.attempts].
  destruct (sync_attempt_cases self method url data (Z.of_nat attempt) (net attempt))
    as [(Hstep & Hlt & Ht) | [r (Hstep & Hne & Hok)]].
  - destruct n as [|n']; [lia |].
    destruct (IH (S attempt)) as (k & r & Hk & Hrun & Hlast & Hfirst & Hne & Hok);
      [lia | lia |].
    exists (S k), r. rewrite Hstep, Hrun.
    replace (attempt + S k)%nat with (S attempt + k)%nat by lia.
    split; [lia |]. split; [| split; [exact Hlast | split; [| split; assumption]]].
    + unfold ladder. cbn [seq flat_map]. reflexivity.
    + intros j Hj. destruct (Nat.eq_dec j attempt) as [-> | Hneq];
        [exact Hstep | apply Hfirst; lia].
  - exists 0%nat, r. rewrite Hstep. rewrite Nat.add_0_r.
    split; [lia |]. split; [reflexivity |]. split; [exact Hstep |].
    split; [intros j Hj; lia |]. split; assumption.
Qed.

Lemma async_exception_cases (self : AsyncBountyClient.t) (attempt : Z) (e : exn) :
  (AsyncBountyClient.on_exception self attempt e
   = ([Sleep (AsyncBountyClient.backoff self attempt)], Retry)
   /\ attempt < AsyncBountyClient.max_retries self - 1)
  \/ (AsyncBountyClient.on_exception self attempt e
      = ([], Done (Raise (BountyBoardError (RequestFailed e))))
      /\ AsyncBountyClient.max_retries self - 1 <= attempt).
Proof.
  unfold AsyncBountyClient.on_exception.
  destruct (attempt <? AsyncBountyClient.max_retries self - 1) eqn:Hlt.
  - apply Z.ltb_lt in Hlt. left. split; [reflexivity | exact Hlt].
  - apply Z.ltb_ge in Hlt. right. split; [reflexivity | exact Hlt].
Qed.

(** What one pass of the asynchronous loop can do. *)
Lemma async_attempt_cases (self : AsyncBountyClient.t) (method url : string)
    (data : option value) (attempt : Z) (w : wire) :
  (AsyncBountyClient.attempt_once self method url data attempt w
   = ([Call method url data; Sleep (AsyncBountyClient.backoff self attempt)], Retry)
   /\ attempt < AsyncBountyClient.max_retries self - 1)
  \/ (exists r,
         AsyncBountyClient.attempt_once self method url data attempt w
         = ([Call method url data], Done r)
         /\ sdk_result r
         /\ r <> Raise (BountyBoardError MaxRetriesExceeded)
         /\ (forall v, r = Ok v -> async_value w = Some v)).
Proof.
  assert (Hexc : forall e tr o,
             AsyncBountyClient.on_exception self attempt e = (tr, o) ->
             (tr = [Sleep (AsyncBountyClient.backoff self attempt)] /\ o = Retry
              /\ attempt < AsyncBountyClient.max_retries self - 1)
             \/ (exists r, tr = [] /\ o = Done r /\ sdk_result r
                           /\ r <> Raise (BountyBoardError MaxRetriesExceeded)
                           /\ forall v, r <> Ok v)).
  { intros e tr o H.
    destruct (async_exception_cases self attempt e) as [[E Hlt] | [E _]];
      rewrite E in H; injection H as <- <-.
    - left. repeat split. exact Hlt.
    - right. eexists. repeat split; try discriminate. }
  assert (Hfin : forall tr o,
             ((tr = [Sleep (AsyncBountyClient.backoff self attempt)] /\ o = Retry
               /\ attempt < AsyncBountyClient.max_retries self - 1)
              \/ (exists r, tr = [] /\ o = Done r /\ sdk_result r
                            /\ r <> Raise (BountyBoardError MaxRetriesExceeded)
                            /\ forall v, r <> Ok v)) ->
             ((Call method url data :: tr, o)
              = ([Call method url data; Sleep (AsyncBountyClient.backoff self attempt)],
                 Retry)
              /\ attempt < AsyncBountyClient.max_retries self - 1)
             \/ (exists r,
                    (Call method url data :: tr, o) = ([Call method url data], Done r)
                    /\ sdk_result r
                    /\ r <> Raise (BountyBoardError MaxRetriesExceeded)
                    /\ (forall v, r = Ok v -> async_value w = Some v))).
  { intros tr o [(-> & -> & Hlt) | [r (-> & -> & Hs & Hne & Hnok)]].
    - left. split; [reflexivity | exact Hlt].
    - right. exists r. repeat split; try assumption.
      intros v E. exfalso. apply (Hnok v E). }
  unfold AsyncBountyClient.attempt_once.
  destruct w as [status b | what | status b].
  2:{ destruct (AsyncBountyClient.on_exception self attempt (TransportError what))
        as [tr o] eqn:H.
      apply Hfin, (Hexc _ _ _ H). }
  2:{ destruct (AsyncBountyClient.on_exception self attempt (ContentTypeError status))
        as [tr o] eqn:H.
      apply Hfin, (Hexc _ _ _ H). }
  destruct b as [response_data | raw].
  2:{ destruct (blank raw) eqn:Hblank.
      - destruct (400 <=? status) eqn:H400.
        + unfold AsyncBountyClient.on_error_status. cbn [get].
          destruct (AsyncBountyClient.on_exception self attempt (no_attribute VNone "get"))
            as [tr o] eqn:H.
          apply Hfin, (Hexc _ _ _ H).
        + right. exists (Ok VNone). repeat split; [discriminate |].
          intros v E. injection E as <-. unfold async_value, response_json.
          rewrite Hblank, H400. reflexivity.
      - destruct (AsyncBountyClient.on_exception self attempt (JSONDecodeError raw))
          as [tr o] eqn:H.
        apply Hfin, (Hexc _ _ _ H). }
  destruct (400 <=? status) eqn:H400.
  2:{ right. exists (Ok response_data).
      repeat split; [discriminate |].
      intros v E. injection E as <-. unfold async_value, response_json.
      rewrite H400. reflexivity. }
  unfold AsyncBountyClient.on_error_status.
  destruct (get response_data "error" (VStr "Unknown error")) as [error_msg | e].
  2:{ destruct (AsyncBountyClient.on_exception self attempt e) as [tr o] eqn:H.
      apply Hfin, (Hexc _ _ _ H). }
  destruct (if status =? 409 then mentions_claimed error_msg else Ok false)
    as [[|] | e].
  - destruct (get response_data "claimedBy" (VStr "unknown")) as [who | e1].
    + destruct (get response_data "claimedAt" (VInt 0)) as [when | e2].
      * apply Hfin. right. eexists. repeat split; try discriminate.
      * destruct (AsyncBountyClient.on_exception self attempt e2) as [tr o] eqn:H.
        apply Hfin, (Hexc _ _ _ H).
    + destruct (AsyncBountyClient.on_exception self attempt e1) as [tr o] eqn:H.
      apply Hfin, (Hexc _ _ _ H).
  - destruct ((attempt <? AsyncBountyClient.max_retries self - 1) && (500 <=? status))%bool
      eqn:Hretry.
    + apply andb_true_iff in Hretry. destruct Hretry as [Hlt _].
      apply Z.ltb_lt in Hlt. apply Hfin. left. repeat split. exact Hlt.
    + apply Hfin. right. eexists. repeat split; try discriminate.
  - destruct (AsyncBountyClient.on_exception self attempt e) as [tr o] eqn:H.
    apply Hfin, (Hexc _ _ _ H).
Qed.

Lemma async_attempts_shape (self : AsyncBountyClient.t) (method url : string)
    (data : option value) (net : transport) :
  forall remaining attempt : nat,
    Z.of_nat (attempt + remaining) = AsyncBountyClient.max_retries self ->
    (0 < remaining)%nat ->
    exists (k : nat) (r : result value),
      (k < remaining)%nat
      /\ AsyncBountyClient.attempts self method url data net remaining attempt
         = ((ladder (Call method url data) (AsyncBountyClient.backoff self) attempt k
             ++ [Call method url data])%list, r)
      /\ AsyncBountyClient.attempt_once self method url data (Z.of_nat (attempt + k))
           (net (attempt + k)%nat)
         = ([Call method url data], Done r)
      /\ (forall j, (attempt <= j < attempt + k)%nat ->
                    AsyncBountyClient.attempt_once self method url data (Z.of_nat j) (net j)
                    = ([Call method url data;
                        Sleep (AsyncBountyClient.backoff self (Z.of_nat j))], Retry))
      /\ sdk_result r
      /\ r <> Raise (BountyBoardError MaxRetriesExceeded)
      /\ (forall v, r = Ok v -> async_value (net (attempt + k)%nat) = Some v).
Proof.
  induction remaining as [|n IH]; intros attempt Hmax Hpos; [lia |].
  cbn [AsyncBountyClient.attempts].
  destruct (async_attempt_cases self method url data (Z.of_nat attempt) (net attempt))
    as [(Hstep & Hlt) | [r (Hstep & Hsdk & Hne & Hok)]].
  - destruct n as [|n']; [lia |].
    destruct (IH (S attempt)) as (k & r & Hk & Hrun & Hlast & Hfirst & Hsdk & Hne & Hok);
      [lia | lia |].
    exists (S k), r. rewrite Hstep, Hrun.
    replace (attempt + S k)%nat with (S attempt + k)%nat by lia.
    split; [lia |].
    split; [| split; [exact Hlast | split; [| repeat split; assumption]]].
    + unfold ladder. cbn [seq flat_map]. reflexivity.
    + intros j Hj. destruct (Nat.eq_dec j attempt) as [-> | Hneq];
        [exact Hstep | apply Hfirst; lia].
  - exists 0%nat, r. rewrite Hstep. rewrite Nat.add_0_r.
    split; [lia |]. split; [reflexivity |]. split; [exact Hstep |].
    split; [intros j Hj; lia |]. repeat split; assumption.
Qed.

Lemma calls_ladder (call : event) (delay : Z -> spec_float) (k attempt : nat) :
  is_call call = true -> calls (ladder call delay attempt k) = k.
Proof.
  intros Hc. unfold ladder. revert attempt.
  induction k as [|k IH]; intros attempt; [reflexivity |].
  cbn [seq flat_map].
  change ([call; Sleep (delay (Z.of_nat attempt))]
          ++ flat_map (fun j => [call; Sleep (delay (Z.of_nat j))]) (seq (S attempt) k))%list
    with ([call] ++ [Sleep (delay (Z.of_nat attempt))]
          ++ flat_map (fun j => [call; Sleep (delay (Z.of_nat j))]) (seq (S attempt) k))%list.
  rewrite !calls_app, IH. unfold calls. simpl. rewrite Hc. reflexivity.
Qed.

Lemma sleeps_ladder (call : event) (delay : Z -> spec_float) (k attempt : nat) :
  is_call call = true ->
  sleeps (ladder call delay attempt k) = map (fun j => delay (Z.of_nat j)) (seq attempt k).
Proof.
  intros Hc. unfold ladder. revert attempt.
  induction k as [|k IH]; intros attempt; [reflexivity |].
  cbn [seq flat_map map]. rewrite sleeps_app, IH.
  destruct call; [reflexivity | discriminate Hc].
Qed.












Lemma sync_transient_step (self : BountyClient.t) (method url : string)
    (data : option value) (attempt : Z) (w : wire) :
  transient w = true ->
  (attempt < BountyClient.max_retries self - 1 ->
   time_sleep (BountyClient.backoff self attempt) = Ok tt ->
   BountyClient.attempt_once self method url data attempt w
   = ([Call method url (BountyClient.payload data);
       Sleep (BountyClient.backoff self attempt)], Retry))
  /\ (BountyClient.max_retries self - 1 <= attempt ->
      BountyClient.attempt_once self method url data attempt w
      = ([Call method url (BountyClient.payload data)],
         Done (Raise (BountyBoardError (sync_failure w))))).
Proof.
  intros Ht.
  assert (Hresp : forall status b,
             500 <= status ->
             (attempt < BountyClient.max_retries self - 1 ->
              time_sleep (BountyClient.backoff self attempt) = Ok tt ->
              BountyClient.attempt_once self method url data attempt (Response status b)
              = ([Call method url (BountyClient.payload data);
                  Sleep (BountyClient.backoff self attempt)], Retry))
             /\ (BountyClient.max_retries self - 1 <= attempt ->
                 BountyClient.attempt_once self method url data attempt
                   (Response status b)
                 = ([Call method url (BountyClient.payload data)],
                    Done (Raise (BountyBoardError (ApiError status (error_object b))))))).
  { intros status b Hs. split.
    - intros Hlt Hsleep. apply sync_server_error; assumption.
    - intros Hge. unfold BountyClient.attempt_once, BountyClient.on_http_error.
      replace (status <? 300) with false by (symmetry; apply Z.ltb_ge; lia).
      rewrite andb_false_r.
      replace (status =? 409) with false by (symmetry; apply Z.eqb_neq; lia).
      replace (attempt <? BountyClient.max_retries self - 1) with false
        by (symmetry; apply Z.ltb_ge; lia).
      reflexivity. }
  destruct w as [status b | what | status b]; simpl in Ht.
  - apply Z.leb_le in Ht. apply (Hresp status b Ht).
  - unfold BountyClient.attempt_once, BountyClient.on_exception,
      BountyClient.sleep_and_retry. split.
    + intros Hlt Hsleep.
      replace (attempt <? BountyClient.max_retries self - 1) with true
        by (symmetry; apply Z.ltb_lt; lia).
      rewrite Hsleep. reflexivity.
    + intros Hge.
      replace (attempt <? BountyClient.max_retries self - 1) with false
        by (symmetry; apply Z.ltb_ge; lia).
      reflexivity.
  - apply Z.leb_le in Ht. apply (Hresp status b Ht).
Qed.

Lemma async_transient_step (self : AsyncBountyClient.t) (method url : string)
    (data : option value) (attempt : Z) (w : wire) :
  transient w = true ->
  (attempt < AsyncBountyClient.max_retries self - 1 ->
   AsyncBountyClient.attempt_once self method url data attempt w
   = ([Call method url data; Sleep (AsyncBountyClient.backoff self attempt)], Retry))
  /\ (AsyncBountyClient.max_retries self - 1 <= attempt ->
      AsyncBountyClient.attempt_once self method url data attempt w
      = ([Call method url data], Done (Raise (BountyBoardError (async_failure w))))).
Proof.
  intros Ht.
  assert (Hexc : forall e,
             (attempt < AsyncBountyClient.max_retries self - 1 ->
              AsyncBountyClient.on_exception self attempt e
              = ([Sleep (AsyncBountyClient.backoff self attempt)], Retry))
             /\ (AsyncBountyClient.max_retries self - 1 <= attempt ->
                 AsyncBountyClient.on_exception self attempt e
                 = ([], Done (Raise (BountyBoardError (RequestFailed e)))))).
  { intros e. unfold AsyncBountyClient.on_exception. split.
    - intros Hlt.
      replace (attempt <? AsyncBountyClient.max_retries self - 1) with true
        by (symmetry; apply Z.ltb_lt; lia).
      reflexivity.
    - intros Hge.
      replace (attempt <? AsyncBountyClient.max_retries self - 1) with false
        by (symmetry; apply Z.ltb_ge; lia).
      reflexivity. }
  destruct w as [status b | what | status b]; simpl in Ht.
  - apply Z.leb_le in Ht. split.
    + intros Hlt. apply async_server_error; assumption.
    + intros Hge.
      unfold AsyncBountyClient.attempt_once, async_failure, response_json.
      replace (400 <=? status) with true by (symmetry; apply Z.leb_le; lia).
      destruct b as [v | raw].
      * unfold AsyncBountyClient.on_error_status.
        destruct (get v "error" (VStr "Unknown error")) as [msg | e];
          [| rewrite (proj2 (Hexc e) Hge); reflexivity].
        replace (status =? 409) with false by (symmetry; apply Z.eqb_neq; lia).
        replace (attempt <? AsyncBountyClient.max_retries self - 1) with false
          by (symmetry; apply Z.ltb_ge; lia).
        reflexivity.
      * destruct (blank raw).
        -- unfold AsyncBountyClient.on_error_status. cbn [get].
           rewrite (proj2 (Hexc _) Hge). reflexivity.
        -- rewrite (proj2 (Hexc _) Hge). reflexivity.
  - unfold AsyncBountyClient.attempt_once, async_failure, response_json. split.
    + intros Hlt. rewrite (proj1 (Hexc _) Hlt). reflexivity.
    + intros Hge. rewrite (proj2 (Hexc _) Hge). reflexivity.
  - unfold AsyncBountyClient.attempt_once, async_failure, response_json. split.
    + intros Hlt. rewrite (proj1 (Hexc _) Hlt). reflexivity.
    + intros Hge. rewrite (proj2 (Hexc _) Hge). reflexivity.
Qed.



(* ================================================================== *)
(** * The clients *)
(* ================================================================== *)

Lemma rstrip_char_no_trailing (c : ascii) (s : string) :
  ends_with c (rstrip_char c s) = false.
Proof.
  induction s as [|a rest IH]; [reflexivity |].
  cbn [rstrip_char].
  destruct (rstrip_char c rest) as [|b kept].
  - destruct (Ascii.eqb a c) eqn:E; [reflexivity |]. simpl. exact E.
  - exact IH.
Qed.

Lemma rstrip_char_fixed (c : ascii) (s : string) :
  ends_with c s = false -> rstrip_char c s = s.
Proof.
  induction s as [|a rest IH]; [reflexivity |].
  intros H. cbn [rstrip_char].
  destruct rest as [|b rest'].
  - simpl in *. rewrite H. reflexivity.
  - rewrite IH by exact H. reflexivity.
Qed.

Lemma rstrip_char_snoc (c : ascii) (s : string) :
  rstrip_char c (s ++ String c EmptyString) = rstrip_char c s.
Proof.
  induction s as [|a rest IH].
  - simpl. rewrite Ascii.eqb_refl. reflexivity.
  - cbn [append rstrip_char]. rewrite IH. reflexivity.
Qed.



(** Every call of a request is the same call. *)
Lemma sync_calls_are_the_call (self : BountyClient.t) (method url : string)
    (data : option value) (net : transport) :
  forall remaining attempt,
    Forall (fun e => is_call e = true -> e = Call method url (BountyClient.payload data))
      (fst (BountyClient.attempts self method url data net remaining attempt)).
Proof.
  induction remaining as [|n IH]; intros attempt; [constructor |].
  cbn [BountyClient.attempts].
  destruct (sync_attempt_cases self method url data (Z.of_nat attempt) (net attempt))
    as [(-> & _) | [r (-> & _)]].
  - specialize (IH (S attempt)).
    destruct (BountyClient.attempts self method url data net n (S attempt)) as [tr r].
    cbn [fst] in *. repeat constructor; [discriminate | exact IH].
  - repeat constructor.
Qed.

Lemma async_calls_are_the_call (self : AsyncBountyClient.t) (method url : string)
    (data : option value) (net : transport) :
  forall remaining attempt,
    Forall (fun e => is_call e = true -> e = Call method url data)
      (fst (AsyncBountyClient.attempts self method url data net remaining attempt)).
Proof.
  induction remaining as [|n IH]; intros attempt; [constructor |].
  cbn [AsyncBountyClient.attempts].
  destruct (async_attempt_cases self method url data (Z.of_nat attempt) (net attempt))
    as [(-> & _) | [r (-> & _)]].
  - specialize (IH (S attempt)).
    destruct (AsyncBountyClient.attempts self method url data net n (S attempt)) as [tr r].
    cbn [fst] in *. repeat constructor; [discriminate | exact IH].
  - repeat constructor.
Qed.

Lemma or_else_resolves (wallet default : option string) (address : string) :
  resolves_to wallet default address ->
  or_else wallet default = Some address /\ String.eqb address "" = false.
Proof.
  intros [[-> | [Hw ->]] Hne]; apply String.eqb_neq in Hne; unfold or_else.
  - split; [rewrite Hne; reflexivity | exact Hne].
  - split; [| exact Hne]. unfold truthy_str in Hw.
    destruct wallet as [s|]; [| reflexivity].
    apply negb_false_iff in Hw. rewrite Hw. reflexivity.
Qed.



(* ================================================================== *)
(** * The methods on a first success *)
(* ================================================================== *)

(** A request whose first answer is a 2xx response with a JSON body returns
    that body after one call. *)
Lemma sync_first_success (self : BountyClient.t) (method path : string)
    (data : option value) (net : transport) (status : Z) (v : value) :
  0 < BountyClient.max_retries self ->
  net 0%nat = Response status (Json v) ->
  200 <= status < 300 ->
  BountyClient._request self method path data net
  = ([Call method (BountyClient.base_url self ++ path) (BountyClient.payload data)], Ok v).
Proof.
  intros Hpos Hnet Hs. unfold BountyClient._request.
  destruct (Z.to_nat (BountyClient.max_retries self)) as [|n] eqn:En; [lia |].
  cbn [BountyClient.attempts]. rewrite Hnet. unfold BountyClient.attempt_once.
  replace ((200 <=? status) && (status <? 300))%bool with true
    by (symmetry; apply andb_true_iff; split; [apply Z.leb_le | apply Z.ltb_lt]; lia).
  reflexivity.
Qed.

Lemma async_first_success (self : AsyncBountyClient.t) (method path : string)
    (data : option value) (net : transport) (status : Z) (v : value) :
  0 < AsyncBountyClient.max_retries self ->
  net 0%nat = Response status (Json v) ->
  200 <= status < 300 ->
  AsyncBountyClient._request self method path data net
  = ([Call method (AsyncBountyClient.base_url self ++ path) data], Ok v).
Proof.
  intros Hpos Hnet Hs. unfold AsyncBountyClient._request.
  destruct (Z.to_nat (AsyncBountyClient.max_retries self)) as [|n] eqn:En; [lia |].
  cbn [AsyncBountyClient.attempts]. rewrite Hnet. unfold AsyncBountyClient.attempt_once.
  replace (400 <=? status) with false by (symmetry; apply Z.leb_gt; lia).
  reflexivity.
Qed.







(* ================================================================== *)
(** * Listing, in general *)
(* ================================================================== *)

Lemma subsequence_refl {A : Type} (xs : list A) : subsequence xs xs.
Proof. induction xs; constructor; assumption. Qed.

Lemma subsequence_trans {A : Type} (xs ys zs : list A) :
  subsequence xs ys -> subsequence ys zs -> subsequence xs zs.
Proof.
  intros H1 H2. revert xs H1.
  induction H2 as [| y ys zs H2 IH | z ys zs H2 IH]; intros xs H1.
  - exact H1.
  - inversion H1; subst.
    + constructor. apply IH. assumption.
    + apply subsequence_skip. apply IH. assumption.
  - apply subsequence_skip. apply IH. exact H1.
Qed.

Lemma filter_subsequence {A : Type} (p : A -> bool) (xs : list A) :
  subsequence (filter p xs) xs.
Proof.
  induction xs as [|x rest IH]; simpl; [constructor |].
  destruct (p x); constructor; exact IH.
Qed.

Lemma filterM_ok {A : Type} (p : A -> result bool) (xs ys : list A) :
  filterM p xs = Ok ys ->
  subsequence ys xs /\ Forall (fun y => p y = Ok true) ys.
Proof.
  revert ys. induction xs as [|x rest IH]; intros ys H; simpl in H.
  - injection H as <-. split; constructor.
  - destruct (p x) as [keep|e] eqn:Hp; [| discriminate H]. cbn [bind] in H.
    destruct (filterM p rest) as [ys'|e] eqn:Hrest; [| discriminate H].
    cbn [bind] in H. injection H as <-.
    destruct (IH ys' eq_refl) as [Hsub Hall].
    destruct keep.
    + split; constructor; assumption.
    + split; [constructor; exact Hsub | exact Hall].
Qed.

Lemma filter_status_ok (status : option string) (bs : list Bounty.t) :
  subsequence (BountyClient.filter_status status bs) bs
  /\ (forall s, status = Some s -> s <> "" ->
                Forall (fun b => Bounty.status b = VStr s)
                  (BountyClient.filter_status status bs)).
Proof.
  unfold BountyClient.filter_status. split.
  - destruct status as [s|]; [destruct (truthy_str (Some s)) |];
      apply filter_subsequence || apply subsequence_refl.
  - intros s -> Hne. unfold truthy_str. apply String.eqb_neq in Hne. rewrite Hne.
    cbn [negb]. apply Forall_forall. intros b Hb. apply filter_In in Hb.
    apply has_status_spec. apply Hb.
Qed.

Lemma subsequence_Forall {A : Type} (P : A -> Prop) (xs ys : list A) :
  subsequence xs ys -> Forall P ys -> Forall P xs.
Proof.
  induction 1 as [| x xs ys H IH | y xs ys H IH]; intros Hall.
  - constructor.
  - inversion Hall; subst. constructor; [assumption | apply IH; assumption].
  - inversion Hall; subst. apply IH; assumption.
Qed.

(** What a list returned by [list_bounties] is. *)
Lemma filters_ok (status : option string) (tags : option (list string))
    (bs out : list Bounty.t) :
  BountyClient.filter_tags tags (BountyClient.filter_status status bs) = Ok out ->
  subsequence out bs
  /\ (forall s, status = Some s -> s <> "" ->
                Forall (fun b => Bounty.status b = VStr s) out)
  /\ (forall t ts, tags = Some (t :: ts) ->
                   Forall (fun b => anyM (fun x => str_in x (Bounty.tags b)) (t :: ts)
                                    = Ok true) out).
Proof.
  intros H. destruct (filter_status_ok status bs) as [Hsub Hstat].
  assert (Hout : subsequence out (BountyClient.filter_status status bs)
                 /\ forall t ts, tags = Some (t :: ts) ->
                                 Forall (fun b => anyM (fun x => str_in x (Bounty.tags b))
                                                    (t :: ts) = Ok true) out).
  { unfold BountyClient.filter_tags in H.
    destruct tags as [[|t ts]|].
    - injection H as <-. split; [apply subsequence_refl | discriminate].
    - destruct (filterM_ok _ _ _ H) as [Hs Ha]. split; [exact Hs |].
      intros t' ts' E. injection E as <- <-. exact Ha.
    - injection H as <-. split; [apply subsequence_refl | discriminate]. }
  destruct Hout as [Hsub' Htags]. split; [| split].
  - apply (subsequence_trans _ _ _ Hsub' Hsub).
  - intros s Es Hne. apply (subsequence_Forall _ _ _ Hsub'). apply (Hstat s Es Hne).
  - exact Htags.
Qed.







Lemma filterM_raises {A : Type} (p : A -> result bool) (e : exn) (xs : list A) :
  Forall (fun x => (exists keep, p x = Ok keep) \/ p x = Raise e) xs ->
  Exists (fun x => p x = Raise e) xs ->
  filterM p xs = Raise e.
Proof.
  induction xs as [|x rest IH]; intros Hall Hex.
  - inversion Hex.
  - inversion Hall as [| ? ? Hx Hrest]; subst. cbn [filterM].
    destruct Hx as [[keep Hx] | Hx]; rewrite Hx; [| reflexivity].
    cbn [bind]. rewrite IH; [reflexivity | exact Hrest |].
    inversion Hex as [? ? Hhead | ? ? Htail]; subst; [congruence | exact Htail].
Qed.



(* ================================================================== *)
(** * The mapper, field by field *)
(* ================================================================== *)

Lemma mapM_Forall2 {A B : Type} (f : A -> result B) (xs : list A) (ys : list B) :
  mapM f xs = Ok ys -> Forall2 (fun x y => f x = Ok y) xs ys.
Proof.
  revert ys. induction xs as [|x rest IH]; intros ys H; simpl in H.
  - injection H as <-. constructor.
  - bind_inv H. injection H as <-. constructor; [exact Ha | apply IH; exact Ha0].
Qed.



Lemma from_dict_instants (rt : runtime) (data : value) (b : Bounty.t) :
  Bounty.from_dict rt data = Ok b ->
  Bounty.parse_deadline rt data = Ok (Bounty.deadline b)
  /\ Bounty.parse_optional_ms rt data "claimedAt" = Ok (Bounty.claimed_at b)
  /\ Bounty.parse_optional_ms rt data "completedAt" = Ok (Bounty.completed_at b).
Proof.
  intros H. unfold Bounty.from_dict in H. bind_inv H.
  injection H as <-. simpl. repeat split; assumption.
Qed.

Lemma parse_optional_ms_none (rt : runtime) (entries : list (string * value))
    (key : string) (r : option datetime) :
  Bounty.parse_optional_ms rt (VDict entries) key = Ok r ->
  (r = None <-> truthy (field entries key VNone) = false).
Proof.
  unfold Bounty.parse_optional_ms. rewrite get_dict. cbn [bind].
  destruct (truthy (field entries key VNone)).
  - intros H. bind_inv H. injection H as <-. split; discriminate.
  - intros H. injection H as <-. split; reflexivity.
Qed.

Lemma parse_deadline_none (rt : runtime) (entries : list (string * value))
    (r : option datetime) :
  Bounty.parse_deadline rt (VDict entries) = Ok r ->
  (r = None <-> truthy (field entries "deadline" VNone) = false).
Proof.
  unfold Bounty.parse_deadline. rewrite get_dict. cbn [bind].
  destruct (truthy (field entries "deadline" VNone)).
  - intros H. bind_inv H. destruct (is_int a); bind_inv H; injection H as <-;
      split; discriminate.
  - intros H. injection H as <-. split; reflexivity.
Qed.



Lemma append_assoc (a b c : string) : (a ++ b) ++ c = a ++ (b ++ c).
Proof. induction a as [|x a IH]; [reflexivity |]. cbn [append]. rewrite IH. reflexivity. Qed.

Lemma replace_char_app (c : ascii) (by_ a b : string) :
  replace_char c by_ (a ++ b) = replace_char c by_ a ++ replace_char c by_ b.
Proof.
  induction a as [|x a IH]; [reflexivity |].
  cbn [append replace_char]. rewrite IH.
  destruct (Ascii.eqb x c); [rewrite append_assoc |]; reflexivity.
Qed.

Lemma digit_char_not_Z (d : Z) : 0 <= d <= 9 -> Ascii.eqb (digit_char d) "Z" = false.
Proof.
  intros H.
  assert (C : d = 0 \/ d = 1 \/ d = 2 \/ d = 3 \/ d = 4 \/ d = 5 \/ d = 6
              \/ d = 7 \/ d = 8 \/ d = 9) by lia.
  repeat (destruct C as [-> | C]; [reflexivity |]). subst. reflexivity.
Qed.

Lemma replace_char_pad (by_ : string) (n : nat) :
  forall z, 0 <= z < 10 ^ Z.of_nat n -> replace_char "Z" by_ (pad n z) = pad n z.
Proof.
  induction n as [|k IH]; intros z Hz; [reflexivity |].
  rewrite Nat2Z.inj_succ, Z.pow_succ_r in Hz by lia.
  assert (Hp : 0 < 10 ^ Z.of_nat k) by (apply Z.pow_pos_nonneg; lia).
  cbn [pad replace_char].
  rewrite digit_char_not_Z.
  2:{ split; [apply Z.div_pos; lia |].
      assert (z / 10 ^ Z.of_nat k < 10) by (apply Z.div_lt_upper_bound; lia).
      lia. }
  rewrite IH by (apply Z.mod_pos_bound; lia). reflexivity.
Qed.

Lemma replace_char_skip (c a : ascii) (by_ s : string) :
  Ascii.eqb a c = false ->
  replace_char c by_ (String a s) = String a (replace_char c by_ s).
Proof. intros H. cbn [replace_char]. rewrite H. reflexivity. Qed.

(** Fewer digits than asked for. *)
Lemma take_digits_short (n k : nat) :
  forall (z acc : Z) (c : ascii) (rest : string),
    0 <= z < 10 ^ Z.of_nat n ->
    digit_val c = None ->
    take_digits (n + S k) (pad n z ++ String c rest) acc = None.
Proof.
  induction n as [|m IH]; intros z acc c rest Hz Hc.
  - cbn [Nat.add pad append take_digits]. rewrite Hc. reflexivity.
  - rewrite Nat2Z.inj_succ, Z.pow_succ_r in Hz by lia.
    assert (Hp : 0 < 10 ^ Z.of_nat m) by (apply Z.pow_pos_nonneg; lia).
    cbn [Nat.add pad append take_digits].
    rewrite digit_val_digit_char.
    2:{ split; [apply Z.div_pos; lia |].
        assert (z / 10 ^ Z.of_nat m < 10) by (apply Z.div_lt_upper_bound; lia).
        lia. }
    apply IH; [apply Z.mod_pos_bound; lia | exact Hc].
Qed.

(** [replace("Z", "+00:00")] on the text of a UTC instant. *)
Lemma replace_Z_utc_text (y mo d h mi s : Z) (fraction : string) :
  valid_fields y mo d h mi s 0 = true ->
  replace_char "Z" "+00:00" fraction = fraction ->
  replace_char "Z" "+00:00" (utc_text y mo d h mi s fraction)
  = pad 4 y ++ "-" ++ pad 2 mo ++ "-" ++ pad 2 d ++ "T"
    ++ pad 2 h ++ ":" ++ pad 2 mi ++ ":" ++ pad 2 s ++ fraction ++ "+00:00".
Proof.
  intros V Hf.
  destruct (valid_fields_bounds _ _ _ _ _ _ _ V) as (By & Bmo & Bd & Bh & Bmi & Bs & _).
  unfold utc_text. cbn [append].
  repeat (rewrite replace_char_app, replace_char_pad by (cbn; lia);
          try rewrite replace_char_skip by reflexivity).
  rewrite replace_char_app, Hf. reflexivity.
Qed.

(** [fromisoformat] on a date and time followed by [+00:00]. *)
Lemma fromisoformat_utc (y mo d h mi s us : Z) (fraction : string) :
  valid_fields y mo d h mi s us = true ->
  (fraction = "" /\ us = 0
   \/ exists ms, fraction = "." ++ pad 3 ms /\ 0 <= ms < 1000 /\ us = ms * 1000) ->
  fromisoformat
    (VStr (pad 4 y ++ "-" ++ pad 2 mo ++ "-" ++ pad 2 d ++ "T"
           ++ pad 2 h ++ ":" ++ pad 2 mi ++ ":" ++ pad 2 s ++ fraction ++ "+00:00"))
  = Ok (mk_datetime y mo d h mi s us (Some 0)).
Proof.
  intros V Hf.
  destruct (valid_fields_bounds _ _ _ _ _ _ _ V) as (By & Bmo & Bd & Bh & Bmi & Bs & _).
  unfold fromisoformat, parse_isoformat, parse_date.
  do 3 read_pad.
  unfold parse_hh_mm_ss_ff.
  do 3 read_pad.
  destruct Hf as [[-> ->] | [ms (-> & Hms & ->)]].
  - cbn [append]. cbv beta iota.
    change (parse_offset "+00:00") with (Some (Some 0)). cbv beta iota.
    unfold datetime_new. rewrite V. reflexivity.
  - cbn [append]. cbv beta iota. unfold parse_fraction.
    rewrite (take_digits_short 3 2) by (cbn; lia || reflexivity).
    read_pad. change (starts_with_digit "+00:00") with false. cbv beta iota.
    change (parse_offset "+00:00") with (Some (Some 0)). cbv beta iota.
    unfold datetime_new. rewrite V. reflexivity.
Qed.

Lemma parse_payment_processed_at (rt : runtime) (entries fields : list (string * value))
    (pay : option Payment.t) :
  Bounty.parse_payment rt (VDict entries) = Ok pay ->
  dict_get entries "payment" = Some (VDict fields) ->
  truthy (field fields "chain" VNone) = true ->
  exists p, pay = Some p
            /\ Bounty.parse_processed_at rt (VDict fields) = Ok (Payment.processed_at p).
Proof.
  unfold Bounty.parse_payment. rewrite get_dict. unfold field at 1.
  intros H Hpay Hchain. rewrite Hpay in H. cbn [bind subscript] in H. rewrite Hpay in H.
  assert (Hne : truthy (VDict fields) = true).
  { destruct fields; [discriminate Hchain | reflexivity]. }
  rewrite Hne in H. cbn [bind] in H. rewrite !get_dict in H. cbn [bind] in H.
  rewrite Hchain in H. bind_inv H. injection H as <-.
  eexists. split; [reflexivity |]. exact Ha.
Qed.



Lemma digits2_pos_bounds (p : positive) :
  2 ^ (Z.pos (digits2_pos p) - 1) <= Z.pos p < 2 ^ Z.pos (digits2_pos p).
Proof.
  induction p as [p IH | p IH |]; cbn [digits2_pos].
  - rewrite Pos2Z.inj_succ.
    replace (Z.succ (Z.pos (digits2_pos p)) - 1) with (Z.succ (Z.pos (digits2_pos p) - 1))
      by lia.
    rewrite !Z.pow_succ_r by lia. lia.
  - rewrite Pos2Z.inj_succ.
    replace (Z.succ (Z.pos (digits2_pos p)) - 1) with (Z.succ (Z.pos (digits2_pos p) - 1))
      by lia.
    rewrite !Z.pow_succ_r by lia. lia.
  - simpl. lia.
Qed.

Lemma iter_xO_value (p d : positive) :
  Z.pos (Pos.iter xO p d) = Z.pos p * 2 ^ Z.pos d.
Proof.
  induction d as [|d IH] using Pos.peano_ind.
  - cbn [Pos.iter]. rewrite Pos2Z.inj_xO. change (2 ^ 1) with 2. lia.
  - rewrite Pos.iter_succ, Pos2Z.inj_xO, IH, Pos2Z.inj_succ, Z.pow_succ_r by lia. lia.
Qed.

Lemma iter_xO_digits (p d : positive) :
  digits2_pos (Pos.iter xO p d) = (digits2_pos p + d)%positive.
Proof.
  induction d as [|d IH] using Pos.peano_ind.
  - cbn [Pos.iter digits2_pos]. lia.
  - rewrite Pos.iter_succ. cbn [digits2_pos]. rewrite IH. lia.
Qed.

(** A double holds every integer below [2^53] in magnitude, and [int] gives
    it back. *)
Lemma int_of_float_of_Z (z : Z) :
  Z.abs z < 2 ^ 53 ->
  is_inf (float_of_Z z) = false /\ int_of_float (float_of_Z z) = Ok z.
Proof.
  intros Hz. unfold float_of_Z, binary_normalize.
  assert (Hround : forall sx p,
             Z.pos p < 2 ^ 53 ->
             exists m e, binary_round prec emax sx p 0 = S754_finite sx m e
                         /\ e <= 0 /\ Z.pos m = Z.pos p * 2 ^ (- e)).
  { intros sx p Hp. pose proof (digits2_pos_bounds p) as [Hlo Hhi].
    assert (Hk : Z.pos (digits2_pos p) <= 53).
    { destruct (Z_le_gt_dec (Z.pos (digits2_pos p)) 53) as [|Hgt]; [assumption |].
      exfalso.
      assert (2 ^ 53 <= 2 ^ (Z.pos (digits2_pos p) - 1)) by (apply Z.pow_le_mono_r; lia).
      lia. }
    unfold binary_round, shl_align, fexp, emin, prec, emax.
    replace (Z.max (Z.pos (digits2_pos p) + 0 - 53) (3 - 1024 - 53))
      with (Z.pos (digits2_pos p) - 53) by lia.
    destruct (Z.pos (digits2_pos p) - 53 - 0) as [|d|d] eqn:Ed; [| lia |].
    - exists p, 0. split; [| split; [lia | simpl; lia]].
      unfold binary_round_aux, shr_fexp, fexp, emin, Zdigits2.
      replace (Z.max (Z.pos (digits2_pos p) + 0 - 53) (3 - 1024 - 53) - 0) with 0 by lia.
      cbn [shr shr_record_of_loc shr_m loc_of_shr_record round_nearest_even].
      replace (Z.max (Z.pos (digits2_pos p) + 0 - 53) (3 - 1024 - 53) - 0) with 0 by lia.
      reflexivity.
    - exists (Pos.iter xO p d), (Z.pos (digits2_pos p) - 53).
      split; [| split; [lia |]].
      + unfold binary_round_aux, shr_fexp, fexp, emin, Zdigits2.
        rewrite iter_xO_digits.
        replace (Z.max (Z.pos (digits2_pos p + d) + (Z.pos (digits2_pos p) - 53) - 53)
                   (3 - 1024 - 53) - (Z.pos (digits2_pos p) - 53)) with 0 by lia.
        cbn [shr shr_record_of_loc shr_m loc_of_shr_record round_nearest_even].
        rewrite iter_xO_digits.
        replace (Z.max (Z.pos (digits2_pos p + d) + (Z.pos (digits2_pos p) - 53) - 53)
                   (3 - 1024 - 53) - (Z.pos (digits2_pos p) - 53)) with 0 by lia.
        cbn [shr shr_m].
        replace (Z.pos (digits2_pos p) - 53 <=? 1024 - 53) with true
          by (symmetry; apply Z.leb_le; lia).
        reflexivity.
      + rewrite iter_xO_value. f_equal. f_equal. lia. }
  assert (Hint : forall sx m e p,
             e <= 0 -> Z.pos m = Z.pos p * 2 ^ (- e) ->
             int_of_float (S754_finite sx m e) = Ok (if sx then - Z.pos p else Z.pos p)).
  { intros sx m e p He Hm. unfold int_of_float.
    destruct (0 <=? e) eqn:E0.
    - apply Z.leb_le in E0. assert (e = 0) by lia. subst e.
      change (2 ^ (- 0)) with 1 in Hm. rewrite Z.mul_1_r in Hm.
      change (2 ^ 0) with 1. rewrite Z.mul_1_r, Hm. reflexivity.
    - rewrite Hm, Z.div_mul by (apply Z.pow_nonzero; lia). reflexivity. }
  destruct z as [|p|p].
  - split; reflexivity.
  - destruct (Hround false p Hz) as (m & e & -> & He & Hm).
    split; [reflexivity |]. apply (Hint false m e p He Hm).
  - destruct (Hround true p Hz) as (m & e & -> & He & Hm).
    split; [reflexivity |]. apply (Hint true m e p He Hm).
Qed.



(* ================================================================== *)
(** * The session of the asynchronous client *)
(* ================================================================== *)

Lemma close_nth_length (i : nat) (l : list bool) :
  List.length (Session.close_nth i l) = List.length l.
Proof.
  revert i. induction l as [|s rest IH]; intros [|j]; simpl; try reflexivity.
  rewrite IH. reflexivity.
Qed.

Lemma close_nth_same (i : nat) (l : list bool) :
  nth_error (Session.close_nth i l) i <> Some false.
Proof.
  revert i. induction l as [|s rest IH]; intros [|j]; simpl; try discriminate.
  apply IH.
Qed.

Lemma close_nth_other (i j : nat) (l : list bool) :
  i <> j -> nth_error (Session.close_nth j l) i = nth_error l i.
Proof.
  revert i j. induction l as [|s rest IH]; intros [|i] [|j] H; simpl;
    try reflexivity; try congruence.
  apply IH. congruence.
Qed.

Lemma close_nth_open (i j : nat) (l : list bool) :
  nth_error (Session.close_nth j l) i = Some false ->
  i <> j /\ nth_error l i = Some false.
Proof.
  intros H. destruct (Nat.eq_dec i j) as [-> | Hne].
  - exfalso. exact (close_nth_same _ _ H).
  - split; [exact Hne |]. rewrite <- (close_nth_other i j l Hne). exact H.
Qed.

Lemma nth_error_snoc_open (l : list bool) (i : nat) :
  nth_error (l ++ [false]) i = Some false ->
  nth_error l i = Some false \/ i = List.length l.
Proof.
  intros H. destruct (Nat.lt_ge_cases i (List.length l)) as [Hlt | Hge].
  - left. rewrite nth_error_app1 in H by exact Hlt. exact H.
  - right. assert (Hi : (i < List.length (l ++ [false]))%nat).
    { apply nth_error_Some. rewrite H. discriminate. }
    rewrite length_app in Hi. simpl in Hi. lia.
Qed.

Lemma tracked_init : tracked Session.init.
Proof.
  split.
  - intros i H. discriminate H.
  - intros [i [H _]]. destruct i; discriminate H.
Qed.

Lemma valid_open_session (c : Session.t) : Session.valid (Session.open_session c).
Proof.
  intros i H. simpl in *. injection H as <-. rewrite length_app. simpl. lia.
Qed.

Lemma valid_step (c : Session.t) (o : Session.op) :
  Session.valid c -> Session.valid (Session.step c o).
Proof.
  intros V. destruct o; simpl.
  - apply valid_open_session.
  - unfold Session.aexit. destruct (Session.held c) as [j|] eqn:E; [| exact V].
    intros i H. simpl in *. rewrite close_nth_length. apply V. congruence.
  - unfold Session._ensure_session. destruct (Session.held c); [exact V |].
    apply valid_open_session.
  - unfold Session.close. destruct (Session.held c) as [j|] eqn:E; [| exact V].
    intros i H. discriminate H.
Qed.

Lemma tracked_open_session (c : Session.t) :
  tracked c -> Session.held c = None -> tracked (Session.open_session c).
Proof.
  intros [V L] Hnone. split; [apply valid_open_session |].
  intros [i [Hopen Hheld]]. simpl in *.
  destruct (nth_error_snoc_open _ _ Hopen) as [Hold | ->].
  - apply L. exists i. split; [exact Hold |]. rewrite Hnone. discriminate.
  - apply Hheld. reflexivity.
Qed.

Lemma tracked_step (c : Session.t) (o : Session.op) :
  o <> Session.Enter -> tracked c -> tracked (Session.step c o).
Proof.
  intros Ho T. pose proof T as [V L]. split; [apply valid_step; exact V |].
  destruct o; simpl; [congruence | | |].
  - unfold Session.aexit. destruct (Session.held c) as [j|] eqn:E; [| exact L].
    intros [i [Hopen Hheld]]. simpl in *.
    destruct (close_nth_open _ _ _ Hopen) as [Hne Hold].
    apply L. exists i. split; [exact Hold |]. rewrite E. congruence.
  - unfold Session._ensure_session. destruct (Session.held c) as [j|] eqn:E; [exact L |].
    apply (tracked_open_session c T E).
  - unfold Session.close. destruct (Session.held c) as [j|] eqn:E; [| exact L].
    intros [i [Hopen _]]. simpl in *.
    destruct (close_nth_open _ _ _ Hopen) as [Hne Hold].
    apply L. exists i. split; [exact Hold |]. rewrite E. congruence.
Qed.

Lemma tracked_run (ops : list Session.op) :
  Forall (fun o => o <> Session.Enter) ops ->
  forall c, tracked c -> tracked (Session.run ops c).
Proof.
  induction 1 as [| o ops Ho _ IH]; intros c T; [exact T |].
  apply IH. apply tracked_step; assumption.
Qed.



Lemma stale_step (c : Session.t) (o : Session.op) :
  o = Session.Request \/ o = Session.Exit -> stale c -> stale (Session.step c o).
Proof.
  intros [-> | ->] [j [Hj Hclosed]]; simpl.
  - unfold Session._ensure_session. rewrite Hj. exists j. split; assumption.
  - unfold Session.aexit. rewrite Hj. exists j. split; [reflexivity |].
    simpl. apply close_nth_same.
Qed.



Lemma calls_of_sleeps (ds : list spec_float) : calls (map Sleep ds) = 0%nat.
Proof. induction ds as [|d ds IH]; [reflexivity | exact IH]. Qed.

Lemma sleeps_of_sleeps (ds : list spec_float) : sleeps (map Sleep ds) = ds.
Proof. induction ds as [|d ds IH]; [reflexivity |]. simpl. rewrite IH. reflexivity. Qed.

(** The loop on a closed session: a sleep after every attempt but the last,
    no call, and the error of the session as the cause. *)
Lemma attempts_closed_shape (self : AsyncBountyClient.t) :
  forall remaining attempt : nat,
    Z.of_nat (attempt + remaining) = AsyncBountyClient.max_retries self ->
    (0 < remaining)%nat ->
    AsyncBountyClient.attempts_closed self remaining attempt
    = (map Sleep (map (fun j => AsyncBountyClient.backoff self (Z.of_nat j))
                    (seq attempt (remaining - 1))),
       Raise (BountyBoardError (RequestFailed (RuntimeError "Session is closed")))).
Proof.
  induction remaining as [|n IH]; intros attempt Hmax Hpos; [lia |].
  cbn [AsyncBountyClient.attempts_closed].
  unfold AsyncBountyClient.attempt_closed, AsyncBountyClient.on_exception,
    AsyncBountyClient.sleep_and_retry.
  destruct n as [|n'].
  - replace (Z.of_nat attempt <? AsyncBountyClient.max_retries self - 1) with false
      by (symmetry; apply Z.ltb_ge; lia).
    reflexivity.
  - replace (Z.of_nat attempt <? AsyncBountyClient.max_retries self - 1) with true
      by (symmetry; apply Z.ltb_lt; lia).
    cbn [asyncio_sleep]. rewrite IH by lia.
    replace (S (S n') - 1)%nat with (S (S n' - 1)) by lia.
    reflexivity.
Qed.

Lemma holds_open_usable (c : Session.t) :
  Session.holds_open c = true <-> Session.usable c.
Proof.
  unfold Session.holds_open, Session.usable. split.
  - destruct (Session.held c) as [i|]; [| discriminate].
    destruct (nth_error (Session.made c) i) as [[|]|] eqn:E; try discriminate.
    intros _. exists i. split; [reflexivity | exact E].
  - intros [i [-> ->]]. reflexivity.
Qed.

Lemma stale_not_open (c : Session.t) : stale c -> Session.holds_open c = false.
Proof.
  intros [j [Hj Hclosed]]. unfold Session.holds_open. rewrite Hj.
  destruct (nth_error (Session.made c) j) as [[|]|] eqn:E;
    [reflexivity | exfalso; exact (Hclosed eq_refl) | reflexivity].
Qed.

Lemma stale_run (ops : list Session.op) :
  Forall (fun o => o = Session.Request \/ o = Session.Exit) ops ->
  forall c, stale c -> stale (Session.run ops c).
Proof.
  induction 1 as [| o ops Ho _ IH]; intros c S0; [exact S0 |].
  apply IH. apply stale_step; assumption.
Qed.

Lemma stale_aexit (c : Session.t) : Session.held c <> None -> stale (Session.aexit c).
Proof.
  intros Hheld. unfold Session.aexit.
  destruct (Session.held c) as [j|] eqn:E; [| congruence].
  exists j. split; [reflexivity | apply close_nth_same].
Qed.





(* ================================================================== *)
(** * Bodies that do not decode *)
(* ================================================================== *)


